(** * google-slide-manager: ordinal resolution, batch assembly and text walking

    A shallow embedding of the service layer of google-slide-manager
    (packages [presentation], [slide], [table], [text], [notes], [shape]
    and [style]) together with the properties the specification states
    about it.

    Conventions of the embedding.
    - A Go [string] is a Rocq [string]: a sequence of bytes.
    - A Go [int] / [int64] is a [Z]; every value that occurs stays inside
      the 64-bit range, the only place where the range matters is
      [strconv.Atoi], which checks it.
    - A Go pointer that the code compares with [nil] is an [option].
    - A function returning [(T, error)] returns an [outcome T]; a run-time
      panic (slice index out of range, nil dereference) is the third
      constructor [Panic].
    - The remote services and the clock are the environment [Env]; a
      service method is a function from the [World] (the calls issued so
      far, the number of clock readings taken) to an outcome and the next
      world. *)

From Stdlib Require Import ZArith List Ascii String Lia QArith.
From stdpp Require Import base option list strings pretty gmap.

Local Open Scope string_scope.
Local Open Scope list_scope.
Local Open Scope Z_scope.

(** ** Outcomes of a Go call *)

Inductive outcome (A : Type) : Type :=
| Ok (a : A)            (* the function returned [a, nil] *)
| Err (msg : string)    (* the function returned an error whose text is [msg] *)
| Panic (msg : string). (* the goroutine panicked *)
Arguments Ok {A} a.
Arguments Err {A} msg.
Arguments Panic {A} msg.

Definition is_Err {A} (o : outcome A) : bool :=
  match o with Err _ => true | _ => false end.

(** ** The part of google.golang.org/api/slides/v1 the code reads *)

Module slides.

Record TextRun := { Content : string }.

Record TextElement := { TextRun_ : option TextRun }.

Record TextContent := { TextElements : list TextElement }.

Record Shape := { Text : option TextContent }.

Record PageElement := {
  ObjectId : string;
  Shape_ : option Shape
}.

(** A page is a slide or a notes page.  Only slides carry slide
    properties, and the notes page hangs off them. *)
Inductive Page : Type :=
| mkPage (objectId : string) (pageElements : list PageElement)
         (slideProperties : option SlideProperties)
with SlideProperties : Type :=
| mkSlideProperties (notesPage : option Page).

Definition PageObjectId (p : Page) : string :=
  match p with mkPage i _ _ => i end.
Definition PageElements (p : Page) : list PageElement :=
  match p with mkPage _ es _ => es end.
Definition SlideProperties_ (p : Page) : option SlideProperties :=
  match p with mkPage _ _ sp => sp end.
Definition NotesPage (sp : SlideProperties) : option Page :=
  match sp with mkSlideProperties n => n end.

Record Presentation := {
  PresentationId : string;
  Title : string;
  Slides : list Page
}.

(** ** Requests of a batch update *)

Record PageElementProperties := {
  PageObjectId_ : string;
  Width : Z; Height : Z;                 (* magnitudes, unit PT *)
  ScaleX : Z; ScaleY : Z;
  TranslateX : Z; TranslateY : Z         (* unit PT *)
}.

Record TableCellLocation := { RowIndex : Z; ColumnIndex : Z }.

(** [float64(r) / 255.0] is kept as the fraction it denotes. *)
Record RgbColor := { Red : Q; Green : Q; Blue : Q }.
Record OpaqueColor := { RgbColor_ : RgbColor }.

Inductive Request : Type :=
| CreateSlide (objectId layout : string) (insertionIndex : Z)
| DuplicateObject (objectId : string)
| DeleteObject (objectId : string)
| UpdateSlidesPosition (slideObjectIds : list string) (insertionIndex : Z)
| CreateTable (objectId : string) (props : PageElementProperties) (rows columns : Z)
| CreateShape (objectId shapeType : string) (props : PageElementProperties)
| InsertText (objectId : string) (cell : option TableCellLocation)
             (text : string) (insertionIndex : Z)
| UpdateTableCellProperties (objectId : string) (color : option OpaqueColor)
             (location : TableCellLocation) (rowSpan columnSpan : Z)
             (fields : string)
| ReplaceAllText (containsText : string) (matchCase : bool) (replaceText : string).

End slides.
Import slides.

(** ** The environment: remote services and clock *)

Inductive Call : Type :=
| PresentationsCreate (title : string)
| PresentationsGet (presentationID : string)
| PresentationsBatchUpdate (presentationID : string) (requests : list Request)
| FilesUpdateAddParents (fileID folderID : string).

Inductive reply (A : Type) : Type :=
| Reply (a : A)
| Fault (msg : string).
Arguments Reply {A} a.
Arguments Fault {A} msg.

(** What a remote service answers may depend on everything that was
    asked before; [unixNano n] is what the [n]-th reading of
    [time.Now().UnixNano()] in this process returns. *)
Record Env := {
  presentationsCreate : list Call -> string -> reply Presentation;
  presentationsGet : list Call -> string -> reply Presentation;
  presentationsBatchUpdate : list Call -> string -> list Request -> reply unit;
  filesUpdateAddParents : list Call -> string -> string -> reply unit;
  unixNano : nat -> Z
}.

Record World := {
  calls : list Call;     (* remote calls issued so far, oldest first *)
  clockReads : nat       (* clock readings taken so far *)
}.

Definition World0 : World := {| calls := []; clockReads := 0 |}.

Definition M (A : Type) : Type := World -> outcome A * World.

Definition ret {A} (a : A) : M A := fun w => (Ok a, w).

Definition bind {A B} (c : M A) (k : A -> M B) : M B :=
  fun w =>
    match c w with
    | (Ok a, w') => k a w'
    | (Err e, w') => (Err e, w')
    | (Panic e, w') => (Panic e, w')
    end.

Definition fail {A} (msg : string) : M A := fun w => (Err msg, w).
Definition panic {A} (msg : string) : M A := fun w => (Panic msg, w).

(** A pure computation that may fail or panic, run inside [M]. *)
Definition lift {A} (o : outcome A) : M A := fun w => (o, w).

Notation "x <~ c ;; k" := (bind c (fun x => k))
  (at level 100, c at next level, right associativity).
Notation "c ;;; k" := (bind c (fun _ => k))
  (at level 100, k at level 200, right associativity).

Definition issue (c : Call) (w : World) : World :=
  {| calls := calls w ++ [c]; clockReads := clockReads w |}.

(** [x, err := call.Do(); if err != nil { return fmt.Errorf(ctx + ": %w", err) }] *)
Definition orWrap {A} (context : string) (r : reply A) : outcome A :=
  match r with
  | Reply a => Ok a
  | Fault e => Err (context +:+ ": " +:+ e)
  end.

Section Remote.
Variable env : Env.

Definition PresentationsCreateDo (title : string) : M (reply Presentation) :=
  fun w => (Ok (presentationsCreate env (calls w) title),
            issue (PresentationsCreate title) w).

Definition PresentationsGetDo (presentationID : string) : M (reply Presentation) :=
  fun w => (Ok (presentationsGet env (calls w) presentationID),
            issue (PresentationsGet presentationID) w).

Definition PresentationsBatchUpdateDo (presentationID : string)
    (requests : list Request) : M (reply unit) :=
  fun w => (Ok (presentationsBatchUpdate env (calls w) presentationID requests),
            issue (PresentationsBatchUpdate presentationID requests) w).

Definition FilesUpdateAddParentsDo (fileID folderID : string) : M (reply unit) :=
  fun w => (Ok (filesUpdateAddParents env (calls w) fileID folderID),
            issue (FilesUpdateAddParents fileID folderID) w).

(** [time.Now().UnixNano()] *)
Definition timeNowUnixNano : M Z :=
  fun w => (Ok (unixNano env (clockReads w)),
            {| calls := calls w; clockReads := S (clockReads w) |}).
End Remote.

(** ** Slices *)

(** [len(l)] as a Go [int]. *)
Definition len {A} (l : list A) : Z := Z.of_nat (length l).

(** [p.f] for a pointer [p]: panics when [p] is nil. *)
Definition deref {A} (p : option A) : outcome A :=
  match p with
  | Some a => Ok a
  | None => Panic "nil pointer dereference"
  end.

(** [l[i]]: panics unless [0 <= i < len(l)]. *)
Definition index {A} (l : list A) (i : Z) : outcome A :=
  if i <? 0 then Panic "index out of range"
  else match l !! Z.to_nat i with
       | Some x => Ok x
       | None => Panic "index out of range"
       end.

(** ** The functions of the Go standard library the code calls *)

Definition byteOf (c : ascii) : Z := Z.of_N (N_of_ascii c).

Module gostrings.

(** [strings.HasPrefix] *)
Fixpoint HasPrefix (s prefix : string) : bool :=
  match prefix, s with
  | EmptyString, _ => true
  | String p prefix', String c s' => Ascii.eqb c p && HasPrefix s' prefix'
  | String _ _, EmptyString => false
  end.

(** [strings.TrimPrefix] *)
Definition TrimPrefix (s prefix : string) : string :=
  if HasPrefix s prefix
  then String.substring (String.length prefix)
                        (String.length s - String.length prefix) s
  else s.

(** [strings.Contains]: a byte-wise substring test. *)
Fixpoint Contains (s substr : string) : bool :=
  HasPrefix s substr ||
  match s with
  | EmptyString => false
  | String _ s' => Contains s' substr
  end.

(** [strings.Split(s, sep)] for a separator of one byte: the pieces
    between the separators, so one piece more than there are
    separators ([Split("", ",")] is [[""]]). *)
Fixpoint Split (s : string) (sep : ascii) : list string :=
  match s with
  | EmptyString => [EmptyString]
  | String c s' =>
      if Ascii.eqb c sep then EmptyString :: Split s' sep
      else match Split s' sep with
           | piece :: pieces => String c piece :: pieces
           | [] => [String c EmptyString]
           end
  end.

(** [unicode.IsSpace] on the encodings of the white-space runes:
    the six ASCII ones, U+0085 and U+00A0 (two bytes), and U+1680,
    U+2000..U+200A, U+2028, U+2029, U+202F, U+205F, U+3000 (three). *)
Definition asciiSpace (c : ascii) : bool :=
  let b := byteOf c in ((9 <=? b) && (b <=? 13)) || (b =? 32).

Definition space2 (c d : ascii) : bool :=
  (byteOf c =? 194) && ((byteOf d =? 133) || (byteOf d =? 160)).

Definition space3 (c d e : ascii) : bool :=
  let x := byteOf e in
  ((byteOf c =? 225) && (byteOf d =? 154) && (x =? 128))
  || ((byteOf c =? 226) && (byteOf d =? 128)
      && (((128 <=? x) && (x <=? 138)) || (x =? 168) || (x =? 169) || (x =? 175)))
  || ((byteOf c =? 226) && (byteOf d =? 129) && (x =? 159))
  || ((byteOf c =? 227) && (byteOf d =? 128) && (x =? 128)).

(** Drops the white-space runes at the head of [s]; [two] and [three]
    recognise a two- and a three-byte rune from its bytes in the order
    they are met. *)
Fixpoint dropSpaces (two : ascii -> ascii -> bool)
    (three : ascii -> ascii -> ascii -> bool) (s : string) : string :=
  match s with
  | EmptyString => EmptyString
  | String c r =>
      if asciiSpace c then dropSpaces two three r
      else match r with
           | EmptyString => s
           | String d r2 =>
               if two c d then dropSpaces two three r2
               else match r2 with
                    | EmptyString => s
                    | String e r3 =>
                        if three c d e then dropSpaces two three r3 else s
                    end
           end
  end.

Definition TrimLeftSpace (s : string) : string := dropSpaces space2 space3 s.

(** From the right the bytes of a rune are met last byte first. *)
Definition TrimRightSpace (s : string) : string :=
  String.rev (dropSpaces (fun d c => space2 c d)
                         (fun e d c => space3 c d e) (String.rev s)).

(** [strings.TrimSpace] *)
Definition TrimSpace (s : string) : string := TrimRightSpace (TrimLeftSpace s).

Definition isASCII (s : string) : bool :=
  forallb (fun c => byteOf c <? 128) (list_ascii_of_string s).

Definition lowerByte (c : ascii) : ascii :=
  if (65 <=? byteOf c) && (byteOf c <=? 90)
  then ascii_of_N (N_of_ascii c + 32) else c.

Fixpoint mapBytes (f : ascii -> ascii) (s : string) : string :=
  match s with
  | EmptyString => EmptyString
  | String c s' => String (f c) (mapBytes f s')
  end.

Section ToLower.
(** [strings.Map(unicode.ToLower, s)], which [strings.ToLower] falls
    back to when [s] has a byte outside ASCII; the Unicode case
    tables it consults are not part of this repository. *)
Variable MapUnicodeToLower : string -> string.

(** [strings.ToLower] *)
Definition ToLower (s : string) : string :=
  if isASCII s then mapBytes lowerByte s else MapUnicodeToLower s.
End ToLower.

End gostrings.

Module strconv.

Definition minInt : Z := - 2 ^ 63.
Definition maxInt : Z := 2 ^ 63 - 1.

Definition digit (c : ascii) : option Z :=
  if (48 <=? byteOf c) && (byteOf c <=? 57) then Some (byteOf c - 48) else None.

Fixpoint digits (s : string) (n : Z) : option Z :=
  match s with
  | EmptyString => Some n
  | String c s' =>
      match digit c with
      | Some d => digits s' (n * 10 + d)
      | None => None
      end
  end.

(** [strconv.Atoi]: an optional sign, then one or more decimal digits,
    and the value must fit a 64-bit [int]; [None] is a non-nil error. *)
Definition Atoi (s : string) : option Z :=
  let '(neg, body) :=
    match s with
    | String "-" r => (true, r)
    | String "+" r => (false, r)
    | _ => (false, s)
    end in
  match body with
  | EmptyString => None
  | _ =>
      match digits body 0 with
      | None => None
      | Some n =>
          let v := if neg then - n else n in
          if (minInt <=? v) && (v <=? maxInt) then Some v else None
      end
  end.

End strconv.

(** [fmt.Sprintf("%d", n)] *)
Definition fmt_d (n : Z) : string := pretty n.

(** ** Package slide *)

Module slide.
Section Service.
Variable env : Env.

(** generateObjectID generates a unique object ID using timestamp. *)
Definition generateObjectID (prefix : string) : M string :=
  now <~ timeNowUnixNano env ;;
  ret (prefix +:+ "_" +:+ fmt_d now).

(** Add adds a new slide to the presentation.  [InsertionIndex] keeps
    its zero value unless [position >= 0]. *)
Definition Add (presentationID layout : string) (position : Z) : M string :=
  slideID <~ generateObjectID "slide" ;;
  let requests :=
    [CreateSlide slideID layout (if position >=? 0 then position else 0)] in
  r <~ PresentationsBatchUpdateDo env presentationID requests ;;
  lift (orWrap "error adding slide" r) ;;;
  ret slideID.

(** Duplicate duplicates an existing slide. *)
Definition Duplicate (presentationID : string) (slideIndex : Z) : M unit :=
  r <~ PresentationsGetDo env presentationID ;;
  presentation <~ lift (orWrap "error getting presentation" r) ;;
  if slideIndex >=? len (Slides presentation)
  then fail "slide index out of range"
  else
    slide <~ lift (index (Slides presentation) slideIndex) ;;
    let slideID := PageObjectId slide in
    let requests := [DuplicateObject slideID] in
    r <~ PresentationsBatchUpdateDo env presentationID requests ;;
    lift (orWrap "error duplicating slide" r) ;;;
    ret tt.

(** Move moves a slide to a new position. *)
Definition Move (presentationID : string) (slideIndex newPosition : Z) : M unit :=
  r <~ PresentationsGetDo env presentationID ;;
  presentation <~ lift (orWrap "error getting presentation" r) ;;
  if slideIndex >=? len (Slides presentation)
  then fail "slide index out of range"
  else
    slide <~ lift (index (Slides presentation) slideIndex) ;;
    let slideID := PageObjectId slide in
    let requests := [UpdateSlidesPosition [slideID] newPosition] in
    r <~ PresentationsBatchUpdateDo env presentationID requests ;;
    lift (orWrap "error moving slide" r) ;;;
    ret tt.

(** Remove removes a slide from the presentation. *)
Definition Remove (presentationID : string) (slideIndex : Z) : M unit :=
  r <~ PresentationsGetDo env presentationID ;;
  presentation <~ lift (orWrap "error getting presentation" r) ;;
  if slideIndex >=? len (Slides presentation)
  then fail "slide index out of range"
  else
    slide <~ lift (index (Slides presentation) slideIndex) ;;
    let slideID := PageObjectId slide in
    let requests := [DeleteObject slideID] in
    r <~ PresentationsBatchUpdateDo env presentationID requests ;;
    lift (orWrap "error removing slide" r) ;;;
    ret tt.

(** The first loop of Reorder:
    [for _, s := range strings.Split(indicesStr, ",")], appending to
    [indices] and returning at the first token that does not parse. *)
Fixpoint parseIndices (tokens : list string) (indices : list Z)
    : outcome (list Z) :=
  match tokens with
  | [] => Ok indices
  | s :: tokens' =>
      match strconv.Atoi (gostrings.TrimSpace s) with
      | None => Err ("invalid index: " +:+ s)
      | Some idx => parseIndices tokens' (indices ++ [idx])
      end
  end.

(** The second loop of Reorder:
    [for newPosition, oldIndex := range indices], appending to
    [requests]; [newPosition] is the position reached in [indices]. *)
Fixpoint buildRequests (slides : list Page) (indices : list Z)
    (newPosition : Z) (requests : list Request) : outcome (list Request) :=
  match indices with
  | [] => Ok requests
  | oldIndex :: indices' =>
      if oldIndex >=? len slides
      then Err ("slide index " +:+ fmt_d oldIndex +:+ " out of range")
      else
        match index slides oldIndex with
        | Ok slide =>
            let slideID := PageObjectId slide in
            buildRequests slides indices' (newPosition + 1)
              (requests ++ [UpdateSlidesPosition [slideID] newPosition])
        | Err e => Err e
        | Panic e => Panic e
        end
  end.

(** Reorder reorders slides according to the provided indices. *)
Definition Reorder (presentationID indicesStr : string) : M unit :=
  indices <~ lift (parseIndices (gostrings.Split indicesStr ",") []) ;;
  r <~ PresentationsGetDo env presentationID ;;
  presentation <~ lift (orWrap "error getting presentation" r) ;;
  requests <~ lift (buildRequests (Slides presentation) indices 0 []) ;;
  r <~ PresentationsBatchUpdateDo env presentationID requests ;;
  lift (orWrap "error reordering slides" r) ;;;
  ret tt.

End Service.
End slide.

(** ** Package table *)

Module table.
Section Service.
Variable env : Env.

(** [fmt.Sscanf(hexColor, "%02x%02x%02x", &r, &g, &b)] with [r], [g]
    and [b] zero before the call: the values the three variables hold
    after it.  The error Sscanf returns is dropped by the caller. *)
Variable Sscanf_rgb : string -> Z * Z * Z.

(** generateObjectID generates a unique object ID using timestamp. *)
Definition generateObjectID (prefix : string) : M string :=
  now <~ timeNowUnixNano env ;;
  ret (prefix +:+ "_" +:+ fmt_d now).

(** Create creates a table on a slide. *)
Definition Create (presentationID : string) (slideIndex rows cols : Z)
    : M string :=
  r <~ PresentationsGetDo env presentationID ;;
  presentation <~ lift (orWrap "error getting presentation" r) ;;
  if slideIndex >=? len (Slides presentation)
  then fail "slide index out of range"
  else
    slide <~ lift (index (Slides presentation) slideIndex) ;;
    let slideID := PageObjectId slide in
    tableID <~ generateObjectID "table" ;;
    let requests :=
      [CreateTable tableID
         {| PageObjectId_ := slideID; Width := 400; Height := 200;
            ScaleX := 1; ScaleY := 1; TranslateX := 50; TranslateY := 50 |}
         rows cols] in
    r <~ PresentationsBatchUpdateDo env presentationID requests ;;
    lift (orWrap "error creating table" r) ;;;
    ret tableID.

(** UpdateCell updates a table cell content. *)
Definition UpdateCell (presentationID tableID : string) (row col : Z)
    (text : string) : M unit :=
  let requests :=
    [InsertText tableID (Some {| RowIndex := row; ColumnIndex := col |}) text 0] in
  r <~ PresentationsBatchUpdateDo env presentationID requests ;;
  lift (orWrap "error updating cell" r) ;;;
  ret tt.

(** parseColor converts hex color to OpaqueColor. *)
Definition parseColor (hexColor : string) : option OpaqueColor :=
  let hexColor := gostrings.TrimPrefix hexColor "#" in
  if negb (Z.of_nat (String.length hexColor) =? 6) then None
  else
    let '(r, g, b) := Sscanf_rgb hexColor in
    Some {| RgbColor_ := {| Red := Qmake r 255;
                            Green := Qmake g 255;
                            Blue := Qmake b 255 |} |}.

(** StyleCell applies styling to a table cell. *)
Definition StyleCell (presentationID tableID : string) (row col : Z)
    (bgColor : string) : M unit :=
  let requests :=
    [UpdateTableCellProperties tableID (parseColor bgColor)
       {| RowIndex := row; ColumnIndex := col |} 1 1
       "tableCellBackgroundFill.solidFill.color"] in
  r <~ PresentationsBatchUpdateDo env presentationID requests ;;
  lift (orWrap "error styling cell" r) ;;;
  ret tt.

End Service.

Definition hexDigit (c : ascii) : option Z :=
  let b := byteOf c in
  if (48 <=? b) && (b <=? 57) then Some (b - 48)
  else if (97 <=? b) && (b <=? 102) then Some (b - 87)
  else if (65 <=? b) && (b <=? 70) then Some (b - 55)
  else None.

(** What Sscanf stores for six hexadecimal digits: the three byte
    values.  On any other string this function answers [(0, 0, 0)] and
    is not meant to describe Sscanf. *)
Definition scanSixHexDigits (s : string) : Z * Z * Z :=
  match list_ascii_of_string s with
  | [a; b; c; d; e; f] =>
      match hexDigit a, hexDigit b, hexDigit c, hexDigit d, hexDigit e, hexDigit f with
      | Some a, Some b, Some c, Some d, Some e, Some f =>
          (16 * a + b, 16 * c + d, 16 * e + f)
      | _, _, _, _, _, _ => (0, 0, 0)
      end
  | _ => (0, 0, 0)
  end.

End table.

(** ** Package shape *)

Module shape.
Section Service.
Variable env : Env.

(** generateObjectID generates a unique object ID using timestamp. *)
Definition generateObjectID (prefix : string) : M string :=
  now <~ timeNowUnixNano env ;;
  ret (prefix +:+ "_" +:+ fmt_d now).

(** Add adds a shape to a slide. *)
Definition Add (presentationID : string) (slideIndex : Z) (shapeType : string)
    : M string :=
  r <~ PresentationsGetDo env presentationID ;;
  presentation <~ lift (orWrap "error getting presentation" r) ;;
  if slideIndex >=? len (Slides presentation)
  then fail "slide index out of range"
  else
    slide <~ lift (index (Slides presentation) slideIndex) ;;
    let slideID := PageObjectId slide in
    shapeID <~ generateObjectID "shape" ;;
    let requests :=
      [CreateShape shapeID shapeType
         {| PageObjectId_ := slideID; Width := 100; Height := 100;
            ScaleX := 1; ScaleY := 1; TranslateX := 100; TranslateY := 100 |}] in
    r <~ PresentationsBatchUpdateDo env presentationID requests ;;
    lift (orWrap "error adding shape" r) ;;;
    ret shapeID.

End Service.
End shape.

(** ** Package text *)

Definition LF : string := String (ascii_of_nat 10) EmptyString.

Module text.

(** SearchResult represents a text search result. *)
Record SearchResult := {
  SlideIndex : Z;
  ObjectID : string;
  Text : string
}.

Section Service.
Variable env : Env.
Variable MapUnicodeToLower : string -> string.

(** [for _, textElement := range element.Shape.Text.TextElements],
    writing every text run to the builder [allText]. *)
Fixpoint writeRuns (textElements : list TextElement) (allText : string)
    : string :=
  match textElements with
  | [] => allText
  | textElement :: rest =>
      match TextRun_ textElement with
      | Some run => writeRuns rest (allText +:+ Content run)
      | None => writeRuns rest allText
      end
  end.

(** [for _, element := range slide.PageElements] of ExtractAll. *)
Fixpoint writeElements (elements : list PageElement) (allText : string)
    : string :=
  match elements with
  | [] => allText
  | element :: rest =>
      match Shape_ element with
      | Some shape =>
          match slides.Text shape with
          | Some body =>
              writeElements rest (writeRuns (TextElements body) allText +:+ LF)
          | None => writeElements rest allText
          end
      | None => writeElements rest allText
      end
  end.

(** [for _, slide := range presentation.Slides] of ExtractAll. *)
Fixpoint writeSlides (slides : list Page) (allText : string) : string :=
  match slides with
  | [] => allText
  | slide :: rest =>
      writeSlides rest
        (writeElements (PageElements slide) allText +:+ LF +:+ "---" +:+ LF +:+ LF)
  end.

(** ExtractAll extracts all text from a presentation. *)
Definition ExtractAll (presentationID : string) : M string :=
  r <~ PresentationsGetDo env presentationID ;;
  presentation <~ lift (orWrap "error getting presentation" r) ;;
  ret (writeSlides (Slides presentation) "").

(** Replace replaces all occurrences of find text with replace text. *)
Definition Replace (presentationID findText replaceText : string) : M unit :=
  let requests := [ReplaceAllText findText false replaceText] in
  r <~ PresentationsBatchUpdateDo env presentationID requests ;;
  lift (orWrap "error replacing text" r) ;;;
  ret tt.

(** The innermost loop of Search, over the text elements of [element]. *)
Fixpoint searchRuns (slideIdx : Z) (element : PageElement)
    (textElements : list TextElement) (query : string)
    (results : list SearchResult) : list SearchResult :=
  match textElements with
  | [] => results
  | textElement :: rest =>
      match TextRun_ textElement with
      | Some run =>
          if gostrings.Contains
               (gostrings.ToLower MapUnicodeToLower (Content run))
               (gostrings.ToLower MapUnicodeToLower query)
          then searchRuns slideIdx element rest query
                 (results ++ [{| SlideIndex := slideIdx;
                                 ObjectID := ObjectId element;
                                 Text := Content run |}])
          else searchRuns slideIdx element rest query results
      | None => searchRuns slideIdx element rest query results
      end
  end.

(** [for _, element := range slide.PageElements] of Search. *)
Fixpoint searchElements (slideIdx : Z) (elements : list PageElement)
    (query : string) (results : list SearchResult) : list SearchResult :=
  match elements with
  | [] => results
  | element :: rest =>
      match Shape_ element with
      | Some shape =>
          match slides.Text shape with
          | Some body =>
              searchElements slideIdx rest query
                (searchRuns slideIdx element (TextElements body) query results)
          | None => searchElements slideIdx rest query results
          end
      | None => searchElements slideIdx rest query results
      end
  end.

(** [for slideIdx, slide := range presentation.Slides] of Search. *)
Fixpoint searchSlides (slides : list Page) (slideIdx : Z) (query : string)
    (results : list SearchResult) : list SearchResult :=
  match slides with
  | [] => results
  | slide :: rest =>
      searchSlides rest (slideIdx + 1) query
        (searchElements slideIdx (PageElements slide) query results)
  end.

(** Search searches for text in a presentation and returns matches. *)
Definition Search (presentationID query : string) : M (list SearchResult) :=
  r <~ PresentationsGetDo env presentationID ;;
  presentation <~ lift (orWrap "error getting presentation" r) ;;
  ret (searchSlides (Slides presentation) 0 query []).

End Service.
End text.

(** ** Package notes *)

Module notes.
Section Service.
Variable env : Env.

(** [for _, textElement := range element.Shape.Text.TextElements],
    writing every text run to the builder [notesText]. *)
Fixpoint writeRuns (textElements : list TextElement) (notesText : string)
    : string :=
  match textElements with
  | [] => notesText
  | textElement :: rest =>
      match TextRun_ textElement with
      | Some run => writeRuns rest (notesText +:+ Content run)
      | None => writeRuns rest notesText
      end
  end.

(** [for _, element := range notesPage.PageElements] of Get and
    ExtractAll. *)
Fixpoint writeElements (elements : list PageElement) (notesText : string)
    : string :=
  match elements with
  | [] => notesText
  | element :: rest =>
      match Shape_ element with
      | Some shape =>
          match slides.Text shape with
          | Some body => writeElements rest (writeRuns (TextElements body) notesText)
          | None => writeElements rest notesText
          end
      | None => writeElements rest notesText
      end
  end.

(** Get retrieves speaker notes from a slide. *)
Definition Get (presentationID : string) (slideIndex : Z) : M string :=
  r <~ PresentationsGetDo env presentationID ;;
  presentation <~ lift (orWrap "error getting presentation" r) ;;
  if slideIndex >=? len (Slides presentation)
  then fail "slide index out of range"
  else
    slide <~ lift (index (Slides presentation) slideIndex) ;;
    properties <~ lift (deref (SlideProperties_ slide)) ;;
    match NotesPage properties with
    | None => ret ""
    | Some notesPage => ret (writeElements (PageElements notesPage) "")
    end.

(** The loop of Add that looks for the notes shape: it stops at the
    first element whose [Shape] is not nil. *)
Fixpoint findNotesShape (elements : list PageElement) (notesShapeID : string)
    : string :=
  match elements with
  | [] => notesShapeID
  | element :: rest =>
      match Shape_ element with
      | Some _ => ObjectId element
      | None => findNotesShape rest notesShapeID
      end
  end.

(** [notesPage == nil || len(notesPage.PageElements) == 0] *)
Definition notesUnavailable (notesPage : option Page) : bool :=
  match notesPage with
  | None => true
  | Some page => len (PageElements page) =? 0
  end.

(** Add adds speaker notes to a slide. *)
Definition Add (presentationID : string) (slideIndex : Z)
    (notesContent : string) : M unit :=
  r <~ PresentationsGetDo env presentationID ;;
  presentation <~ lift (orWrap "error getting presentation" r) ;;
  if slideIndex >=? len (Slides presentation)
  then fail "slide index out of range"
  else
    slide <~ lift (index (Slides presentation) slideIndex) ;;
    properties <~ lift (deref (SlideProperties_ slide)) ;;
    let notesPage := NotesPage properties in
    if notesUnavailable notesPage
    then fail "notes page not available"
    else
      notesPage <~ lift (deref notesPage) ;;
      let notesShapeID := findNotesShape (PageElements notesPage) "" in
      if String.eqb notesShapeID ""
      then fail "notes shape not found"
      else
        let requests := [InsertText notesShapeID None notesContent 0] in
        r <~ PresentationsBatchUpdateDo env presentationID requests ;;
        lift (orWrap "error adding notes" r) ;;;
        ret tt.

(** [for idx, slide := range presentation.Slides] of ExtractAll. *)
Fixpoint extractSlides (slides : list Page) (idx : Z)
    (allNotes : gmap string string) : outcome (gmap string string) :=
  match slides with
  | [] => Ok allNotes
  | slide :: rest =>
      match SlideProperties_ slide with
      | None => Panic "nil pointer dereference"
      | Some properties =>
          match NotesPage properties with
          | None => extractSlides rest (idx + 1) allNotes
          | Some notesPage =>
              let notesText := writeElements (PageElements notesPage) "" in
              if Z.of_nat (String.length notesText) >? 0
              then extractSlides rest (idx + 1)
                     (<[ "slide_" +:+ fmt_d idx := gostrings.TrimSpace notesText ]>
                        allNotes)
              else extractSlides rest (idx + 1) allNotes
          end
      end
  end.

(** ExtractAll extracts all speaker notes from a presentation. *)
Definition ExtractAll (presentationID : string) : M (gmap string string) :=
  r <~ PresentationsGetDo env presentationID ;;
  presentation <~ lift (orWrap "error getting presentation" r) ;;
  lift (extractSlides (Slides presentation) 0 ∅).

End Service.
End notes.

(** ** Package style *)

Module style.
Section Service.
Variable env : Env.

(** CopyTextStyle copies text style from one element to another.
    Note: This is a placeholder implementation. *)
Definition CopyTextStyle (presentationID sourceObjectID targetObjectID : string)
    : M unit :=
  ret tt.

(** CopyTheme copies theme from one presentation to another.
    Note: This is a placeholder implementation. *)
Definition CopyTheme (sourcePresentationID targetPresentationID : string)
    : M unit :=
  ret tt.

(** TranslateSlides translates slides to another language.
    Note: This is a placeholder implementation. *)
Definition TranslateSlides (presentationID targetLanguage : string) : M unit :=
  ret tt.

End Service.
End style.

(** ** Package presentation *)

Module presentation.
Section Service.
Variable env : Env.

(** Create creates a new presentation with the given title. *)
Definition Create (title folderID : string) : M Presentation :=
  r <~ PresentationsCreateDo env title ;;
  result <~ lift (orWrap "error creating presentation" r) ;;
  (if negb (String.eqb folderID "")
   then
     r <~ FilesUpdateAddParentsDo env (PresentationId result) folderID ;;
     lift (orWrap "error moving to folder" r)
   else ret tt) ;;;
  ret result.

(** Get retrieves a presentation by ID. *)
Definition Get (presentationID : string) : M Presentation :=
  r <~ PresentationsGetDo env presentationID ;;
  lift (orWrap "error getting presentation" r).

End Service.
End presentation.

(** ** Package export *)

Module export.

(** The files on the local disk, each under the file itself (what
    [denotes] below gives for any of its names), and the exports
    requested from Drive so far (file identifier and MIME type), oldest
    first. *)
Record Disk := {
  files : gmap string string;
  exports : list (string * string)
}.

(** Drive's export endpoint and the operating system.
    [filesExportDownload id mime] is the body of the response, or the
    error of the download; [denotes name] is the file that the path
    [name] denotes, so that two names of one file ([./a.pdf] and [a.pdf],
    a link and its target) denote the same; [osCreate fs name] is the
    error of [os.Create(name)] on the files [fs], if it fails; [readFrom
    name body] is [None] when [f.ReadFrom(resp.Body)] wrote all of
    [body], or the bytes that reached the file and the error that
    stopped it. *)
Record Host := {
  filesExportDownload : list (string * string) -> string -> string -> reply string;
  denotes : string -> string;
  osCreate : gmap string string -> string -> option string;
  readFrom : string -> string -> option (string * string)
}.

Definition requested (fileID mimeType : string) (d : Disk) : Disk :=
  {| files := files d; exports := exports d ++ [(fileID, mimeType)] |}.

(** The content of the file [file] becomes [content], whatever name it
    is reached by; [os.Create] makes it empty, whether or not it
    existed. *)
Definition written (file content : string) (d : Disk) : Disk :=
  {| files := <[ file := content ]> (files d); exports := exports d |}.

(** What reading the file that [name] denotes gives. *)
Definition content (denotes : string -> string) (d : Disk) (name : string)
    : option string :=
  files d !! denotes name.

Section Service.
Variable host : Host.

(** ToPDF exports a presentation as PDF. *)
Definition ToPDF (presentationID outputFile : string)
    : Disk -> outcome unit * Disk :=
  fun d =>
    let d1 := requested presentationID "application/pdf" d in
    match filesExportDownload host (exports d) presentationID "application/pdf" with
    | Fault e => (Err ("error exporting as PDF: " +:+ e), d1)
    | Reply body =>
        match osCreate host (files d1) outputFile with
        | Some e => (Err ("error creating output file: " +:+ e), d1)
        | None =>
            let file := denotes host outputFile in
            let d2 := written file "" d1 in
            match readFrom host outputFile body with
            | Some (partial, e) =>
                (Err ("error writing PDF: " +:+ e), written file partial d2)
            | None => (Ok tt, written file body d2)
            end
        end
    end.

(** ToPPTX exports a presentation as PowerPoint. *)
Definition ToPPTX (presentationID outputFile : string)
    : Disk -> outcome unit * Disk :=
  fun d =>
    let mime :=
      "application/vnd.openxmlformats-officedocument.presentationml.presentation" in
    let d1 := requested presentationID mime d in
    match filesExportDownload host (exports d) presentationID mime with
    | Fault e => (Err ("error exporting as PPTX: " +:+ e), d1)
    | Reply body =>
        match osCreate host (files d1) outputFile with
        | Some e => (Err ("error creating output file: " +:+ e), d1)
        | None =>
            let file := denotes host outputFile in
            let d2 := written file "" d1 in
            match readFrom host outputFile body with
            | Some (partial, e) =>
                (Err ("error writing PPTX: " +:+ e), written file partial d2)
            | None => (Ok tt, written file body d2)
            end
        end
    end.

End Service.
End export.

(** ** Package cli *)

Module cli.

(** The flags of the commands, package-level variables that cobra sets
    before a command runs. *)
Record Flags := {
  createPresentationFolderID : string;
  addSlideLayout : string;
  addSlidePosition : Z;
  styleCellBgColor : string
}.

(** What asking package auth for a service does: the service is granted
    or an error is returned, and the authorisation may have printed on
    the way (its dialogue on standard output, the note that it saves the
    credentials on standard error) and may have stored the token among
    the local files. *)
Record Authorization := {
  granted : reply unit;
  printed : string;
  logged : string;
  stored : gmap string string -> gmap string string
}.

(** What the commands use and this repository does not decide:
    package auth, the text of the errors of strconv ([numError fn s] is
    the text of the error [fn] returns for the input [s]), and
    [json.MarshalIndent(v, "", "  ")] for the two types it is used at. *)
Record Host := {
  GetSlidesService : Authorization;
  GetDriveService : Authorization;
  numError : string -> string -> string;
  marshalResults : list text.SearchResult -> reply string;
  marshalNotes : gmap string string -> reply string;
  MapUnicodeToLower : string -> string;
  Sscanf_rgb : string -> Z * Z * Z;
  drive : export.Host
}.

(** The state a command runs in: the remote world, the local disk, and
    what was written to the two output streams. *)
Record Console := {
  world : World;
  disk : export.Disk;
  stdout : string;
  stderr : string
}.

Definition Run (A : Type) : Type := Console -> outcome A * Console.

Definition pure {A} (a : A) : Run A := fun c => (Ok a, c).

Definition andThen {A B} (r : Run A) (k : A -> Run B) : Run B :=
  fun c =>
    match r c with
    | (Ok a, c') => k a c'
    | (Err e, c') => (Err e, c')
    | (Panic e, c') => (Panic e, c')
    end.

Notation "x <-- r ;; k" := (andThen r (fun x => k))
  (at level 100, r at next level, right associativity).
Notation "r ;;;; k" := (andThen r (fun _ => k))
  (at level 100, k at level 200, right associativity).

(** [return fmt.Errorf(...)] and a pure step that may fail or panic. *)
Definition now_ {A} (o : outcome A) : Run A := fun c => (o, c).

(** [args[i]] *)
Definition arg (args : list string) (i : Z) : Run string := now_ (index args i).

(** A method of a service, run on the remote world. *)
Definition service {A} (m : M A) : Run A :=
  fun c =>
    let '(o, w) := m (world c) in
    (o, {| world := w; disk := disk c; stdout := stdout c; stderr := stderr c |}).

(** A method of the export service, run on the local disk. *)
Definition exporting {A} (m : export.Disk -> outcome A * export.Disk) : Run A :=
  fun c =>
    let '(o, d) := m (disk c) in
    (o, {| world := world c; disk := d; stdout := stdout c; stderr := stderr c |}).

(** [fmt.Fprintf(os.Stderr, ...)] with the formatted text [s]. *)
Definition Fprintf_Stderr (s : string) : Run unit :=
  fun c => (Ok tt, {| world := world c; disk := disk c; stdout := stdout c;
                      stderr := stderr c +:+ s |}).

(** [fmt.Println(s)] *)
Definition Println (s : string) : Run unit :=
  fun c => (Ok tt, {| world := world c; disk := disk c;
                      stdout := stdout c +:+ s +:+ LF; stderr := stderr c |}).

(** [svc, err := auth.Get...Service(ctx); if err != nil { return err }] *)
Definition authorize (a : Authorization) : Run unit :=
  fun c =>
    (match granted a with
     | Reply _ => Ok tt
     | Fault e => Err e
     end,
     {| world := world c;
        disk := {| export.files := stored a (export.files (disk c));
                   export.exports := export.exports (disk c) |};
        stdout := stdout c +:+ printed a; stderr := stderr c +:+ logged a |}).

Section Commands.
Variables (host : Host) (env : Env) (flags : Flags).

(** [n, err := strconv.Atoi(s); if err != nil { return fmt.Errorf(context + ": %w", err) }];
    [strconv.ParseInt(s, 10, 64)] accepts the same strings with the same
    values and names itself in the error. *)
Definition parseInt (fn context s : string) : Run Z :=
  match strconv.Atoi s with
  | Some n => pure n
  | None => now_ (Err (context +:+ ": " +:+ numError host fn s))
  end.

(** printJSON *)
Definition printJSON (marshalled : reply string) : Run unit :=
  match marshalled with
  | Fault e => now_ (Err e)
  | Reply data => Println data
  end.

Definition runCreatePresentation (args : list string) : Run unit :=
  title <-- arg args 0 ;;
  authorize (GetSlidesService host) ;;;;
  authorize (GetDriveService host) ;;;;
  result <-- service (presentation.Create env title (createPresentationFolderID flags)) ;;
  Fprintf_Stderr ("✅ Presentation created: " +:+ Title result +:+ LF) ;;;;
  Fprintf_Stderr ("   ID: " +:+ PresentationId result +:+ LF) ;;;;
  Println (PresentationId result).

Definition runAddSlide (args : list string) : Run unit :=
  presentationID <-- arg args 0 ;;
  authorize (GetSlidesService host) ;;;;
  slideID <-- service (slide.Add env presentationID (addSlideLayout flags)
                         (addSlidePosition flags)) ;;
  Fprintf_Stderr ("✅ Slide added with layout " +:+ addSlideLayout flags +:+ LF) ;;;;
  Println slideID.

Definition runDuplicateSlide (args : list string) : Run unit :=
  presentationID <-- arg args 0 ;;
  a1 <-- arg args 1 ;;
  slideIndex <-- parseInt "Atoi" "invalid slide index" a1 ;;
  authorize (GetSlidesService host) ;;;;
  service (slide.Duplicate env presentationID slideIndex) ;;;;
  Fprintf_Stderr ("✅ Slide duplicated" +:+ LF).

Definition runRemoveSlide (args : list string) : Run unit :=
  presentationID <-- arg args 0 ;;
  a1 <-- arg args 1 ;;
  slideIndex <-- parseInt "Atoi" "invalid slide index" a1 ;;
  authorize (GetSlidesService host) ;;;;
  service (slide.Remove env presentationID slideIndex) ;;;;
  Fprintf_Stderr ("✅ Slide removed" +:+ LF).

Definition runMoveSlide (args : list string) : Run unit :=
  presentationID <-- arg args 0 ;;
  a1 <-- arg args 1 ;;
  slideIndex <-- parseInt "Atoi" "invalid slide index" a1 ;;
  a2 <-- arg args 2 ;;
  newPosition <-- parseInt "Atoi" "invalid new position" a2 ;;
  authorize (GetSlidesService host) ;;;;
  service (slide.Move env presentationID slideIndex newPosition) ;;;;
  Fprintf_Stderr ("✅ Slide moved to position " +:+ fmt_d newPosition +:+ LF).

Definition runReorderSlides (args : list string) : Run unit :=
  presentationID <-- arg args 0 ;;
  indicesStr <-- arg args 1 ;;
  authorize (GetSlidesService host) ;;;;
  service (slide.Reorder env presentationID indicesStr) ;;;;
  Fprintf_Stderr ("✅ Slides reordered" +:+ LF).

Definition runCreateTable (args : list string) : Run unit :=
  presentationID <-- arg args 0 ;;
  a1 <-- arg args 1 ;;
  slideIndex <-- parseInt "Atoi" "invalid slide index" a1 ;;
  a2 <-- arg args 2 ;;
  rows <-- parseInt "ParseInt" "invalid rows" a2 ;;
  a3 <-- arg args 3 ;;
  cols <-- parseInt "ParseInt" "invalid cols" a3 ;;
  authorize (GetSlidesService host) ;;;;
  tableID <-- service (table.Create env presentationID slideIndex rows cols) ;;
  Fprintf_Stderr ("✅ Table created (" +:+ fmt_d rows +:+ "x" +:+ fmt_d cols
                  +:+ ")" +:+ LF) ;;;;
  Println tableID.

Definition runUpdateCell (args : list string) : Run unit :=
  presentationID <-- arg args 0 ;;
  tableID <-- arg args 1 ;;
  a2 <-- arg args 2 ;;
  row <-- parseInt "ParseInt" "invalid row" a2 ;;
  a3 <-- arg args 3 ;;
  col <-- parseInt "ParseInt" "invalid col" a3 ;;
  textContent <-- arg args 4 ;;
  authorize (GetSlidesService host) ;;;;
  service (table.UpdateCell env presentationID tableID row col textContent) ;;;;
  Fprintf_Stderr ("✅ Cell updated (row " +:+ fmt_d row +:+ ", col " +:+ fmt_d col
                  +:+ ")" +:+ LF).

Definition runStyleCell (args : list string) : Run unit :=
  presentationID <-- arg args 0 ;;
  tableID <-- arg args 1 ;;
  a2 <-- arg args 2 ;;
  row <-- parseInt "ParseInt" "invalid row" a2 ;;
  a3 <-- arg args 3 ;;
  col <-- parseInt "ParseInt" "invalid col" a3 ;;
  if String.eqb (styleCellBgColor flags) ""
  then now_ (Err "background color is required (--bg-color)")
  else
    authorize (GetSlidesService host) ;;;;
    service (table.StyleCell env (Sscanf_rgb host) presentationID tableID row col
               (styleCellBgColor flags)) ;;;;
    Fprintf_Stderr ("✅ Cell styled (row " +:+ fmt_d row +:+ ", col " +:+ fmt_d col
                    +:+ ")" +:+ LF).

Definition runReplaceText (args : list string) : Run unit :=
  presentationID <-- arg args 0 ;;
  findText <-- arg args 1 ;;
  replaceText <-- arg args 2 ;;
  authorize (GetSlidesService host) ;;;;
  service (text.Replace env presentationID findText replaceText) ;;;;
  Fprintf_Stderr ("✅ Text replaced: '" +:+ findText +:+ "' -> '" +:+ replaceText
                  +:+ "'" +:+ LF).

Definition runExtractAllText (args : list string) : Run unit :=
  presentationID <-- arg args 0 ;;
  authorize (GetSlidesService host) ;;;;
  allText <-- service (text.ExtractAll env presentationID) ;;
  Println allText.

Definition runSearchText (args : list string) : Run unit :=
  presentationID <-- arg args 0 ;;
  query <-- arg args 1 ;;
  authorize (GetSlidesService host) ;;;;
  results <-- service (text.Search env (MapUnicodeToLower host) presentationID query) ;;
  printJSON (marshalResults host results).

Definition runGetNotes (args : list string) : Run unit :=
  presentationID <-- arg args 0 ;;
  a1 <-- arg args 1 ;;
  slideIndex <-- parseInt "Atoi" "invalid slide index" a1 ;;
  authorize (GetSlidesService host) ;;;;
  notesText <-- service (notes.Get env presentationID slideIndex) ;;
  Println notesText.

Definition runAddNotes (args : list string) : Run unit :=
  presentationID <-- arg args 0 ;;
  a1 <-- arg args 1 ;;
  slideIndex <-- parseInt "Atoi" "invalid slide index" a1 ;;
  notesContent <-- arg args 2 ;;
  authorize (GetSlidesService host) ;;;;
  service (notes.Add env presentationID slideIndex notesContent) ;;;;
  Fprintf_Stderr ("✅ Notes added to slide " +:+ fmt_d slideIndex +:+ LF).

Definition runExtractAllNotes (args : list string) : Run unit :=
  presentationID <-- arg args 0 ;;
  authorize (GetSlidesService host) ;;;;
  allNotes <-- service (notes.ExtractAll env presentationID) ;;
  printJSON (marshalNotes host allNotes).

Definition runAddShape (args : list string) : Run unit :=
  presentationID <-- arg args 0 ;;
  a1 <-- arg args 1 ;;
  slideIndex <-- parseInt "Atoi" "invalid slide index" a1 ;;
  shapeType <-- arg args 2 ;;
  authorize (GetSlidesService host) ;;;;
  shapeID <-- service (shape.Add env presentationID slideIndex shapeType) ;;
  Fprintf_Stderr ("✅ Shape added: " +:+ shapeType +:+ LF) ;;;;
  Println shapeID.

Definition runCopyTextStyle (args : list string) : Run unit :=
  presentationID <-- arg args 0 ;;
  sourceObjectID <-- arg args 1 ;;
  targetObjectID <-- arg args 2 ;;
  authorize (GetSlidesService host) ;;;;
  service (style.CopyTextStyle presentationID sourceObjectID targetObjectID) ;;;;
  Fprintf_Stderr ("✅ Text style copied" +:+ LF).

Definition runCopyTheme (args : list string) : Run unit :=
  sourcePresentationID <-- arg args 0 ;;
  targetPresentationID <-- arg args 1 ;;
  authorize (GetSlidesService host) ;;;;
  service (style.CopyTheme sourcePresentationID targetPresentationID) ;;;;
  Fprintf_Stderr ("✅ Theme copied" +:+ LF).

Definition runTranslateSlides (args : list string) : Run unit :=
  presentationID <-- arg args 0 ;;
  targetLanguage <-- arg args 1 ;;
  authorize (GetSlidesService host) ;;;;
  service (style.TranslateSlides presentationID targetLanguage) ;;;;
  Fprintf_Stderr ("✅ Slides translated" +:+ LF).

Definition runExportPdf (args : list string) : Run unit :=
  presentationID <-- arg args 0 ;;
  outputFile <-- arg args 1 ;;
  authorize (GetDriveService host) ;;;;
  exporting (export.ToPDF (drive host) presentationID outputFile) ;;;;
  Fprintf_Stderr ("✅ Presentation exported as PDF: " +:+ outputFile +:+ LF).

Definition runExportPptx (args : list string) : Run unit :=
  presentationID <-- arg args 0 ;;
  outputFile <-- arg args 1 ;;
  authorize (GetDriveService host) ;;;;
  exporting (export.ToPPTX (drive host) presentationID outputFile) ;;;;
  Fprintf_Stderr ("✅ Presentation exported as PPTX: " +:+ outputFile +:+ LF).

End Commands.
End cli.

(** ** Vocabulary of the statements *)

(** The world after the snapshot of [presentationID] was fetched. *)
Definition fetched (presentationID : string) (w : World) : World :=
  issue (PresentationsGet presentationID) w.

(** The world after one more reading of the clock. *)
Definition ticked (w : World) : World :=
  {| calls := calls w; clockReads := S (clockReads w) |}.

(** The outcome and the world after [requests] were submitted as one
    batch from world [w], a refusal being wrapped with [context]. *)
Definition submitted (env : Env) (context presentationID : string)
    (requests : list Request) (w : World) : outcome unit * World :=
  (orWrap context (presentationsBatchUpdate env (calls w) presentationID requests),
   issue (PresentationsBatchUpdate presentationID requests) w).

(** The same run, returning [a] when it succeeded. *)
Definition thenReturn {A} (a : A) (r : outcome unit * World) : outcome A * World :=
  (match fst r with
   | Ok _ => Ok a
   | Err e => Err e
   | Panic e => Panic e
   end, snd r).

(** ** Presentations and environments the statements are tried on *)

(** A shape whose text body holds the runs [runs]. *)
Definition textBox (objectId : string) (runs : list string) : PageElement :=
  {| ObjectId := objectId;
     Shape_ := Some {| slides.Text := Some {| TextElements :=
       map (fun s => {| TextRun_ := Some {| Content := s |} |}) runs |} |} |}.

(** A shape without a text body. *)
Definition emptyBox (objectId : string) : PageElement :=
  {| ObjectId := objectId; Shape_ := Some {| slides.Text := None |} |}.

(** An element that is no shape. *)
Definition picture (objectId : string) : PageElement :=
  {| ObjectId := objectId; Shape_ := None |}.

Definition slideOf (objectId : string) (elements : list PageElement)
    (notesPage : option Page) : Page :=
  mkPage objectId elements (Some (mkSlideProperties notesPage)).

Definition notesOf (objectId : string) (elements : list PageElement) : Page :=
  mkPage objectId elements None.

Definition deck (slides : list Page) : Presentation :=
  {| PresentationId := "deck"; Title := "Deck"; Slides := slides |}.

(** A remote that answers every fetch with [p], accepts every batch and
    every move, and a clock that reads [clock n] at the [n]-th reading. *)
Definition serving (p : Presentation) (clock : nat -> Z) : Env :=
  {| presentationsCreate := fun _ title =>
       Reply {| PresentationId := "created"; Title := title; Slides := [] |};
     presentationsGet := fun _ _ => Reply p;
     presentationsBatchUpdate := fun _ _ _ => Reply tt;
     filesUpdateAddParents := fun _ _ _ => Reply tt;
     unixNano := clock |}.

Definition advancing (n : nat) : Z := 1700000000000000000 + Z.of_nat n.
Definition frozen (n : nat) : Z := 1700000000000000000.

Definition fourSlides : Presentation :=
  deck [slideOf "a" [] None; slideOf "b" [] None;
        slideOf "c" [] None; slideOf "d" [] None].

(** ** The text of a page, as the specification words it *)

(** The pieces, one after the other. *)
Definition joined (pieces : list string) : string := foldr String.append "" pieces.

(** The text body of an element, when it carries one. *)
Definition textBody (element : PageElement) : option TextContent :=
  match Shape_ element with
  | Some shape => slides.Text shape
  | None => None
  end.

(** The contents of the text runs of a text body, in order. *)
Definition runsOf (body : TextContent) : list string :=
  omap (fun textElement => Content <$> TextRun_ textElement) (TextElements body).

(** One flattened string per element that carries text. *)
Definition flattened (body : TextContent) : string := joined (runsOf body).

Definition elementTexts (elements : list PageElement) : list string :=
  flattened <$> omap textBody elements.

(** What separates the slides in the extracted text. *)
Definition delimiter : string := LF +:+ "---" +:+ LF +:+ LF.

(** The text of a slide: every flattened element text on a line of its
    own. *)
Definition slideText (slide : Page) : string :=
  joined ((fun t => t +:+ LF) <$> elementTexts (PageElements slide)).

(** Slides in snapshot order, the delimiter after each of them. *)
Definition extractText (slides : list Page) : string :=
  joined ((fun slide => slideText slide +:+ delimiter) <$> slides).

Definition helloWorld : Presentation :=
  deck [slideOf "a" [textBox "t1" ["Hello"]] None;
        slideOf "b" [textBox "t2" ["World"]] None].

(** ** The notes of a slide, as the specification words it *)

(** The notes page a slide owns, if any. *)
Definition notesPageOf (slide : Page) : option Page :=
  match SlideProperties_ slide with
  | Some properties => NotesPage properties
  | None => None
  end.

(** The concatenated text of a notes page. *)
Definition notesText (notesPage : Page) : string :=
  joined (elementTexts (PageElements notesPage)).

(** The synthetic label of the slide at ordinal [idx]. *)
Definition slideKey (idx : nat) : string := "slide_" +:+ fmt_d (Z.of_nat idx).

(** What the mapping holds for a slide: nothing when it has no notes
    page or its notes are empty, the trimmed notes otherwise. *)
Definition notesEntry (slide : Page) : option string :=
  match notesPageOf slide with
  | None => None
  | Some notesPage =>
      if String.eqb (notesText notesPage) "" then None
      else Some (gostrings.TrimSpace (notesText notesPage))
  end.

(** Every slide of a snapshot carries its slide properties. *)
Definition slidesHaveProperties (p : Presentation) : Prop :=
  Forall (fun slide => is_Some (SlideProperties_ slide)) (Slides p).

Definition rememberThis : Presentation :=
  deck [slideOf "a" [] (Some (notesOf "na" [textBox "n1" ["  remember this  "]]));
        slideOf "b" [] None].

(** ** Trimming, as the specification words it *)

(** The code points that Unicode gives the White_Space property: the six
    ASCII ones, U+0085, U+00A0, U+1680, U+2000 to U+200A, U+2028, U+2029,
    U+202F, U+205F and U+3000. *)
Definition whiteSpaceRunes : list Z :=
  [0x09; 0x0A; 0x0B; 0x0C; 0x0D; 0x20; 0x85; 0xA0; 0x1680;
   0x2000; 0x2001; 0x2002; 0x2003; 0x2004; 0x2005; 0x2006; 0x2007; 0x2008;
   0x2009; 0x200A; 0x2028; 0x2029; 0x202F; 0x205F; 0x3000].

(** The UTF-8 encoding of a code point below U+10000. *)
Definition utf8 (r : Z) : string :=
  let byte (b : Z) := ascii_of_N (Z.to_N b) in
  if r <? 0x80 then String (byte r) ""
  else if r <? 0x800
  then String (byte (0xC0 + r / 64)) (String (byte (0x80 + r mod 64)) "")
  else String (byte (0xE0 + r / 4096))
         (String (byte (0x80 + (r / 64) mod 64))
            (String (byte (0x80 + r mod 64)) "")).

(** The white-space runes, as they stand in a string. *)
Definition whiteSpace : list string := utf8 <$> whiteSpaceRunes.

(** A string of white-space runes and nothing else. *)
Definition blank (s : string) : Prop :=
  exists runes, Forall (fun rune => rune ∈ whiteSpace) runes /\ s = joined runes.

(** [value] is [text] with its leading and trailing white space
    removed: what is taken away on either side is white space, and what
    is left neither starts nor ends with a white-space rune. *)
Definition trims (text value : string) : Prop :=
  (exists pre post, text = pre +:+ value +:+ post /\ blank pre /\ blank post)
  /\ (forall rune rest, rune ∈ whiteSpace -> value <> rune +:+ rest)
  /\ (forall rune rest, rune ∈ whiteSpace -> value <> rest +:+ rune).

(** What the mapping holds for a slide, with the trimming spelled out:
    nothing for a slide without a notes page, nothing when the
    concatenated notes are the empty string, and otherwise the notes
    with the white space around them removed, which is the empty string
    for notes of white space only. *)
Definition recorded (slide : Page) (entry : option string) : Prop :=
  match notesPageOf slide with
  | None => entry = None
  | Some notesPage =>
      if String.eqb (notesText notesPage) "" then entry = None
      else exists value, entry = Some value /\ trims (notesText notesPage) value
  end.

(** A rune that [two] and [three] recognise from its bytes, or a byte of
    ASCII white space. *)
Definition spaceHead (two : ascii -> ascii -> bool)
    (three : ascii -> ascii -> ascii -> bool) (rune : string) : bool :=
  match rune with
  | String c "" => gostrings.asciiSpace c
  | String c (String d "") => two c d
  | String c (String d (String e "")) => three c d e
  | _ => false
  end.

(** [rune] is recognised as a whole and only as a whole: none of its
    proper prefixes is recognised before it. *)
Definition wholeRune (two : ascii -> ascii -> bool)
    (three : ascii -> ascii -> ascii -> bool) (rune : string) : bool :=
  match rune with
  | String c "" => gostrings.asciiSpace c
  | String c (String d "") => negb (gostrings.asciiSpace c) && two c d
  | String c (String d (String e "")) =>
      negb (gostrings.asciiSpace c) && negb (two c d) && three c d e
  | _ => false
  end.

(** No rune of [runes] starts with a byte that another holds after its
    first byte. *)
Definition leadsApart (runes : list string) : bool :=
  forallb (fun rune =>
    forallb (fun other =>
      match rune, other with
      | String _ tail, String lead _ =>
          negb (existsb (Ascii.eqb lead) (list_ascii_of_string tail))
      | _, _ => true
      end) runes) runes.

(** A slide whose notes are white space only. *)
Definition blankSlide : Page :=
  slideOf "a" [] (Some (notesOf "na" [textBox "n1" ["   "]])).

Definition blankNotes : Presentation := deck [blankSlide].

(** Notes to trim, no notes page, notes of white space only, and a notes
    page without text. *)
Definition notedSlides : Presentation :=
  deck [slideOf "a" [] (Some (notesOf "na" [textBox "n1" ["  remember"; " this  "]]));
        slideOf "b" [] None;
        slideOf "c" [] (Some (notesOf "nc" [textBox "n3" ["   "]]));
        slideOf "d" [] (Some (notesOf "nd" [emptyBox "n4"]))].

(** ** Search, as the specification words it *)

Section SearchText.
Variable MapUnicodeToLower : string -> string.

(** The case-insensitive substring test of the query against one text. *)
Definition matchesQuery (query content : string) : bool :=
  gostrings.Contains (gostrings.ToLower MapUnicodeToLower content)
                     (gostrings.ToLower MapUnicodeToLower query).

(** The results an element contributes: one per text run whose own
    content matches, in run order, each with the whole run content. *)
Definition elementMatches (slideIdx : Z) (query : string)
    (element : PageElement) : list text.SearchResult :=
  match textBody element with
  | None => []
  | Some body =>
      (fun content => {| text.SlideIndex := slideIdx;
                         text.ObjectID := ObjectId element;
                         text.Text := content |})
        <$> List.filter (matchesQuery query) (runsOf body)
  end.

(** The results of a snapshot, in document order. *)
Definition searchText (slides : list Page) (query : string)
    : list text.SearchResult :=
  concat (imap (fun k slide =>
                  flat_map (elementMatches (Z.of_nat k) query) (PageElements slide))
               slides).
End SearchText.

(** The text run [content] of the text body of [element], a page element
    of the slide at ordinal [k]. *)
Definition runAt (slides : list Page) (k : nat) (element : PageElement)
    (content : string) : Prop :=
  exists slide body,
    slides !! k = Some slide /\ element ∈ PageElements slide
    /\ textBody element = Some body /\ content ∈ runsOf body.

(** [sub] occurs in [s]. *)
Definition occursIn (sub s : string) : Prop :=
  exists pre post, s = pre +:+ sub +:+ post.

Definition capitals : string := "ABCDEFGHIJKLMNOPQRSTUVWXYZ".
Definition smalls : string := "abcdefghijklmnopqrstuvwxyz".

(** The small letter of a capital, by its place in the alphabet; every
    other byte is itself. *)
Fixpoint smallOf (capitals smalls : string) (c : ascii) : ascii :=
  match capitals, smalls with
  | String capital capitals', String small smalls' =>
      if Ascii.eqb c capital then small else smallOf capitals' smalls' c
  | _, _ => c
  end.

(** The same byte, or the capital and the small form of one letter. *)
Definition sameLetter (c d : ascii) : bool :=
  Ascii.eqb (smallOf capitals smalls c) (smallOf capitals smalls d).

(** The same text but for the case of its letters. *)
Fixpoint sameIgnoringCase (s t : string) : bool :=
  match s, t with
  | EmptyString, EmptyString => true
  | String c s', String d t' => sameLetter c d && sameIgnoringCase s' t'
  | _, _ => false
  end.

(** [content] holds the query somewhere, but for the case of its
    letters. *)
Definition occursIgnoringCase (query content : string) : Prop :=
  exists pre found post,
    content = pre +:+ found +:+ post /\ sameIgnoringCase found query = true.

(** Every byte is below 128: the text is ASCII. *)
Definition sevenBit (s : string) : bool :=
  forallb (fun c => match c with Ascii _ _ _ _ _ _ _ high => negb high end)
          (list_ascii_of_string s).

(** A stand-in for the Unicode fallback of [strings.ToLower] in examples
    on ASCII text, where it is never consulted. *)
Definition asciiOnly (s : string) : string := s.

Definition helloWorldRuns : Presentation :=
  deck [slideOf "a" [textBox "t1" ["Hello "; "World"]] None].

Definition worldOnly : Presentation :=
  deck [slideOf "a" [textBox "t1" ["World"]] None].

(** ** Remotes that refuse *)

(** A remote that creates every presentation and refuses every move to
    a folder. *)
Definition refusingMove : Env :=
  {| presentationsCreate := fun _ title =>
       Reply {| PresentationId := "created"; Title := title; Slides := [] |};
     presentationsGet := fun _ _ => Fault "not found";
     presentationsBatchUpdate := fun _ _ _ => Reply tt;
     filesUpdateAddParents := fun _ _ _ => Fault "folder not found";
     unixNano := advancing |}.

(** ** Reordering, as the specification words it *)

(** A token of the index list and the integer it denotes. *)
Definition denotes (token : string) (idx : Z) : Prop :=
  strconv.Atoi (gostrings.TrimSpace token) = Some idx.

Definition malformed (token : string) : Prop :=
  strconv.Atoi (gostrings.TrimSpace token) = None.

(** The identifier of the slide at ordinal [idx] of the snapshot. *)
Definition slideAt (slides : list Page) (idx : Z) : string :=
  match slides !! Z.to_nat idx with
  | Some slide => PageObjectId slide
  | None => ""
  end.

Definition inRange (slides : list Page) (idx : Z) : Prop :=
  0 <= idx < len slides.

(** One reposition primitive per listed ordinal, in the listed order;
    the new position is the place in the list. *)
Definition repositions (slides : list Page) (indices : list Z) : list Request :=
  imap (fun k idx => UpdateSlidesPosition [slideAt slides idx] (Z.of_nat k)) indices.

(** ** Elements of a notes page *)

Definition isShape (element : PageElement) : bool :=
  match Shape_ element with Some _ => true | None => false end.

Definition hasTextBody (element : PageElement) : bool :=
  match Shape_ element with
  | Some shape => match slides.Text shape with Some _ => true | None => false end
  | None => false
  end.

(** ** Colours *)

Definition isHexDigit (c : ascii) : bool :=
  match table.hexDigit c with Some _ => true | None => false end.

(** A colour as the specification means it: six hexadecimal digits,
    optionally prefixed with '#'. *)
Definition validColor (color : string) : bool :=
  let digits := gostrings.TrimPrefix color "#" in
  (Z.of_nat (String.length digits) =? 6)
  && forallb isHexDigit (list_ascii_of_string digits).

Definition cellFill (tableID : string) (color : option OpaqueColor)
    (row col : Z) : Request :=
  UpdateTableCellProperties tableID color
    {| RowIndex := row; ColumnIndex := col |} 1 1
    "tableCellBackgroundFill.solidFill.color".

(** ** Vocabulary of the further statements *)

(** The identifier a request creates an element under, if it creates one. *)
Definition createdObjectId (request : Request) : option string :=
  match request with
  | CreateSlide objectId _ _ => Some objectId
  | CreateTable objectId _ _ _ => Some objectId
  | CreateShape objectId _ _ => Some objectId
  | _ => None
  end.

(** The outcome is a success. *)
Definition succeeded {A} (o : outcome A) : bool :=
  match o with Ok _ => true | _ => false end.

(** The batches among the calls. *)
Definition batchesOf (cs : list Call) : list (list Request) :=
  omap (fun c => match c with
                 | PresentationsBatchUpdate _ requests => Some requests
                 | _ => None
                 end) cs.

(** Every text run of an element as a search result, in run order. *)
Definition elementRuns (slideIdx : Z) (element : PageElement)
    : list text.SearchResult :=
  match textBody element with
  | None => []
  | Some body =>
      (fun content => {| text.SlideIndex := slideIdx;
                         text.ObjectID := ObjectId element;
                         text.Text := content |}) <$> runsOf body
  end.

(** The text runs that [text.Search] reads, as search results in document
    order: the runs of the text body of a shape that is itself a page
    element of a slide.  Text held elsewhere in a presentation (table
    cells, the children of a group, notes pages) is not among them, as
    Search never looks there. *)
Definition everyRun (slides : list Page) : list text.SearchResult :=
  concat (imap (fun k slide => flat_map (elementRuns (Z.of_nat k)) (PageElements slide))
               slides).

(** No byte of the string is an underscore. *)
Definition underscoreFree (s : string) : bool :=
  forallb (fun c => negb (Ascii.eqb c "_")) (list_ascii_of_string s).

(** ** Hosts and consoles the further statements are tried on *)

(** Drive answering every export with the same bytes, on a disk that
    accepts every file and where [./name] and [name] are one file. *)
Definition quietDrive : export.Host :=
  {| export.filesExportDownload := fun _ _ _ => Reply "%PDF-1.7";
     export.denotes := fun name => gostrings.TrimPrefix name "./";
     export.osCreate := fun _ _ => None;
     export.readFrom := fun _ _ => None |}.

Definition emptyDisk : export.Disk :=
  {| export.files := ∅; export.exports := [] |}.

(** A disk that holds an earlier export and another file. *)
Definition usedDisk : export.Disk :=
  {| export.files := {[ "out.pdf" := "earlier export"; "notes.txt" := "keep" ]};
     export.exports := [] |}.

(** A cached token: the service is granted and nothing is printed or
    stored. *)
Definition cachedToken : cli.Authorization :=
  {| cli.granted := Reply tt; cli.printed := ""; cli.logged := "";
     cli.stored := fun fs => fs |}.

(** No credentials file. *)
Definition noCredentials : cli.Authorization :=
  {| cli.granted := Fault "unable to read credentials file";
     cli.printed := ""; cli.logged := ""; cli.stored := fun fs => fs |}.

(** A host with a cached token; the texts of the strconv errors and of
    the JSON documents are stand-ins. *)
Definition plainHost : cli.Host :=
  {| cli.GetSlidesService := cachedToken;
     cli.GetDriveService := cachedToken;
     cli.numError := fun fn s => "strconv." +:+ fn +:+ ": parsing " +:+ s;
     cli.marshalResults := fun _ => Reply "[]";
     cli.marshalNotes := fun _ => Reply "{}";
     cli.MapUnicodeToLower := asciiOnly;
     cli.Sscanf_rgb := table.scanSixHexDigits;
     cli.drive := quietDrive |}.

(** The same host when Drive cannot be authorised. *)
Definition hostWithoutDrive : cli.Host :=
  {| cli.GetSlidesService := cachedToken;
     cli.GetDriveService := noCredentials;
     cli.numError := cli.numError plainHost;
     cli.marshalResults := cli.marshalResults plainHost;
     cli.marshalNotes := cli.marshalNotes plainHost;
     cli.MapUnicodeToLower := asciiOnly;
     cli.Sscanf_rgb := table.scanSixHexDigits;
     cli.drive := quietDrive |}.

(** The flags as cobra leaves them when none is given. *)
Definition defaultFlags : cli.Flags :=
  {| cli.createPresentationFolderID := ""; cli.addSlideLayout := "BLANK";
     cli.addSlidePosition := -1; cli.styleCellBgColor := "" |}.

Definition console0 : cli.Console :=
  {| cli.world := World0; cli.disk := emptyDisk; cli.stdout := ""; cli.stderr := "" |}.

(** All commands. *)
Definition commands (host : cli.Host) (env : Env) (flags : cli.Flags)
    : list (list string -> cli.Run unit) :=
  [cli.runCreatePresentation host env flags; cli.runAddSlide host env flags;
   cli.runDuplicateSlide host env; cli.runRemoveSlide host env;
   cli.runMoveSlide host env; cli.runReorderSlides host env;
   cli.runCreateTable host env; cli.runUpdateCell host env;
   cli.runStyleCell host env flags; cli.runReplaceText host env;
   cli.runExtractAllText host env; cli.runSearchText host env;
   cli.runGetNotes host env; cli.runAddNotes host env;
   cli.runExtractAllNotes host env; cli.runAddShape host env;
   cli.runCopyTextStyle host; cli.runCopyTheme host; cli.runTranslateSlides host;
   cli.runExportPdf host; cli.runExportPptx host].

(** What the authorisations of a command can have written to standard
    output and standard error before the command goes on or gives up:
    nothing, the output of one of them, or that of both. *)
Definition authorizationOutputs (host : cli.Host) : list (string * string) :=
  let s := cli.GetSlidesService host in
  let d := cli.GetDriveService host in
  [("", ""); (cli.printed s, cli.logged s); (cli.printed d, cli.logged d);
   (cli.printed s +:+ cli.printed d, cli.logged s +:+ cli.logged d)].

(** The commands that report no result, only a confirmation. *)
Definition confirmingCommands (host : cli.Host) (env : Env) (flags : cli.Flags)
    : list (list string -> cli.Run unit) :=
  [cli.runDuplicateSlide host env; cli.runRemoveSlide host env;
   cli.runMoveSlide host env; cli.runReorderSlides host env;
   cli.runUpdateCell host env; cli.runStyleCell host env flags;
   cli.runReplaceText host env; cli.runAddNotes host env;
   cli.runCopyTextStyle host; cli.runCopyTheme host; cli.runTranslateSlides host;
   cli.runExportPdf host; cli.runExportPptx host].

(** * Properties *)

(** ** The library functions on examples *)

Example Split_example :
  gostrings.Split "2, 0,,x" "," = ["2"; " 0"; ""; "x"]
  /\ gostrings.Split "" "," = [""].
Proof. split; reflexivity. Qed.

Example Atoi_example :
  strconv.Atoi "12" = Some 12 /\ strconv.Atoi "-1" = Some (-1)
  /\ strconv.Atoi "+7" = Some 7 /\ strconv.Atoi "" = None
  /\ strconv.Atoi "-" = None /\ strconv.Atoi "1 2" = None
  /\ strconv.Atoi "9223372036854775807" = Some strconv.maxInt
  /\ strconv.Atoi "9223372036854775808" = None.
Proof. repeat split; reflexivity. Qed.

Example TrimSpace_example :
  gostrings.TrimSpace "  remember this  " = "remember this"
  /\ gostrings.TrimSpace "   " = ""
  /\ gostrings.TrimSpace (String (ascii_of_nat 9) "a b" +:+ String (ascii_of_nat 10) "")
     = "a b".
Proof. repeat split; reflexivity. Qed.

Example fmt_d_example : fmt_d 120 = "120" /\ fmt_d (-5) = "-5" /\ fmt_d 0 = "0".
Proof. repeat split; reflexivity. Qed.

(** ** Strings *)

Lemma string_app_cons c s t : String c s +:+ t = String c (s +:+ t).
Proof. reflexivity. Qed.

Lemma string_app_nil_l s : "" +:+ s = s.
Proof. reflexivity. Qed.

Lemma string_app_nil_r s : s +:+ "" = s.
Proof.
  induction s as [|c s IH]; [reflexivity|].
  now rewrite string_app_cons, IH.
Qed.

Lemma string_app_assoc s t u : (s +:+ t) +:+ u = s +:+ (t +:+ u).
Proof.
  induction s as [|c s IH]; [reflexivity|].
  now rewrite !string_app_cons, IH.
Qed.

Lemma string_length_zero s : String.length s = 0%nat <-> s = "".
Proof. destruct s; cbn; split; congruence. Qed.

(** ** Substrings *)

Lemma HasPrefix_nil s : gostrings.HasPrefix s "" = true.
Proof. now destruct s. Qed.

Lemma HasPrefix_refl s : gostrings.HasPrefix s s = true.
Proof.
  induction s as [|c s IH]; [reflexivity|].
  cbn [gostrings.HasPrefix]. now rewrite Ascii.eqb_refl.
Qed.

Lemma HasPrefix_app s sub : forall post,
  gostrings.HasPrefix s sub = true -> gostrings.HasPrefix (s +:+ post) sub = true.
Proof.
  revert s. induction sub as [|p sub IH]; intros s post; [intros _; apply HasPrefix_nil|].
  destruct s as [|c s]; [discriminate|].
  rewrite string_app_cons. cbn [gostrings.HasPrefix].
  intros H. apply andb_true_iff in H as [Hc H]. rewrite Hc. now apply IH.
Qed.

Lemma Contains_unfold s sub :
  gostrings.Contains s sub
  = gostrings.HasPrefix s sub
    || match s with
       | EmptyString => false
       | String _ s' => gostrings.Contains s' sub
       end.
Proof. now destruct s. Qed.

Lemma Contains_refl s : gostrings.Contains s s = true.
Proof. rewrite Contains_unfold, HasPrefix_refl. reflexivity. Qed.

Lemma Contains_nil s : gostrings.Contains s "" = true.
Proof. rewrite Contains_unfold, HasPrefix_nil. reflexivity. Qed.

Lemma Contains_app_post s sub post :
  gostrings.Contains s sub = true -> gostrings.Contains (s +:+ post) sub = true.
Proof.
  induction s as [|c s IH].
  - rewrite Contains_unfold, orb_false_r. destruct sub; [|discriminate].
    intros _. apply Contains_nil.
  - rewrite Contains_unfold. intros H. apply orb_true_iff in H as [H|H].
    + rewrite Contains_unfold, (HasPrefix_app _ _ post H). reflexivity.
    + rewrite string_app_cons, Contains_unfold, (IH H). apply orb_true_r.
Qed.

Lemma Contains_app_pre pre s sub :
  gostrings.Contains s sub = true -> gostrings.Contains (pre +:+ s) sub = true.
Proof.
  intros H. induction pre as [|c pre IH]; [exact H|].
  rewrite string_app_cons, Contains_unfold, IH. apply orb_true_r.
Qed.

Lemma Contains_joined pieces piece sub :
  piece ∈ pieces -> gostrings.Contains piece sub = true ->
  gostrings.Contains (joined pieces) sub = true.
Proof.
  intros Hin Hsub. induction pieces as [|first pieces IH]; [inversion Hin|].
  apply elem_of_cons in Hin as [<-|Hin]; cbn.
  - now apply Contains_app_post.
  - apply Contains_app_pre. now apply IH.
Qed.

Lemma HasPrefix_split s sub :
  gostrings.HasPrefix s sub = true -> exists post, s = sub +:+ post.
Proof.
  revert s. induction sub as [|p sub IH]; intros s; [now exists s|].
  destruct s as [|c s]; [discriminate|]. cbn [gostrings.HasPrefix].
  intros H. apply andb_true_iff in H as [Hc H].
  apply Ascii.eqb_eq in Hc as ->. destruct (IH s H) as [post ->].
  now exists post.
Qed.

(** [strings.Contains] is the substring test. *)
Lemma Contains_occursIn s sub :
  gostrings.Contains s sub = true <-> occursIn sub s.
Proof.
  split.
  - induction s as [|c s IH]; rewrite Contains_unfold; intros H;
      apply orb_true_iff in H as [H|H]; try discriminate.
    + apply HasPrefix_split in H as [post ->]. now exists "", post.
    + apply HasPrefix_split in H as [post ->]. now exists "", post.
    + destruct (IH H) as (pre & post & ->). now exists (String c pre), post.
  - intros (pre & post & ->).
    apply Contains_app_pre, Contains_app_post, Contains_refl.
Qed.

(** ** Lower case *)

Lemma mapBytes_app f s t :
  gostrings.mapBytes f (s +:+ t) = gostrings.mapBytes f s +:+ gostrings.mapBytes f t.
Proof.
  induction s as [|c s IH]; [reflexivity|].
  rewrite string_app_cons. cbn [gostrings.mapBytes]. now rewrite IH.
Qed.

Lemma mapBytes_app_inv f s a : forall b,
  gostrings.mapBytes f s = a +:+ b ->
  exists s1 s2,
    s = s1 +:+ s2 /\ gostrings.mapBytes f s1 = a /\ gostrings.mapBytes f s2 = b.
Proof.
  revert s. induction a as [|x a IH]; intros s b H.
  - now exists "", s.
  - destruct s as [|c s]; [discriminate|]. cbn in H. injection H as Hx H.
    destruct (IH s b H) as (s1 & s2 & -> & <- & <-).
    exists (String c s1), s2. cbn. now rewrite Hx.
Qed.

(** The arithmetic of [lowerByte] and the alphabet agree on every byte. *)
Lemma lowerByte_smallOf c : gostrings.lowerByte c = smallOf capitals smalls c.
Proof. destruct c as [[] [] [] [] [] [] [] []]; reflexivity. Qed.

Lemma sameIgnoringCase_lower s : forall t,
  sameIgnoringCase s t = true
  <-> gostrings.mapBytes gostrings.lowerByte s = gostrings.mapBytes gostrings.lowerByte t.
Proof.
  induction s as [|c s IH]; intros [|d t]; cbn; try (split; congruence).
  unfold sameLetter. rewrite !lowerByte_smallOf, andb_true_iff, Ascii.eqb_eq, IH.
  split; [intros [-> ->]; reflexivity|]. intros H. now injection H.
Qed.

Lemma isASCII_sevenBit s : gostrings.isASCII s = sevenBit s.
Proof.
  unfold gostrings.isASCII, sevenBit.
  induction s as [|c s IH]; [reflexivity|]. cbn [list_ascii_of_string forallb].
  rewrite IH. f_equal. destruct c as [[] [] [] [] [] [] [] []]; reflexivity.
Qed.

Lemma ToLower_sevenBit lower s :
  sevenBit s = true ->
  gostrings.ToLower lower s = gostrings.mapBytes gostrings.lowerByte s.
Proof.
  intros H. unfold gostrings.ToLower. now rewrite isASCII_sevenBit, H.
Qed.

(** On ASCII text the test of the code is the substring test up to the
    case of the letters. *)
Lemma matchesQuery_occursIgnoringCase lower query content :
  sevenBit query = true -> sevenBit content = true ->
  matchesQuery lower query content = true <-> occursIgnoringCase query content.
Proof.
  intros Hquery Hcontent. unfold matchesQuery.
  rewrite !ToLower_sevenBit by assumption. rewrite Contains_occursIn.
  split.
  - intros (pre & post & H).
    apply mapBytes_app_inv in H as (s1 & rest & -> & _ & H).
    apply mapBytes_app_inv in H as (found & s3 & -> & H & _).
    exists s1, found, s3. split; [reflexivity|]. now apply sameIgnoringCase_lower.
  - intros (pre & found & post & -> & H). apply sameIgnoringCase_lower in H.
    exists (gostrings.mapBytes gostrings.lowerByte pre),
           (gostrings.mapBytes gostrings.lowerByte post).
    now rewrite !mapBytes_app, H.
Qed.

(** ** Reversal *)

Lemma string_rev_app_append s : forall t, String.rev_app s t = String.rev s +:+ t.
Proof.
  unfold String.rev. induction s as [|c s IH]; intros t; [reflexivity|].
  cbn [String.rev_app]. now rewrite IH, (IH (String c "")), string_app_assoc.
Qed.

Lemma string_rev_cons c s : String.rev (String c s) = String.rev s +:+ String c "".
Proof. unfold String.rev at 1. cbn [String.rev_app]. apply string_rev_app_append. Qed.

Lemma string_rev_append s t : String.rev (s +:+ t) = String.rev t +:+ String.rev s.
Proof.
  induction s as [|c s IH]; [cbn; now rewrite string_app_nil_r|].
  now rewrite string_app_cons, !string_rev_cons, IH, string_app_assoc.
Qed.

Lemma string_rev_involutive s : String.rev (String.rev s) = s.
Proof.
  induction s as [|c s IH]; [reflexivity|].
  now rewrite string_rev_cons, string_rev_append, IH.
Qed.

(** ** White space *)

Lemma joined_cons piece pieces : joined (piece :: pieces) = piece +:+ joined pieces.
Proof. reflexivity. Qed.

Lemma joined_app pieces more : joined (pieces ++ more) = joined pieces +:+ joined more.
Proof.
  induction pieces as [|piece pieces IH]; [reflexivity|].
  rewrite <- app_comm_cons, !joined_cons, IH. now rewrite string_app_assoc.
Qed.

Lemma blank_nil : blank "".
Proof. exists []. split; [constructor|reflexivity]. Qed.

Lemma blank_rune rune : rune ∈ whiteSpace -> blank rune.
Proof.
  intros Hrune. exists [rune]. split; [constructor; [exact Hrune|constructor]|].
  cbn. now rewrite string_app_nil_r.
Qed.

Lemma blank_app s t : blank s -> blank t -> blank (s +:+ t).
Proof.
  intros (runes & Hrunes & ->) (more & Hmore & ->). exists (runes ++ more).
  split; [now apply Forall_app|]. now rewrite joined_app.
Qed.

Lemma byteOf_eqb c n : (byteOf c =? n) = true -> c = ascii_of_N (Z.to_N n).
Proof.
  unfold byteOf. intros H. apply Z.eqb_eq in H. subst n.
  now rewrite N2Z.id, ascii_N_embedding.
Qed.

Lemma existsb_elem rune runes :
  existsb (String.eqb rune) runes = true -> rune ∈ runes.
Proof.
  intros H. apply existsb_exists in H as (found & Hin & Heq).
  apply String.eqb_eq in Heq as ->. now apply list_elem_of_In.
Qed.

(** The byte patterns that the model of [unicode.IsSpace] recognises are
    the UTF-8 encodings of the white-space code points, all of them and
    no other. *)
Lemma whiteSpace_spaceHead rune :
  rune ∈ whiteSpace -> spaceHead gostrings.space2 gostrings.space3 rune = true.
Proof.
  assert (Hall : forallb (spaceHead gostrings.space2 gostrings.space3) whiteSpace
                 = true) by (vm_compute; reflexivity).
  intros Hrune. rewrite forallb_forall in Hall. now apply Hall, list_elem_of_In.
Qed.

Lemma asciiSpace_whiteSpace c :
  gostrings.asciiSpace c = true -> String c "" ∈ whiteSpace.
Proof.
  intros H. apply existsb_elem.
  destruct c as [[] [] [] [] [] [] [] []]; vm_compute in H; try discriminate H;
    vm_compute; reflexivity.
Qed.

Lemma space2_whiteSpace c d :
  gostrings.space2 c d = true -> String c (String d "") ∈ whiteSpace.
Proof.
  unfold gostrings.space2. intros H. apply andb_true_iff in H as [Hc Hd].
  apply byteOf_eqb in Hc as ->. apply existsb_elem.
  apply orb_true_iff in Hd as [Hd|Hd]; apply byteOf_eqb in Hd as ->;
    vm_compute; reflexivity.
Qed.

Lemma space3_whiteSpace c d e :
  gostrings.space3 c d e = true -> String c (String d (String e "")) ∈ whiteSpace.
Proof.
  unfold gostrings.space3. cbv zeta. intros H. apply existsb_elem.
  apply orb_true_iff in H as [H|H]; [apply orb_true_iff in H as [H|H];
    [apply orb_true_iff in H as [H|H]|]|];
    apply andb_true_iff in H as [H He]; apply andb_true_iff in H as [Hc Hd];
    apply byteOf_eqb in Hc as ->; apply byteOf_eqb in Hd as ->;
    destruct e as [[] [] [] [] [] [] [] []]; vm_compute in He; try discriminate He;
    vm_compute; reflexivity.
Qed.

Lemma spaceHead_whiteSpace rune :
  spaceHead gostrings.space2 gostrings.space3 rune = true -> rune ∈ whiteSpace.
Proof.
  destruct rune as [|c [|d [|e [|f rest]]]]; cbn; try discriminate.
  - apply asciiSpace_whiteSpace.
  - apply space2_whiteSpace.
  - apply space3_whiteSpace.
Qed.

(** Read from the right, a rune shows its bytes last byte first. *)
Lemma spaceHead_rev rune :
  spaceHead (fun d c => gostrings.space2 c d) (fun e d c => gostrings.space3 c d e) rune
  = spaceHead gostrings.space2 gostrings.space3 (String.rev rune).
Proof.
  destruct rune as [|c [|d [|e [|f rest]]]]; try reflexivity.
  rewrite !string_rev_cons, !string_app_assoc.
  now destruct (String.rev rest) as [|x [|y [|z [|? ?]]]].
Qed.

Lemma blank_rev_joined runes :
  Forall (fun rune => String.rev rune ∈ whiteSpace) runes ->
  blank (String.rev (joined runes)).
Proof.
  induction 1 as [|rune runes Hrune _ IH]; [apply blank_nil|].
  rewrite joined_cons, string_rev_append.
  apply blank_app; [exact IH|now apply blank_rune].
Qed.

(** ** Dropping white space *)

Section DropSpaces.
Variable two : ascii -> ascii -> bool.
Variable three : ascii -> ascii -> ascii -> bool.

(** What [dropSpaces] takes away is a sequence of the runes it
    recognises. *)
Lemma dropSpaces_split n : forall s, (String.length s <= n)%nat ->
  exists runes,
    Forall (fun rune => spaceHead two three rune = true) runes
    /\ s = joined runes +:+ gostrings.dropSpaces two three s.
Proof.
  induction n as [|n IH]; intros s Hlen.
  { destruct s; [|cbn in Hlen; lia]. exists []. split; [constructor|reflexivity]. }
  destruct s as [|c r]; [exists []; split; [constructor|reflexivity]|].
  cbn [gostrings.dropSpaces]. cbn in Hlen.
  destruct (gostrings.asciiSpace c) eqn:Hc.
  { destruct (IH r) as (runes & Hrunes & Hr); [lia|].
    exists (String c "" :: runes). split; [now constructor|].
    rewrite joined_cons, string_app_assoc, <- Hr. reflexivity. }
  destruct r as [|d r2]; [exists []; split; [constructor|reflexivity]|].
  cbn in Hlen.
  destruct (two c d) eqn:Hcd.
  { destruct (IH r2) as (runes & Hrunes & Hr); [lia|].
    exists (String c (String d "") :: runes). split; [now constructor|].
    rewrite joined_cons, string_app_assoc, <- Hr. reflexivity. }
  destruct r2 as [|e r3]; [exists []; split; [constructor|reflexivity]|].
  cbn in Hlen.
  destruct (three c d e) eqn:Hcde; [|exists []; split; [constructor|reflexivity]].
  destruct (IH r3) as (runes & Hrunes & Hr); [lia|].
  exists (String c (String d (String e "")) :: runes). split; [now constructor|].
  rewrite joined_cons, string_app_assoc, <- Hr. reflexivity.
Qed.

(** What [dropSpaces] leaves does not start with a rune it recognises. *)
Lemma dropSpaces_head n : forall s, (String.length s <= n)%nat ->
  forall rune rest,
    spaceHead two three rune = true ->
    gostrings.dropSpaces two three s <> rune +:+ rest.
Proof.
  induction n as [|n IH]; intros s Hlen rune rest Hrune.
  { destruct s; [|cbn in Hlen; lia]. now destruct rune. }
  destruct s as [|c r]; [now destruct rune|].
  cbn [gostrings.dropSpaces]. cbn in Hlen.
  destruct (gostrings.asciiSpace c) eqn:Hc; [apply IH; [lia|exact Hrune]|].
  destruct r as [|d r2].
  { destruct rune as [|x [|y [|z [|? ?]]]]; cbn in Hrune;
      rewrite ?string_app_cons, ?string_app_nil_l; congruence. }
  cbn in Hlen.
  destruct (two c d) eqn:Hcd; [apply IH; [lia|exact Hrune]|].
  destruct r2 as [|e r3].
  { destruct rune as [|x [|y [|z [|? ?]]]]; cbn in Hrune;
      rewrite ?string_app_cons, ?string_app_nil_l; congruence. }
  cbn in Hlen.
  destruct (three c d e) eqn:Hcde; [apply IH; [lia|exact Hrune]|].
  destruct rune as [|x [|y [|z [|? ?]]]]; cbn in Hrune;
      rewrite ?string_app_cons, ?string_app_nil_l; congruence.
Qed.

End DropSpaces.

(** ** [strings.TrimSpace] trims *)

Lemma TrimLeftSpace_split s :
  exists pre, blank pre /\ s = pre +:+ gostrings.TrimLeftSpace s.
Proof.
  destruct (dropSpaces_split gostrings.space2 gostrings.space3 (String.length s) s)
    as (runes & Hrunes & Hs); [lia|].
  exists (joined runes). split; [|exact Hs]. exists runes. split; [|reflexivity].
  eapply Forall_impl; [exact Hrunes|]. intros rune. apply spaceHead_whiteSpace.
Qed.

Lemma TrimRightSpace_split s :
  exists post, blank post /\ s = gostrings.TrimRightSpace s +:+ post.
Proof.
  unfold gostrings.TrimRightSpace.
  destruct (dropSpaces_split (fun d c => gostrings.space2 c d)
              (fun e d c => gostrings.space3 c d e)
              (String.length (String.rev s)) (String.rev s))
    as (runes & Hrunes & Hs); [lia|].
  exists (String.rev (joined runes)). split.
  - apply blank_rev_joined. eapply Forall_impl; [exact Hrunes|]. intros rune Hrune.
    cbn in Hrune. rewrite spaceHead_rev in Hrune. now apply spaceHead_whiteSpace.
  - rewrite <- string_rev_append, <- Hs. now rewrite string_rev_involutive.
Qed.

(** [strings.TrimSpace] removes the white space on both sides, all of it
    and nothing else. *)
Lemma TrimSpace_trims s : trims s (gostrings.TrimSpace s).
Proof.
  unfold gostrings.TrimSpace.
  destruct (TrimLeftSpace_split s) as (pre & Hpre & Hs).
  destruct (TrimRightSpace_split (gostrings.TrimLeftSpace s)) as (post & Hpost & Hleft).
  set (left := gostrings.TrimLeftSpace s) in *.
  split; [|split].
  - exists pre, post. now rewrite <- Hleft.
  - intros rune rest Hrune Hvalue. rewrite Hvalue, string_app_assoc in Hleft.
    revert Hleft. unfold left, gostrings.TrimLeftSpace.
    apply (dropSpaces_head _ _ (String.length s)); [lia|].
    now apply whiteSpace_spaceHead.
  - intros rune rest Hrune Hvalue. unfold gostrings.TrimRightSpace in Hvalue.
    apply (f_equal String.rev) in Hvalue.
    rewrite string_rev_involutive, string_rev_append in Hvalue. revert Hvalue.
    apply (dropSpaces_head _ _ (String.length (String.rev left))); [lia|].
    rewrite spaceHead_rev, string_rev_involutive. now apply whiteSpace_spaceHead.
Qed.

(** ** Trimming is determined *)

Lemma string_rev_joined pieces :
  String.rev (joined pieces) = joined (String.rev <$> reverse pieces).
Proof.
  induction pieces as [|piece pieces IH]; [reflexivity|].
  rewrite joined_cons, string_rev_append, IH, reverse_cons, fmap_app, joined_app.
  cbn. now rewrite string_app_nil_r.
Qed.

Section Runes.
Variable two : ascii -> ascii -> bool.
Variable three : ascii -> ascii -> ascii -> bool.
Variable runes : list string.
Hypothesis recognised : forall rune, spaceHead two three rune = true -> rune ∈ runes.
Hypothesis whole : forallb (wholeRune two three) runes = true.

Lemma rune_whole rune : rune ∈ runes -> wholeRune two three rune = true.
Proof.
  intros Hrune. pose proof whole as Hall. rewrite forallb_forall in Hall.
  now apply Hall, list_elem_of_In.
Qed.

Lemma dropSpaces_rune rune rest :
  rune ∈ runes ->
  gostrings.dropSpaces two three (rune +:+ rest) = gostrings.dropSpaces two three rest.
Proof.
  intros Hrune. apply rune_whole in Hrune.
  destruct rune as [|c [|d [|e [|f more]]]]; cbn in Hrune; try discriminate;
    rewrite ?string_app_cons, ?string_app_nil_l; cbn [gostrings.dropSpaces].
  - now rewrite Hrune.
  - apply andb_true_iff in Hrune as [Hc Hcd]. apply negb_true_iff in Hc.
    now rewrite Hc, Hcd.
  - apply andb_true_iff in Hrune as [Hrune Hcde].
    apply andb_true_iff in Hrune as [Hc Hcd].
    apply negb_true_iff in Hc, Hcd. now rewrite Hc, Hcd, Hcde.
Qed.

Lemma dropSpaces_blank pieces rest :
  Forall (fun rune => rune ∈ runes) pieces ->
  gostrings.dropSpaces two three (joined pieces +:+ rest)
  = gostrings.dropSpaces two three rest.
Proof.
  induction 1 as [|rune pieces Hrune _ IH]; [reflexivity|].
  now rewrite joined_cons, string_app_assoc, dropSpaces_rune.
Qed.

(** A blank string that is not empty starts as a rune does. *)
Lemma blank_lead pieces lead rest :
  Forall (fun rune => rune ∈ runes) pieces ->
  joined pieces = String lead rest ->
  exists more, String lead more ∈ runes.
Proof.
  induction 1 as [|rune pieces Hrune _ IH]; [discriminate|].
  rewrite joined_cons. pose proof (rune_whole rune Hrune) as Hwhole.
  destruct rune as [|c more]; [discriminate|].
  rewrite string_app_cons. intros [= -> _]. now exists more.
Qed.

(** What neither is empty nor starts with a rune is kept, whatever
    blank string follows it. *)
Lemma dropSpaces_kept value pieces :
  value <> "" ->
  (forall rune rest, rune ∈ runes -> value <> rune +:+ rest) ->
  Forall (fun rune => rune ∈ runes) pieces ->
  pieces = [] \/ leadsApart runes = true ->
  gostrings.dropSpaces two three (value +:+ joined pieces) = value +:+ joined pieces.
Proof.
  intros Hvalue Hhead Hpieces Hapart.
  assert (Hfollow : forall lead rest c tail,
            joined pieces = String lead rest -> String c tail ∈ runes ->
            In lead (list_ascii_of_string tail) -> False).
  { intros lead rest c tail Hjoined Hrune Hlead.
    destruct Hapart as [->|Hapart]; [discriminate|].
    destruct (blank_lead pieces lead rest Hpieces Hjoined) as [more Hother].
    unfold leadsApart in Hapart. rewrite forallb_forall in Hapart.
    specialize (Hapart _ (proj1 (list_elem_of_In _ _) Hrune)).
    rewrite forallb_forall in Hapart.
    specialize (Hapart _ (proj1 (list_elem_of_In _ _) Hother)). cbn in Hapart.
    apply negb_true_iff in Hapart.
    assert (Hsome : existsb (Ascii.eqb lead) (list_ascii_of_string tail) = true).
    { apply existsb_exists. exists lead. split; [exact Hlead|apply Ascii.eqb_refl]. }
    congruence. }
  destruct value as [|c value]; [congruence|]. clear Hvalue.
  rewrite string_app_cons. cbn [gostrings.dropSpaces].
  destruct (gostrings.asciiSpace c) eqn:Hc.
  { exfalso. apply (Hhead (String c "") value); [|reflexivity].
    apply recognised. exact Hc. }
  destruct (value +:+ joined pieces) as [|d r2] eqn:Hrest; [reflexivity|].
  destruct (two c d) eqn:Hcd.
  { exfalso. assert (Hrune : String c (String d "") ∈ runes)
      by (apply recognised; exact Hcd).
    destruct value as [|d' value].
    - rewrite string_app_nil_l in Hrest.
      apply (Hfollow d r2 c (String d "") Hrest Hrune). now left.
    - rewrite string_app_cons in Hrest. injection Hrest as -> _.
      now apply (Hhead (String c (String d "")) value). }
  destruct r2 as [|e r3]; [reflexivity|].
  destruct (three c d e) eqn:Hcde; [|reflexivity].
  exfalso. assert (Hrune : String c (String d (String e "")) ∈ runes)
    by (apply recognised; exact Hcde).
  destruct value as [|d' [|e' value]].
  - rewrite string_app_nil_l in Hrest.
    apply (Hfollow d (String e r3) c (String d (String e "")) Hrest Hrune). now left.
  - rewrite string_app_cons, string_app_nil_l in Hrest. injection Hrest as -> Hrest.
    apply (Hfollow e r3 c (String d (String e "")) Hrest Hrune). now right; left.
  - rewrite !string_app_cons in Hrest. injection Hrest as -> -> _.
    now apply (Hhead (String c (String d (String e ""))) value).
Qed.

End Runes.

Lemma whiteSpace_whole :
  forallb (wholeRune gostrings.space2 gostrings.space3) whiteSpace = true.
Proof. vm_compute. reflexivity. Qed.

Lemma whiteSpace_apart : leadsApart whiteSpace = true.
Proof. vm_compute. reflexivity. Qed.

Lemma whiteSpace_rev_recognised rune :
  spaceHead (fun d c => gostrings.space2 c d) (fun e d c => gostrings.space3 c d e) rune
  = true ->
  rune ∈ String.rev <$> whiteSpace.
Proof.
  rewrite spaceHead_rev. intros Hrune. apply spaceHead_whiteSpace in Hrune.
  apply list_elem_of_fmap. exists (String.rev rune).
  now rewrite string_rev_involutive.
Qed.

Lemma whiteSpace_rev_whole :
  forallb (wholeRune (fun d c => gostrings.space2 c d)
                     (fun e d c => gostrings.space3 c d e))
          (String.rev <$> whiteSpace) = true.
Proof. vm_compute. reflexivity. Qed.

(** Only one value trims a text: the one [strings.TrimSpace] returns. *)
Lemma trims_TrimSpace text value : trims text value -> gostrings.TrimSpace text = value.
Proof.
  intros ((pre & post & -> & (before & Hbefore & ->) & (after & Hafter & ->))
          & Hhead & Hlast).
  unfold gostrings.TrimSpace, gostrings.TrimLeftSpace.
  rewrite (dropSpaces_blank _ _ whiteSpace whiteSpace_whole) by exact Hbefore.
  destruct (decide (value = "")) as [->|Hvalue].
  { rewrite string_app_nil_l, <- (string_app_nil_r (joined after)).
    now rewrite (dropSpaces_blank _ _ whiteSpace whiteSpace_whole) by exact Hafter. }
  rewrite (dropSpaces_kept _ _ whiteSpace spaceHead_whiteSpace whiteSpace_whole)
    by (try assumption; right; exact whiteSpace_apart).
  unfold gostrings.TrimRightSpace.
  rewrite string_rev_append, string_rev_joined.
  assert (Hrev : Forall (fun rune => rune ∈ String.rev <$> whiteSpace)
                        (String.rev <$> reverse after)).
  { apply Forall_fmap, Forall_reverse. eapply Forall_impl; [exact Hafter|].
    intros rune Hrune. change (String.rev rune ∈ String.rev <$> whiteSpace).
    apply list_elem_of_fmap. now exists rune. }
  rewrite (dropSpaces_blank _ _ _ whiteSpace_rev_whole) by exact Hrev.
  rewrite <- (string_app_nil_r (String.rev value)).
  change "" with (joined []) at 1.
  rewrite (dropSpaces_kept _ _ _ whiteSpace_rev_recognised whiteSpace_rev_whole).
  - cbn. now rewrite string_app_nil_r, string_rev_involutive.
  - intros Hempty. apply Hvalue. apply (f_equal String.rev) in Hempty.
    now rewrite string_rev_involutive in Hempty.
  - intros rune rest Hrune Heq. apply list_elem_of_fmap in Hrune as (found & -> & Hfound).
    apply (f_equal String.rev) in Heq.
    rewrite string_rev_involutive, string_rev_append, string_rev_involutive in Heq.
    exact (Hlast found (String.rev rest) Hfound Heq).
  - constructor.
  - now left.
Qed.

(** ** Slices and the monad *)

Lemma index_in_range {A} (l : list A) (i : Z) (x : A) :
  0 <= i -> l !! Z.to_nat i = Some x -> index l i = Ok x.
Proof.
  intros Hi Hx. unfold index.
  destruct (Z.ltb_spec i 0) as [Hneg|_]; [lia|]. now rewrite Hx.
Qed.

Lemma index_negative {A} (l : list A) (i : Z) :
  i < 0 -> index l i = Panic "index out of range".
Proof.
  intros Hi. unfold index. destruct (Z.ltb_spec i 0) as [_|Hge]; [reflexivity|lia].
Qed.

Lemma geb_len_false {A} (l : list A) (i : Z) :
  i < len l -> (i >=? len l) = false.
Proof. intros H. rewrite Z.geb_leb. apply Z.leb_gt. exact H. Qed.

Lemma geb_len_true {A} (l : list A) (i : Z) :
  len l <= i -> (i >=? len l) = true.
Proof. intros H. rewrite Z.geb_leb. apply Z.leb_le. exact H. Qed.

Lemma lookup_lt_len {A} (l : list A) (i : Z) (x : A) :
  0 <= i -> l !! Z.to_nat i = Some x -> i < len l.
Proof.
  intros Hi Hx. apply lookup_lt_Some in Hx. unfold len. lia.
Qed.

(** ** Running a service *)

Ltac run_service :=
  unfold bind, lift, ret, fail, PresentationsGetDo, PresentationsBatchUpdateDo,
    PresentationsCreateDo, FilesUpdateAddParentsDo, timeNowUnixNano,
    submitted, thenReturn, fetched, ticked; cbn.

(** A fetched snapshot, a negative index: the bounds test lets it
    through and the slice access panics. *)
Ltac negative_index Hget Hneg :=
  run_service; rewrite Hget; cbn;
  rewrite geb_len_false by (unfold len; lia);
  rewrite index_negative by exact Hneg; reflexivity.

(** A fetched snapshot, an index at or beyond its length. *)
Ltac large_index Hget Hlarge :=
  run_service; rewrite Hget; cbn;
  rewrite geb_len_true by exact Hlarge; reflexivity.

(** A fetched snapshot, an index that names a slide. *)
Ltac slide_index Hget Hpos Hslide :=
  run_service; rewrite Hget; cbn;
  rewrite geb_len_false by (eapply lookup_lt_len; eassumption);
  rewrite (index_in_range _ _ _ Hpos Hslide); cbn.

(** ** Slide resolution *)

Section Resolution.
Variables (env : Env) (presentationID : string) (w : World) (p : Presentation).
Hypothesis Hget : presentationsGet env (calls w) presentationID = Reply p.

Lemma slide_Duplicate_in_range slideIndex slide :
  0 <= slideIndex -> Slides p !! Z.to_nat slideIndex = Some slide ->
  slide.Duplicate env presentationID slideIndex w
  = submitted env "error duplicating slide" presentationID
      [DuplicateObject (PageObjectId slide)] (fetched presentationID w).
Proof.
  intros Hpos Hslide. unfold slide.Duplicate. slide_index Hget Hpos Hslide.
  now destruct (presentationsBatchUpdate _ _ _ _) as [[]|].
Qed.

Lemma slide_Duplicate_too_large slideIndex :
  len (Slides p) <= slideIndex ->
  slide.Duplicate env presentationID slideIndex w
  = (Err "slide index out of range", fetched presentationID w).
Proof. intros H. unfold slide.Duplicate. large_index Hget H. Qed.

Lemma slide_Remove_in_range slideIndex slide :
  0 <= slideIndex -> Slides p !! Z.to_nat slideIndex = Some slide ->
  slide.Remove env presentationID slideIndex w
  = submitted env "error removing slide" presentationID
      [DeleteObject (PageObjectId slide)] (fetched presentationID w).
Proof.
  intros Hpos Hslide. unfold slide.Remove. slide_index Hget Hpos Hslide.
  now destruct (presentationsBatchUpdate _ _ _ _) as [[]|].
Qed.

Lemma slide_Remove_too_large slideIndex :
  len (Slides p) <= slideIndex ->
  slide.Remove env presentationID slideIndex w
  = (Err "slide index out of range", fetched presentationID w).
Proof. intros H. unfold slide.Remove. large_index Hget H. Qed.

Lemma slide_Move_in_range slideIndex newPosition slide :
  0 <= slideIndex -> Slides p !! Z.to_nat slideIndex = Some slide ->
  slide.Move env presentationID slideIndex newPosition w
  = submitted env "error moving slide" presentationID
      [UpdateSlidesPosition [PageObjectId slide] newPosition]
      (fetched presentationID w).
Proof.
  intros Hpos Hslide. unfold slide.Move. slide_index Hget Hpos Hslide.
  now destruct (presentationsBatchUpdate _ _ _ _) as [[]|].
Qed.

Lemma slide_Move_too_large slideIndex newPosition :
  len (Slides p) <= slideIndex ->
  slide.Move env presentationID slideIndex newPosition w
  = (Err "slide index out of range", fetched presentationID w).
Proof. intros H. unfold slide.Move. large_index Hget H. Qed.

Lemma table_Create_in_range slideIndex rows cols slide :
  0 <= slideIndex -> Slides p !! Z.to_nat slideIndex = Some slide ->
  let tableID := "table_" +:+ fmt_d (unixNano env (clockReads w)) in
  table.Create env presentationID slideIndex rows cols w
  = thenReturn tableID
      (submitted env "error creating table" presentationID
         [CreateTable tableID
            {| PageObjectId_ := PageObjectId slide; Width := 400; Height := 200;
               ScaleX := 1; ScaleY := 1; TranslateX := 50; TranslateY := 50 |}
            rows cols]
         (ticked (fetched presentationID w))).
Proof.
  intros Hpos Hslide. unfold table.Create, table.generateObjectID.
  slide_index Hget Hpos Hslide.
  now destruct (presentationsBatchUpdate _ _ _ _) as [[]|].
Qed.

Lemma table_Create_too_large slideIndex rows cols :
  len (Slides p) <= slideIndex ->
  table.Create env presentationID slideIndex rows cols w
  = (Err "slide index out of range", fetched presentationID w).
Proof. intros H. unfold table.Create. large_index Hget H. Qed.

Lemma shape_Add_in_range slideIndex shapeType slide :
  0 <= slideIndex -> Slides p !! Z.to_nat slideIndex = Some slide ->
  let shapeID := "shape_" +:+ fmt_d (unixNano env (clockReads w)) in
  shape.Add env presentationID slideIndex shapeType w
  = thenReturn shapeID
      (submitted env "error adding shape" presentationID
         [CreateShape shapeID shapeType
            {| PageObjectId_ := PageObjectId slide; Width := 100; Height := 100;
               ScaleX := 1; ScaleY := 1; TranslateX := 100; TranslateY := 100 |}]
         (ticked (fetched presentationID w))).
Proof.
  intros Hpos Hslide. unfold shape.Add, shape.generateObjectID.
  slide_index Hget Hpos Hslide.
  now destruct (presentationsBatchUpdate _ _ _ _) as [[]|].
Qed.

Lemma shape_Add_too_large slideIndex shapeType :
  len (Slides p) <= slideIndex ->
  shape.Add env presentationID slideIndex shapeType w
  = (Err "slide index out of range", fetched presentationID w).
Proof. intros H. unfold shape.Add. large_index Hget H. Qed.

Lemma notes_Get_in_range slideIndex slide properties :
  0 <= slideIndex -> Slides p !! Z.to_nat slideIndex = Some slide ->
  SlideProperties_ slide = Some properties ->
  notes.Get env presentationID slideIndex w
  = (Ok match NotesPage properties with
        | None => ""
        | Some notesPage => notes.writeElements (PageElements notesPage) ""
        end, fetched presentationID w).
Proof.
  intros Hpos Hslide Hprops. unfold notes.Get. slide_index Hget Hpos Hslide.
  rewrite Hprops. cbn. now destruct (NotesPage properties).
Qed.

Lemma notes_Get_too_large slideIndex :
  len (Slides p) <= slideIndex ->
  notes.Get env presentationID slideIndex w
  = (Err "slide index out of range", fetched presentationID w).
Proof. intros H. unfold notes.Get. large_index Hget H. Qed.

Lemma notes_Add_too_large slideIndex notesContent :
  len (Slides p) <= slideIndex ->
  notes.Add env presentationID slideIndex notesContent w
  = (Err "slide index out of range", fetched presentationID w).
Proof. intros H. unfold notes.Add. large_index Hget H. Qed.

(** C1 (the code departs from it).  The claim: for every snapshot of N
    slides and every integer index, slide resolution in Duplicate,
    Remove, Move, table Create, shape Add and notes Get/Add returns the
    slide at that position when 0 <= index < N and fails with the
    out-of-range error when index >= N and when index < 0.  The lemmas
    above establish the first two cases.  This theorem is what the code
    does in the third: the only test is [slideIndex >= len(Slides)], a
    negative index passes it, and [presentation.Slides[slideIndex]]
    panics; no error value is returned and no batch is submitted. *)
Theorem slide_resolution_negative_index_panics slideIndex :
  slideIndex < 0 ->
  let panicked := (Panic "index out of range", fetched presentationID w) in
  slide.Duplicate env presentationID slideIndex w = panicked
  /\ slide.Remove env presentationID slideIndex w = panicked
  /\ (forall newPosition,
        slide.Move env presentationID slideIndex newPosition w = panicked)
  /\ (forall rows cols,
        table.Create env presentationID slideIndex rows cols w
        = (Panic "index out of range", fetched presentationID w))
  /\ (forall shapeType,
        shape.Add env presentationID slideIndex shapeType w
        = (Panic "index out of range", fetched presentationID w))
  /\ notes.Get env presentationID slideIndex w
     = (Panic "index out of range", fetched presentationID w)
  /\ (forall notesContent,
        notes.Add env presentationID slideIndex notesContent w = panicked).
Proof.
  intros Hneg panicked. subst panicked.
  repeat split; intros.
  - unfold slide.Duplicate. negative_index Hget Hneg.
  - unfold slide.Remove. negative_index Hget Hneg.
  - unfold slide.Move. negative_index Hget Hneg.
  - unfold table.Create. negative_index Hget Hneg.
  - unfold shape.Add. negative_index Hget Hneg.
  - unfold notes.Get. negative_index Hget Hneg.
  - unfold notes.Add. negative_index Hget Hneg.
Qed.

End Resolution.

Lemma slide_resolution_negative_index_witness :
  slide.Duplicate (serving fourSlides advancing) "deck" (-1) World0
  = (Panic "index out of range",
     {| calls := [PresentationsGet "deck"]; clockReads := 0 |}).
Proof.
  apply (slide_resolution_negative_index_panics (serving fourSlides advancing)
           "deck" World0 fourSlides eq_refl (-1)).
  lia.
Defined.

(** ** Identifier generation *)

Lemma generateObjectID_run env prefix w :
  shape.generateObjectID env prefix w
  = (Ok (prefix +:+ "_" +:+ fmt_d (unixNano env (clockReads w))), ticked w).
Proof. reflexivity. Qed.

(** An identifier determines the clock reading it was made from. *)
Lemma objectID_reading_inj prefix (t1 t2 : Z) :
  prefix +:+ "_" +:+ fmt_d t1 = prefix +:+ "_" +:+ fmt_d t2 -> t1 = t2.
Proof.
  intros H. apply (inj (String.app prefix)) in H.
  apply (inj (String.app "_")) in H.
  unfold fmt_d in H. now apply (inj pretty) in H.
Qed.

(** C2 as stated fails: with a clock that has not moved between the two
    readings, two calls in immediate succession return the same value. *)
Lemma generateObjectID_same_tick_collides :
  let env := serving fourSlides frozen in
  let first := shape.generateObjectID env "shape" World0 in
  let second := shape.generateObjectID env "shape" (snd first) in
  fst first = Ok "shape_1700000000000000000" /\ fst second = fst first.
Proof. split; reflexivity. Qed.

(** C2 (amended).  generateObjectID returns the prefix, an underscore and
    the decimal nanosecond reading of the clock, and nothing else: there
    is no sequence counter.  Two calls in immediate succession therefore
    return different values whenever the clock reading changed between
    them.  The three packages define the same function. *)
Theorem generateObjectID_fresh_when_clock_moved env prefix w :
  unixNano env (clockReads w) <> unixNano env (S (clockReads w)) ->
  exists a b,
    shape.generateObjectID env prefix w = (Ok a, ticked w)
    /\ shape.generateObjectID env prefix (ticked w) = (Ok b, ticked (ticked w))
    /\ a = prefix +:+ "_" +:+ fmt_d (unixNano env (clockReads w))
    /\ b = prefix +:+ "_" +:+ fmt_d (unixNano env (S (clockReads w)))
    /\ a <> b
    /\ slide.generateObjectID = shape.generateObjectID
    /\ table.generateObjectID = shape.generateObjectID.
Proof.
  intros Hmoved. eexists _, _. repeat split.
  intros Hsame. apply Hmoved. exact (objectID_reading_inj _ _ _ Hsame).
Qed.

Lemma generateObjectID_fresh_witness :
  exists a b,
    shape.generateObjectID (serving fourSlides advancing) "shape" World0
    = (Ok a, ticked World0)
    /\ shape.generateObjectID (serving fourSlides advancing) "shape" (ticked World0)
       = (Ok b, ticked (ticked World0))
    /\ a = "shape_1700000000000000000"
    /\ b = "shape_1700000000000000001"
    /\ a <> b
    /\ slide.generateObjectID = shape.generateObjectID
    /\ table.generateObjectID = shape.generateObjectID.
Proof.
  apply (generateObjectID_fresh_when_clock_moved (serving fourSlides advancing)
           "shape" World0).
  discriminate.
Defined.

(** ** Reorder *)

Lemma parseIndices_ok tokens : forall indices acc,
  Forall2 denotes tokens indices ->
  slide.parseIndices tokens acc = Ok (acc ++ indices).
Proof.
  induction tokens as [|token tokens IH]; intros indices acc Hall;
    inversion Hall as [|? idx ? indices' Hd Hrest]; subst; cbn.
  - now rewrite app_nil_r.
  - unfold denotes in Hd. rewrite Hd. rewrite (IH indices' (acc ++ [idx]) Hrest).
    now rewrite <- app_assoc.
Qed.

Lemma parseIndices_malformed tokens : forall acc,
  Exists malformed tokens ->
  exists token, token ∈ tokens /\ malformed token
    /\ slide.parseIndices tokens acc = Err ("invalid index: " +:+ token).
Proof.
  induction tokens as [|token tokens IH]; intros acc Hbad.
  - inversion Hbad.
  - cbn. destruct (strconv.Atoi (gostrings.TrimSpace token)) as [idx|] eqn:Hparse.
    + assert (Hrest : Exists malformed tokens).
      { inversion Hbad as [? ? Hhead|]; subst; [|assumption].
        unfold malformed in Hhead. congruence. }
      destruct (IH (acc ++ [idx]) Hrest) as (t & Hin & Hmal & Herr).
      exists t. split; [apply elem_of_cons; now right|]. now split.
    + exists token. split; [apply elem_of_cons; now left|]. now split.
Qed.

Lemma slideAt_index slides idx :
  inRange slides idx ->
  exists slide, index slides idx = Ok slide /\ PageObjectId slide = slideAt slides idx.
Proof.
  intros [Hlo Hhi]. unfold slideAt.
  destruct (slides !! Z.to_nat idx) as [slide|] eqn:Hslide.
  - exists slide. split; [now apply index_in_range|reflexivity].
  - apply lookup_ge_None in Hslide. unfold len in Hhi. lia.
Qed.

Lemma buildRequests_prefix slides good : forall position requests rest,
  Forall (inRange slides) good ->
  slide.buildRequests slides (good ++ rest) position requests
  = slide.buildRequests slides rest (position + len good)
      (requests ++ imap (fun k idx =>
         UpdateSlidesPosition [slideAt slides idx] (position + Z.of_nat k)) good).
Proof.
  induction good as [|idx good IH]; intros position requests rest Hgood.
  - cbn. unfold len. cbn. now rewrite Z.add_0_r, app_nil_r.
  - inversion Hgood as [|? ? Hidx Hgood']; subst. cbn.
    rewrite geb_len_false by apply Hidx.
    destruct (slideAt_index slides idx Hidx) as (slide & -> & Hid).
    rewrite (IH (position + 1) _ rest Hgood'). rewrite Hid.
    rewrite <- app_assoc. cbn. rewrite Z.add_0_r.
    f_equal.
    + unfold len. cbn [length]. lia.
    + do 2 f_equal. apply imap_ext. intros k i _. cbn. f_equal. lia.
Qed.

Lemma buildRequests_in_range slides indices :
  Forall (inRange slides) indices ->
  slide.buildRequests slides indices 0 [] = Ok (repositions slides indices).
Proof.
  intros Hall.
  rewrite <- (app_nil_r indices) at 1.
  rewrite (buildRequests_prefix slides indices 0 [] [] Hall). reflexivity.
Qed.

Lemma buildRequests_too_large slides good idx rest :
  Forall (inRange slides) good -> len slides <= idx ->
  slide.buildRequests slides (good ++ idx :: rest) 0 []
  = Err ("slide index " +:+ fmt_d idx +:+ " out of range").
Proof.
  intros Hgood Hlarge. rewrite (buildRequests_prefix slides good 0 [] _ Hgood).
  cbn. now rewrite geb_len_true by exact Hlarge.
Qed.

Lemma buildRequests_negative slides good idx rest :
  Forall (inRange slides) good -> idx < 0 ->
  slide.buildRequests slides (good ++ idx :: rest) 0 []
  = Panic "index out of range".
Proof.
  intros Hgood Hneg. rewrite (buildRequests_prefix slides good 0 [] _ Hgood).
  cbn. rewrite geb_len_false by (unfold len; lia).
  now rewrite index_negative by exact Hneg.
Qed.

Section Reorder.
Variables (env : Env) (presentationID indicesStr : string) (w : World).

(** A token that is no integer: the error names it, and nothing was
    asked of the remote service. *)
Lemma slide_Reorder_malformed :
  Exists malformed (gostrings.Split indicesStr ",") ->
  exists token, token ∈ gostrings.Split indicesStr "," /\ malformed token
    /\ slide.Reorder env presentationID indicesStr w
       = (Err ("invalid index: " +:+ token), w).
Proof.
  intros Hbad.
  destruct (parseIndices_malformed _ [] Hbad) as (token & Hin & Hmal & Herr).
  exists token. repeat split; try assumption.
  unfold slide.Reorder. run_service. now rewrite Herr.
Qed.

Variables (p : Presentation) (indices : list Z).
Hypothesis Hget : presentationsGet env (calls w) presentationID = Reply p.
Hypothesis Hparse : Forall2 denotes (gostrings.Split indicesStr ",") indices.

(** All listed ordinals name a slide: one batch, one reposition per
    listed slide, in the listed order, resolved in the fetched
    snapshot. *)
Lemma slide_Reorder_in_range :
  Forall (inRange (Slides p)) indices ->
  slide.Reorder env presentationID indicesStr w
  = submitted env "error reordering slides" presentationID
      (repositions (Slides p) indices) (fetched presentationID w).
Proof.
  intros Hall. unfold slide.Reorder. run_service.
  rewrite (parseIndices_ok _ _ [] Hparse). cbn. rewrite Hget. cbn.
  rewrite (buildRequests_in_range _ _ Hall). cbn.
  now destruct (presentationsBatchUpdate _ _ _ _) as [[]|].
Qed.

(** The first ordinal that names no slide is too large: the
    out-of-range error, and no batch. *)
Lemma slide_Reorder_too_large good idx rest :
  indices = good ++ idx :: rest ->
  Forall (inRange (Slides p)) good -> len (Slides p) <= idx ->
  slide.Reorder env presentationID indicesStr w
  = (Err ("slide index " +:+ fmt_d idx +:+ " out of range"),
     fetched presentationID w).
Proof.
  intros -> Hgood Hlarge. unfold slide.Reorder. run_service.
  rewrite (parseIndices_ok _ _ [] Hparse). cbn. rewrite Hget. cbn.
  now rewrite (buildRequests_too_large _ _ _ _ Hgood Hlarge).
Qed.

(** C3 (the code departs from it).  The claim: Reorder parses every
    token as an integer (malformed-input error otherwise), resolves
    every listed ordinal in the original snapshot (out-of-range error
    if one is out of bounds) and submits, as one batch and in the
    listed order, one reposition per listed slide to its place in the
    list.  The lemmas above establish this for lists without a
    negative ordinal.  This theorem is what the code does when the
    first ordinal that names no slide is negative: the only test is
    [oldIndex >= len(Slides)], and [presentation.Slides[oldIndex]]
    panics instead of returning the out-of-range error. *)
Theorem slide_Reorder_negative_index_panics good idx rest :
  indices = good ++ idx :: rest ->
  Forall (inRange (Slides p)) good -> idx < 0 ->
  slide.Reorder env presentationID indicesStr w
  = (Panic "index out of range", fetched presentationID w).
Proof.
  intros -> Hgood Hneg. unfold slide.Reorder. run_service.
  rewrite (parseIndices_ok _ _ [] Hparse). cbn. rewrite Hget. cbn.
  now rewrite (buildRequests_negative _ _ _ _ Hgood Hneg).
Qed.

End Reorder.

Lemma slide_Reorder_negative_index_witness :
  slide.Reorder (serving fourSlides advancing) "deck" "0,-1" World0
  = (Panic "index out of range",
     {| calls := [PresentationsGet "deck"]; clockReads := 0 |}).
Proof.
  apply (slide_Reorder_negative_index_panics (serving fourSlides advancing)
           "deck" "0,-1" World0 fourSlides [0; -1] eq_refl
           ltac:(repeat constructor) [0] (-1) [] eq_refl).
  - repeat constructor; unfold len; cbn; lia.
  - lia.
Defined.

(** The example of the specification: "2,0,1" on four slides. *)
Example slide_Reorder_example :
  slide.Reorder (serving fourSlides advancing) "deck" "2,0,1" World0
  = (Ok tt,
     {| calls := [PresentationsGet "deck";
                  PresentationsBatchUpdate "deck"
                    [UpdateSlidesPosition ["c"] 0;
                     UpdateSlidesPosition ["a"] 1;
                     UpdateSlidesPosition ["b"] 2]];
        clockReads := 0 |}).
Proof. reflexivity. Qed.

(** ** Adding notes *)

Lemma findNotesShape_find elements : forall notesShapeID,
  notes.findNotesShape elements notesShapeID
  = match List.find isShape elements with
    | Some element => ObjectId element
    | None => notesShapeID
    end.
Proof.
  induction elements as [|element elements IH]; intros notesShapeID; cbn.
  - reflexivity.
  - unfold isShape at 1. destruct (Shape_ element); [reflexivity|apply IH].
Qed.

(** C4 as stated fails: the element Add writes to is the first shape of
    the notes page, whether or not it carries a text body.  On the first
    notes page the first element with a text body is "n2", and Add writes
    to "n1"; on the second no element carries a text body, and Add does
    not fail but writes to "n1". *)
Lemma notes_Add_targets_shape_without_text_body :
  let page1 := [emptyBox "n1"; textBox "n2" ["old"]] in
  let page2 := [emptyBox "n1"] in
  let p := deck [slideOf "a" [] (Some (notesOf "na" page1));
                 slideOf "b" [] (Some (notesOf "nb" page2))] in
  let written :=
    (Ok tt, {| calls := [PresentationsGet "deck";
                         PresentationsBatchUpdate "deck" [InsertText "n1" None "hi" 0]];
               clockReads := 0 |}) in
  (ObjectId <$> List.find hasTextBody page1) = Some "n2"
  /\ notes.Add (serving p advancing) "deck" 0 "hi" World0 = written
  /\ List.find hasTextBody page2 = None
  /\ notes.Add (serving p advancing) "deck" 1 "hi" World0 = written.
Proof. repeat split; reflexivity. Qed.

(** C4 (amended).  For every snapshot and in-range slide index, adding
    notes fails with "notes page not available" when the slide has no
    notes page or the notes page has no elements; otherwise it targets
    the notes page's first element that is a shape, with or without a
    text body, inserting the notes at index 0 of it in one batch; it
    fails with "notes shape not found" when no element of the notes page
    is a shape, or when that first shape has an empty identifier. *)
Theorem notes_Add_targets_first_shape env presentationID slideIndex notesContent
    w p slide properties :
  presentationsGet env (calls w) presentationID = Reply p ->
  0 <= slideIndex -> Slides p !! Z.to_nat slideIndex = Some slide ->
  SlideProperties_ slide = Some properties ->
  notes.Add env presentationID slideIndex notesContent w
  = match NotesPage properties with
    | None => (Err "notes page not available", fetched presentationID w)
    | Some notesPage =>
        match PageElements notesPage with
        | [] => (Err "notes page not available", fetched presentationID w)
        | elements =>
            match List.find isShape elements with
            | None => (Err "notes shape not found", fetched presentationID w)
            | Some element =>
                if String.eqb (ObjectId element) ""
                then (Err "notes shape not found", fetched presentationID w)
                else submitted env "error adding notes" presentationID
                       [InsertText (ObjectId element) None notesContent 0]
                       (fetched presentationID w)
            end
        end
    end.
Proof.
  intros Hget Hpos Hslide Hprops. unfold notes.Add.
  slide_index Hget Hpos Hslide. rewrite Hprops. cbn.
  destruct (NotesPage properties) as [notesPage|]; cbn; [|reflexivity].
  destruct (PageElements notesPage) as [|element elements] eqn:Helements;
    [reflexivity|].
  rewrite findNotesShape_find.
  replace (len (element :: elements) =? 0) with false
    by (symmetry; apply Z.eqb_neq; unfold len; cbn [length]; lia).
  cbn [List.find].
  destruct (isShape element);
    [|destruct (List.find isShape elements) as [found|]; [|reflexivity]];
    (match goal with
     | |- context [String.eqb ?a ""] => destruct (String.eqb a "")
     end; [reflexivity|];
     run_service; now destruct (presentationsBatchUpdate _ _ _ _) as [[]|]).
Qed.

Lemma notes_Add_targets_first_shape_witness :
  notes.Add (serving (deck [slideOf "a" []
                              (Some (notesOf "na" [picture "i1"; emptyBox "n1";
                                                   textBox "n2" ["old"]]))])
                     advancing) "deck" 0 "hi" World0
  = (Ok tt,
     {| calls := [PresentationsGet "deck";
                  PresentationsBatchUpdate "deck" [InsertText "n1" None "hi" 0]];
        clockReads := 0 |}).
Proof.
  apply (notes_Add_targets_first_shape
           (serving (deck [slideOf "a" []
                             (Some (notesOf "na" [picture "i1"; emptyBox "n1";
                                                  textBox "n2" ["old"]]))])
                    advancing)
           "deck" 0 "hi" World0 _ _ _ eq_refl ltac:(lia) eq_refl eq_refl).
Defined.

(** ** Styling a cell *)

(** StyleCell has no failure of its own: it always submits. *)
Lemma table_StyleCell_submits env scan presentationID tableID row col bgColor w :
  table.StyleCell env scan presentationID tableID row col bgColor w
  = submitted env "error styling cell" presentationID
      [cellFill tableID (table.parseColor scan bgColor) row col] w.
Proof.
  unfold table.StyleCell, cellFill. run_service.
  now destruct (presentationsBatchUpdate _ _ _ _) as [[]|].
Qed.

(** C5 as stated fails: "red" is no colour, yet StyleCell returns
    success, having submitted a batch whose fill carries no colour. *)
Lemma table_StyleCell_accepts_invalid_color :
  validColor "red" = false
  /\ table.StyleCell (serving fourSlides advancing) table.scanSixHexDigits
       "deck" "table_1" 0 0 "red" World0
     = (Ok tt,
        {| calls := [PresentationsBatchUpdate "deck" [cellFill "table_1" None 0 0]];
           clockReads := 0 |}).
Proof. split; reflexivity. Qed.

(** C5 (amended).  For every invalid colour string, styling a cell
    performs no local validation and returns no local error: it submits
    one batch with one update-cell-style primitive and returns what the
    remote service answers to it (a refusal wrapped with "error styling
    cell").  When the string, after removal of one leading '#', is not
    six bytes long the primitive carries no colour; when it is six bytes
    long the primitive carries the components Sscanf stored, unchecked. *)
Theorem table_StyleCell_invalid_color_submitted env scan presentationID tableID
    row col bgColor w :
  validColor bgColor = false ->
  let digits := gostrings.TrimPrefix bgColor "#" in
  let color :=
    if Z.of_nat (String.length digits) =? 6
    then let '(r, g, b) := scan digits in
         Some {| RgbColor_ := {| Red := Qmake r 255; Green := Qmake g 255;
                                 Blue := Qmake b 255 |} |}
    else None in
  table.StyleCell env scan presentationID tableID row col bgColor w
  = submitted env "error styling cell" presentationID
      [cellFill tableID color row col] w
  /\ (presentationsBatchUpdate env (calls w) presentationID
        [cellFill tableID color row col] = Reply tt ->
      fst (table.StyleCell env scan presentationID tableID row col bgColor w)
      = Ok tt).
Proof.
  intros _ digits color.
  assert (Hcolor : table.parseColor scan bgColor = color).
  { unfold table.parseColor, color, digits.
    destruct (Z.of_nat (String.length (gostrings.TrimPrefix bgColor "#")) =? 6);
      [|reflexivity].
    cbn. now destruct (scan _) as [[r g] b]. }
  rewrite table_StyleCell_submits, Hcolor. split; [reflexivity|].
  intros Haccepted. unfold submitted. cbn. now rewrite Haccepted.
Qed.

Lemma table_StyleCell_invalid_color_witness :
  table.StyleCell (serving fourSlides advancing) table.scanSixHexDigits
    "deck" "table_1" 2 3 "#12345" World0
  = submitted (serving fourSlides advancing) "error styling cell" "deck"
      [cellFill "table_1" None 2 3] World0.
Proof.
  apply (table_StyleCell_invalid_color_submitted (serving fourSlides advancing)
           table.scanSixHexDigits "deck" "table_1" 2 3 "#12345" World0 eq_refl).
Defined.

(** A valid colour, for comparison. *)
Example table_parseColor_example :
  table.parseColor table.scanSixHexDigits "#FF0000"
  = Some {| RgbColor_ := {| Red := Qmake 255 255; Green := Qmake 0 255;
                            Blue := Qmake 0 255 |} |}
  /\ table.parseColor table.scanSixHexDigits "00ff7f"
     = Some {| RgbColor_ := {| Red := Qmake 0 255; Green := Qmake 255 255;
                               Blue := Qmake 127 255 |} |}
  /\ table.parseColor table.scanSixHexDigits "#12345" = None
  /\ table.parseColor table.scanSixHexDigits "" = None.
Proof. repeat split; reflexivity. Qed.

(** ** Extracting the text *)

Lemma text_writeRuns_joined textElements : forall allText,
  text.writeRuns textElements allText
  = allText +:+ joined (omap (fun textElement => Content <$> TextRun_ textElement)
                             textElements).
Proof.
  induction textElements as [|textElement rest IH]; intros allText; cbn.
  - now rewrite string_app_nil_r.
  - destruct (TextRun_ textElement) as [run|]; cbn; rewrite IH.
    + now rewrite string_app_assoc.
    + reflexivity.
Qed.

Lemma text_writeElements_joined elements : forall allText,
  text.writeElements elements allText
  = allText +:+ joined ((fun t => t +:+ LF) <$> elementTexts elements).
Proof.
  unfold elementTexts.
  induction elements as [|element rest IH]; intros allText; cbn.
  - now rewrite string_app_nil_r.
  - unfold textBody at 1.
    destruct (Shape_ element) as [shape|]; cbn; [|apply IH].
    destruct (slides.Text shape) as [body|]; cbn; [|apply IH].
    rewrite IH, text_writeRuns_joined. unfold flattened, runsOf.
    now rewrite !string_app_assoc.
Qed.

Lemma text_writeSlides_joined slides : forall allText,
  text.writeSlides slides allText = allText +:+ extractText slides.
Proof.
  unfold extractText.
  induction slides as [|slide rest IH]; intros allText; cbn.
  - now rewrite string_app_nil_r.
  - rewrite IH, text_writeElements_joined. unfold slideText, delimiter.
    now rewrite !string_app_assoc.
Qed.

(** C6.  For every snapshot, full-text extraction visits the slides in
    snapshot order, turns every text-bearing element into one flattened
    string (its text runs concatenated in order, then a line feed) and
    appends the fixed delimiter after every slide, the last included; the
    snapshot is fetched and nothing else is asked of the remote
    service.  In particular two slides with the single runs "Hello" and
    "World" give "Hello\n\n---\n\n" followed by "World\n\n---\n\n". *)
Theorem text_ExtractAll_extractText env presentationID w p :
  presentationsGet env (calls w) presentationID = Reply p ->
  text.ExtractAll env presentationID w
  = (Ok (extractText (Slides p)), fetched presentationID w)
  /\ extractText (Slides helloWorld)
     = ("Hello" +:+ LF +:+ LF +:+ "---" +:+ LF +:+ LF)
       +:+ ("World" +:+ LF +:+ LF +:+ "---" +:+ LF +:+ LF).
Proof.
  intros Hget. split; [|reflexivity].
  unfold text.ExtractAll. run_service. rewrite Hget. cbn.
  now rewrite text_writeSlides_joined.
Qed.

Lemma text_ExtractAll_extractText_witness :
  text.ExtractAll (serving helloWorld advancing) "deck" World0
  = (Ok (extractText (Slides helloWorld)), fetched "deck" World0)
  /\ extractText (Slides helloWorld)
     = ("Hello" +:+ LF +:+ LF +:+ "---" +:+ LF +:+ LF)
       +:+ ("World" +:+ LF +:+ LF +:+ "---" +:+ LF +:+ LF).
Proof.
  apply (text_ExtractAll_extractText (serving helloWorld advancing) "deck"
           World0 helloWorld eq_refl).
Defined.

(** The example of the specification: two slides with the single runs
    "Hello" and "World". *)
Example text_ExtractAll_hello_world :
  fst (text.ExtractAll (serving helloWorld advancing) "deck" World0)
  = Ok ("Hello" +:+ LF +:+ LF +:+ "---" +:+ LF +:+ LF
        +:+ "World" +:+ LF +:+ LF +:+ "---" +:+ LF +:+ LF).
Proof. reflexivity. Qed.

(** Runs are concatenated per element, elements end in a line feed, and
    a slide without text still contributes the delimiter. *)
Example text_ExtractAll_shapes :
  extractText [slideOf "a" [textBox "t1" ["Hel"; "lo"]; picture "i1";
                            emptyBox "e1"; textBox "t2" ["World"]] None;
               slideOf "b" [] None]
  = "Hello" +:+ LF +:+ "World" +:+ LF +:+ LF +:+ "---" +:+ LF +:+ LF
    +:+ LF +:+ "---" +:+ LF +:+ LF.
Proof. reflexivity. Qed.

(** ** Extracting the notes *)

Lemma notes_writeRuns_joined textElements : forall notesText,
  notes.writeRuns textElements notesText
  = notesText +:+ joined (omap (fun textElement => Content <$> TextRun_ textElement)
                               textElements).
Proof.
  induction textElements as [|textElement rest IH]; intros acc; cbn.
  - now rewrite string_app_nil_r.
  - destruct (TextRun_ textElement) as [run|]; cbn; rewrite IH.
    + now rewrite string_app_assoc.
    + reflexivity.
Qed.

Lemma notes_writeElements_joined elements : forall acc,
  notes.writeElements elements acc = acc +:+ joined (elementTexts elements).
Proof.
  unfold elementTexts.
  induction elements as [|element rest IH]; intros acc; cbn.
  - now rewrite string_app_nil_r.
  - unfold textBody at 1.
    destruct (Shape_ element) as [shape|]; cbn; [|apply IH].
    destruct (slides.Text shape) as [body|]; cbn; [|apply IH].
    rewrite IH, notes_writeRuns_joined. unfold flattened, runsOf.
    now rewrite string_app_assoc.
Qed.

Lemma notes_writeElements_notesText notesPage :
  notes.writeElements (PageElements notesPage) "" = notesText notesPage.
Proof. now rewrite notes_writeElements_joined. Qed.

Lemma slideKey_inj i j : slideKey i = slideKey j -> i = j.
Proof.
  unfold slideKey, fmt_d. intros H.
  apply (inj (String.app "slide_")) in H. apply (inj pretty) in H. lia.
Qed.

Lemma length_positive_nonempty s :
  (Z.of_nat (String.length s) >? 0) = negb (String.eqb s "").
Proof. now destruct s. Qed.

(** Either no ordinal below [n] has the label [key], or one has. *)
Lemma slideKey_search key n :
  (forall k, (k < n)%nat -> key <> slideKey k)
  \/ exists k, (k < n)%nat /\ key = slideKey k.
Proof.
  induction n as [|n [IH|(k & Hk & ->)]].
  - left. lia.
  - destruct (decide (key = slideKey n)) as [->|Hne].
    + right. exists n. split; [lia|reflexivity].
    + left. intros k Hk. destruct (decide (k = n)) as [->|]; [assumption|].
      apply IH. lia.
  - right. exists k. split; [lia|reflexivity].
Qed.

(** The loop of ExtractAll from ordinal [start] on, entered with a map
    that has no label from [start] upwards. *)
Lemma notes_extractSlides_entries slides : forall (start : nat) allNotes,
  Forall (fun slide => is_Some (SlideProperties_ slide)) slides ->
  (forall k, (start <= k)%nat -> allNotes !! slideKey k = None) ->
  exists result : gmap string string,
    notes.extractSlides slides (Z.of_nat start) allNotes = Ok result
    /\ (forall k slide, slides !! k = Some slide ->
          result !! slideKey (start + k) = notesEntry slide)
    /\ (forall key, (forall k, (k < length slides)%nat -> key <> slideKey (start + k)) ->
          result !! key = allNotes !! key).
Proof.
  induction slides as [|slide rest IH]; intros start allNotes Hprops Hfresh.
  - exists allNotes. cbn. split; [reflexivity|split].
    + intros k slide Hk. now rewrite lookup_nil in Hk.
    + reflexivity.
  - inversion Hprops as [|? ? [properties Hslide] Hrest]; subst.
    cbn [notes.extractSlides]. rewrite Hslide.
    replace (Z.of_nat start + 1) with (Z.of_nat (S start)) by lia.
    assert (Hentry : notesEntry slide
      = match NotesPage properties with
        | None => None
        | Some notesPage =>
            if String.eqb (notesText notesPage) "" then None
            else Some (gostrings.TrimSpace (notesText notesPage))
        end).
    { unfold notesEntry, notesPageOf. now rewrite Hslide. }
    set (next := match NotesPage properties with
                 | None => allNotes
                 | Some notesPage =>
                     if String.eqb (notesText notesPage) "" then allNotes
                     else <[ slideKey start :=
                             gostrings.TrimSpace (notesText notesPage) ]> allNotes
                 end).
    assert (Hnext_fresh : forall k, (S start <= k)%nat -> next !! slideKey k = None).
    { intros k Hk. subst next.
      destruct (NotesPage properties) as [notesPage|]; [|apply Hfresh; lia].
      destruct (String.eqb (notesText notesPage) ""); [apply Hfresh; lia|].
      rewrite lookup_insert_ne; [apply Hfresh; lia|].
      intros Heq. apply slideKey_inj in Heq. lia. }
    assert (Hnext_here : next !! slideKey start = notesEntry slide).
    { rewrite Hentry. subst next.
      destruct (NotesPage properties) as [notesPage|]; [|apply Hfresh; lia].
      destruct (String.eqb (notesText notesPage) ""); [apply Hfresh; lia|].
      apply lookup_insert_eq. }
    assert (Hnext_other : forall key, key <> slideKey start ->
              next !! key = allNotes !! key).
    { intros key Hkey. subst next.
      destruct (NotesPage properties) as [notesPage|]; [|reflexivity].
      destruct (String.eqb (notesText notesPage) ""); [reflexivity|].
      now rewrite lookup_insert_ne by congruence. }
    destruct (IH (S start) next Hrest Hnext_fresh) as (result & Hrun & Hhit & Hmiss).
    exists result. split; [|split].
    + rewrite <- Hrun. subst next.
      destruct (NotesPage properties) as [notesPage|]; [|reflexivity].
      cbn zeta. rewrite notes_writeElements_notesText, length_positive_nonempty.
      now destruct (String.eqb (notesText notesPage) "").
    + intros [|k] found Hfound.
      * cbn in Hfound. injection Hfound as <-.
        rewrite Nat.add_0_r, Hmiss; [exact Hnext_here|].
        intros k _ Heq. apply slideKey_inj in Heq. lia.
      * cbn in Hfound. replace (start + S k)%nat with (S start + k)%nat by lia.
        now apply Hhit.
    + intros key Hkey. rewrite Hmiss.
      * apply Hnext_other. specialize (Hkey 0%nat). rewrite Nat.add_0_r in Hkey.
        apply Hkey. cbn. lia.
      * intros k Hk. replace (S start + k)%nat with (start + S k)%nat by lia.
        apply Hkey. cbn. lia.
Qed.

(** The trimming spelled out determines what the mapping holds, and it
    is what the code computes. *)
Lemma recorded_notesEntry slide entry :
  recorded slide entry <-> entry = notesEntry slide.
Proof.
  unfold recorded, notesEntry. destruct (notesPageOf slide) as [notesPage|]; [|reflexivity].
  destruct (String.eqb (notesText notesPage) ""); [reflexivity|]. split.
  - intros (value & -> & Hvalue). now rewrite (trims_TrimSpace _ _ Hvalue).
  - intros ->. eexists. split; [reflexivity|]. apply TrimSpace_trims.
Qed.




(** The example of the specification: slide 0 has the notes
    "  remember this  ", slide 1 has no notes page. *)
Example notes_ExtractAll_remember_this :
  fst (notes.ExtractAll (serving rememberThis advancing) "deck" World0)
  = Ok {[ "slide_0" := "remember this" ]}.
Proof. reflexivity. Qed.

(** ** Searching the text *)

Section Search.
Variable lower : string -> string.

Lemma text_searchRuns_matches slideIdx element textElements query :
  forall results,
  text.searchRuns lower slideIdx element textElements query results
  = results ++
    ((fun content => {| text.SlideIndex := slideIdx;
                        text.ObjectID := ObjectId element;
                        text.Text := content |})
       <$> List.filter (matchesQuery lower query)
             (omap (fun textElement => Content <$> TextRun_ textElement)
                   textElements)).
Proof.
  induction textElements as [|textElement rest IH]; intros results; cbn.
  - now rewrite app_nil_r.
  - destruct (TextRun_ textElement) as [run|]; cbn; [|apply IH].
    fold (matchesQuery lower query (Content run)).
    destruct (matchesQuery lower query (Content run)); rewrite IH; cbn.
    + now rewrite <- app_assoc.
    + reflexivity.
Qed.

Lemma text_searchElements_matches slideIdx elements query : forall results,
  text.searchElements lower slideIdx elements query results
  = results ++ flat_map (elementMatches lower slideIdx query) elements.
Proof.
  induction elements as [|element rest IH]; intros results; cbn.
  - now rewrite app_nil_r.
  - unfold elementMatches at 1, textBody.
    destruct (Shape_ element) as [shape|]; cbn; [|apply IH].
    destruct (slides.Text shape) as [body|]; cbn; [|apply IH].
    rewrite IH, text_searchRuns_matches, <- app_assoc. reflexivity.
Qed.

Lemma text_searchSlides_matches slides query : forall (start : nat) results,
  text.searchSlides lower slides (Z.of_nat start) query results
  = results ++
    concat (imap (fun k slide =>
                    flat_map (elementMatches lower (Z.of_nat (start + k)) query)
                             (PageElements slide))
                 slides).
Proof.
  induction slides as [|slide rest IH]; intros start results; cbn.
  - now rewrite app_nil_r.
  - replace (Z.of_nat start + 1) with (Z.of_nat (S start)) by lia.
    rewrite IH, text_searchElements_matches, Nat.add_0_r, <- app_assoc.
    do 3 f_equal. apply imap_ext. intros k found _. unfold compose.
    replace (Z.of_nat (S start + k)) with (Z.of_nat (start + S k)) by lia.
    reflexivity.
Qed.

Lemma elementMatches_match slideIdx query element :
  Forall (fun result => matchesQuery lower query (text.Text result) = true)
         (elementMatches lower slideIdx query element).
Proof.
  unfold elementMatches. destruct (textBody element) as [body|]; [|constructor].
  induction (runsOf body) as [|content rest IH]; cbn; [constructor|].
  destruct (matchesQuery lower query content) eqn:Hmatch; [|exact IH].
  constructor; [exact Hmatch|exact IH].
Qed.

Lemma elementMatches_elem slideIdx query element result :
  result ∈ elementMatches lower slideIdx query element
  <-> exists body content,
        textBody element = Some body /\ content ∈ runsOf body
        /\ result = {| text.SlideIndex := slideIdx;
                       text.ObjectID := ObjectId element;
                       text.Text := content |}
        /\ matchesQuery lower query content = true.
Proof.
  unfold elementMatches. destruct (textBody element) as [body|].
  - rewrite list_elem_of_fmap. split.
    + intros (content & -> & Hcontent).
      apply list_elem_of_In, filter_In in Hcontent as [Hcontent Hmatch].
      exists body, content. now rewrite list_elem_of_In.
    + intros (body' & content & [= <-] & Hcontent & -> & Hmatch).
      exists content. split; [reflexivity|].
      apply list_elem_of_In, filter_In. now rewrite <- list_elem_of_In.
  - split; [now inversion 1|]. now intros (body & content & [=] & _).
Qed.

Lemma searchText_elem slides query result :
  result ∈ searchText lower slides query
  <-> exists k element content,
        runAt slides k element content
        /\ result = {| text.SlideIndex := Z.of_nat k;
                       text.ObjectID := ObjectId element;
                       text.Text := content |}
        /\ matchesQuery lower query content = true.
Proof.
  unfold searchText, runAt. split.
  - intros Hresult.
    apply list_elem_of_In, in_concat in Hresult as (results & Hresults & Hresult).
    apply list_elem_of_In in Hresults, Hresult.
    apply elem_of_lookup_imap in Hresults as (k & slide & -> & Hslide).
    apply list_elem_of_In, in_flat_map in Hresult as (element & Helement & Hresult).
    apply list_elem_of_In in Helement, Hresult.
    apply elementMatches_elem in Hresult as (body & content & Hbody & Hcontent & -> & Hmatch).
    exists k, element, content. split; [|now split]. now exists slide, body.
  - intros (k & element & content & (slide & body & Hslide & Helement & Hbody & Hcontent)
            & -> & Hmatch).
    apply list_elem_of_In, in_concat.
    exists (flat_map (elementMatches lower (Z.of_nat k) query) (PageElements slide)).
    split.
    + apply list_elem_of_In, elem_of_lookup_imap. now exists k, slide.
    + apply in_flat_map. exists element. split; [now apply list_elem_of_In|].
      apply list_elem_of_In, elementMatches_elem. now exists body, content.
Qed.


End Search.


(** The examples of the specification: "wor" finds the run "World" and
    reports the whole run; "lo wo" does not. *)
Example text_Search_world :
  fst (text.Search (serving worldOnly advancing) asciiOnly "deck" "wor" World0)
  = Ok [{| text.SlideIndex := 0; text.ObjectID := "t1"; text.Text := "World" |}]
  /\ fst (text.Search (serving worldOnly advancing) asciiOnly "deck" "lo wo" World0)
     = Ok [].
Proof. split; reflexivity. Qed.

(** A match that spans a run boundary is not found: the element reads
    "Hello World", which contains "lo wo", but neither of its runs
    does. *)
Example text_Search_run_boundary :
  (flattened <$> omap textBody [textBox "t1" ["Hello "; "World"]]) = ["Hello World"]
  /\ matchesQuery asciiOnly "lo wo" "Hello World" = true
  /\ fst (text.Search (serving helloWorldRuns advancing) asciiOnly "deck" "lo wo" World0)
     = Ok []
  /\ fst (text.Search (serving helloWorldRuns advancing) asciiOnly "deck" "O" World0)
     = Ok [{| text.SlideIndex := 0; text.ObjectID := "t1"; text.Text := "Hello " |};
           {| text.SlideIndex := 0; text.ObjectID := "t1"; text.Text := "World" |}].
Proof. repeat split; reflexivity. Qed.

(** ** The placeholders of package style *)

(** C9.  CopyTextStyle, CopyTheme and TranslateSlides are placeholders:
    for every input and from every world each returns success, issues no
    call to the remote service and reads no clock, so the world, and with
    it every presentation, is as before. *)
Theorem style_placeholders_do_nothing (a b c : string) (w : World) :
  style.CopyTextStyle a b c w = (Ok tt, w)
  /\ style.CopyTheme a b w = (Ok tt, w)
  /\ style.TranslateSlides a b w = (Ok tt, w).
Proof. repeat split; reflexivity. Qed.

(** ** Creating a presentation *)

Lemma presentation_Create_without_folder env title w :
  presentation.Create env title "" w
  = (orWrap "error creating presentation" (presentationsCreate env (calls w) title),
     issue (PresentationsCreate title) w).
Proof.
  unfold presentation.Create. run_service.
  now destruct (presentationsCreate env (calls w) title).
Qed.

Lemma presentation_Create_refused env title folderID w e :
  presentationsCreate env (calls w) title = Fault e ->
  presentation.Create env title folderID w
  = (Err ("error creating presentation: " +:+ e), issue (PresentationsCreate title) w).
Proof.
  intros Hcreate. unfold presentation.Create. run_service. now rewrite Hcreate.
Qed.

Lemma presentation_Create_moved env title folderID w result :
  presentationsCreate env (calls w) title = Reply result ->
  folderID <> "" ->
  filesUpdateAddParents env (calls w ++ [PresentationsCreate title])
    (PresentationId result) folderID = Reply tt ->
  presentation.Create env title folderID w
  = (Ok result,
     issue (FilesUpdateAddParents (PresentationId result) folderID)
           (issue (PresentationsCreate title) w)).
Proof.
  intros Hcreate Hfolder Hmove. unfold presentation.Create. run_service.
  rewrite Hcreate. cbn. apply String.eqb_neq in Hfolder. rewrite Hfolder. cbn.
  now rewrite Hmove.
Qed.

(** C10.  With a folder given, Create first creates the presentation
    remotely and then moves it to the folder in a second call.  When the
    creation succeeded and the move is refused, Create returns an error
    (the refusal wrapped with "error moving to folder"), although the
    remote service has created the presentation: the creation was issued
    and answered before the move, the move is the last call, and nothing
    is issued that would undo the creation.  An error from Create
    therefore does not mean that nothing was changed. *)
Theorem presentation_Create_move_failure_keeps_presentation env title folderID
    w result e :
  presentationsCreate env (calls w) title = Reply result ->
  folderID <> "" ->
  filesUpdateAddParents env (calls w ++ [PresentationsCreate title])
    (PresentationId result) folderID = Fault e ->
  exists w',
    presentation.Create env title folderID w
    = (Err ("error moving to folder: " +:+ e), w')
    /\ calls w' = calls w ++ [PresentationsCreate title;
                              FilesUpdateAddParents (PresentationId result) folderID]
    /\ clockReads w' = clockReads w.
Proof.
  intros Hcreate Hfolder Hmove.
  exists (issue (FilesUpdateAddParents (PresentationId result) folderID)
                (issue (PresentationsCreate title) w)).
  split; [|split].
  - unfold presentation.Create. run_service.
    rewrite Hcreate. cbn. apply String.eqb_neq in Hfolder. rewrite Hfolder. cbn.
    now rewrite Hmove.
  - cbn. now rewrite <- app_assoc.
  - reflexivity.
Qed.

Lemma presentation_Create_move_failure_witness :
  exists w',
    presentation.Create refusingMove "Quarterly" "folder-1" World0
    = (Err "error moving to folder: folder not found", w')
    /\ calls w' = [PresentationsCreate "Quarterly";
                   FilesUpdateAddParents "created" "folder-1"]
    /\ clockReads w' = 0%nat.
Proof.
  apply (presentation_Create_move_failure_keeps_presentation refusingMove
           "Quarterly" "folder-1" World0
           {| PresentationId := "created"; Title := "Quarterly"; Slides := [] |}
           "folder not found");
    [reflexivity | discriminate | reflexivity].
Defined.

(** * Further properties of the service layer *)

(** ** Adding a slide *)

Lemma slide_Add_submits env presentationID layout position w :
  let slideID := "slide_" +:+ fmt_d (unixNano env (clockReads w)) in
  slide.Add env presentationID layout position w
  = thenReturn slideID
      (submitted env "error adding slide" presentationID
         [CreateSlide slideID layout (Z.max position 0)] (ticked w)).
Proof.
  unfold slide.Add, slide.generateObjectID. run_service.
  replace (if position >=? 0 then position else 0) with (Z.max position 0)
    by (rewrite Z.geb_leb; destruct (Z.leb_spec 0 position); lia).
  now destruct (presentationsBatchUpdate _ _ _ _) as [[]|].
Qed.

(** X1.  slide.Add leaves the insertion index at its zero value for a
    negative position, so every negative position, the flag's default -1
    included, submits exactly the request that position 0 submits and has
    the same outcome. *)
Theorem slide_Add_negative_position_as_zero env presentationID layout position w :
  position < 0 ->
  slide.Add env presentationID layout position w
  = slide.Add env presentationID layout 0 w.
Proof.
  intros Hneg. rewrite !slide_Add_submits. cbn zeta.
  now replace (Z.max position 0) with (Z.max 0 0) by lia.
Qed.

Lemma slide_Add_negative_position_witness :
  slide.Add (serving fourSlides advancing) "deck" "BLANK" (-1) World0
  = slide.Add (serving fourSlides advancing) "deck" "BLANK" 0 World0.
Proof.
  apply (slide_Add_negative_position_as_zero (serving fourSlides advancing)
           "deck" "BLANK" (-1) World0).
  lia.
Defined.

(** ** What a creation returns *)

(** X2.  slide.Add, table.Create and shape.Add return an identifier only
    when the remote service accepted a batch that holds exactly one
    request, which creates an element under that very identifier; when
    they do not return one, either no batch was submitted or the remote
    service refused it.  slide.Add never fetches the presentation, the
    other two fetch it once, before the batch. *)
Theorem creations_return_the_submitted_id env presentationID w :
  (forall layout position,
     match slide.Add env presentationID layout position w with
     | (Ok id, w') =>
         exists request,
           createdObjectId request = Some id
           /\ calls w' = calls w ++ [PresentationsBatchUpdate presentationID [request]]
           /\ presentationsBatchUpdate env (calls w) presentationID [request] = Reply tt
     | (_, w') =>
         exists request e,
           calls w' = calls w ++ [PresentationsBatchUpdate presentationID [request]]
           /\ presentationsBatchUpdate env (calls w) presentationID [request] = Fault e
     end)
  /\ (forall slideIndex rows cols,
     match table.Create env presentationID slideIndex rows cols w with
     | (Ok id, w') =>
         exists request,
           createdObjectId request = Some id
           /\ calls w' = calls w ++ [PresentationsGet presentationID;
                                     PresentationsBatchUpdate presentationID [request]]
           /\ presentationsBatchUpdate env (calls w ++ [PresentationsGet presentationID])
                presentationID [request] = Reply tt
     | (_, w') =>
         calls w' = calls w ++ [PresentationsGet presentationID]
         \/ exists request e,
              calls w' = calls w ++ [PresentationsGet presentationID;
                                     PresentationsBatchUpdate presentationID [request]]
              /\ presentationsBatchUpdate env (calls w ++ [PresentationsGet presentationID])
                   presentationID [request] = Fault e
     end)
  /\ (forall slideIndex shapeType,
     match shape.Add env presentationID slideIndex shapeType w with
     | (Ok id, w') =>
         exists request,
           createdObjectId request = Some id
           /\ calls w' = calls w ++ [PresentationsGet presentationID;
                                     PresentationsBatchUpdate presentationID [request]]
           /\ presentationsBatchUpdate env (calls w ++ [PresentationsGet presentationID])
                presentationID [request] = Reply tt
     | (_, w') =>
         calls w' = calls w ++ [PresentationsGet presentationID]
         \/ exists request e,
              calls w' = calls w ++ [PresentationsGet presentationID;
                                     PresentationsBatchUpdate presentationID [request]]
              /\ presentationsBatchUpdate env (calls w ++ [PresentationsGet presentationID])
                   presentationID [request] = Fault e
     end).
Proof.
  split; [|split].
  - intros layout position. unfold slide.Add, slide.generateObjectID. run_service.
    destruct (presentationsBatchUpdate _ _ _ _) as [[]|e] eqn:Hbatch; cbn.
    + eexists. split; [|split]; [|reflexivity|exact Hbatch]. reflexivity.
    + eexists _, e. split; [reflexivity|exact Hbatch].
  - intros slideIndex rows cols. unfold table.Create, table.generateObjectID.
    run_service.
    destruct (presentationsGet env (calls w) presentationID) as [p|e]; cbn;
      [|now left].
    destruct (slideIndex >=? len (Slides p)); cbn; [now left|].
    destruct (index (Slides p) slideIndex) as [slide| |]; cbn; try now left.
    destruct (presentationsBatchUpdate _ _ _ _) as [[]|e] eqn:Hbatch; cbn.
    + eexists. split; [|split]; [|now rewrite <- app_assoc|exact Hbatch].
      reflexivity.
    + right. eexists _, e. split; [now rewrite <- app_assoc|exact Hbatch].
  - intros slideIndex shapeType. unfold shape.Add, shape.generateObjectID.
    run_service.
    destruct (presentationsGet env (calls w) presentationID) as [p|e]; cbn;
      [|now left].
    destruct (slideIndex >=? len (Slides p)); cbn; [now left|].
    destruct (index (Slides p) slideIndex) as [slide| |]; cbn; try now left.
    destruct (presentationsBatchUpdate _ _ _ _) as [[]|e] eqn:Hbatch; cbn.
    + eexists. split; [|split]; [|now rewrite <- app_assoc|exact Hbatch].
      reflexivity.
    + right. eexists _, e. split; [now rewrite <- app_assoc|exact Hbatch].
Qed.

(** ** Slide ordinals that name a slide, and ordinals that are too large *)

Lemma index_Ok_elem {A} (l : list A) (i : Z) (x : A) :
  index l i = Ok x -> x ∈ l.
Proof.
  unfold index. destruct (i <? 0); [discriminate|].
  destruct (l !! Z.to_nat i) as [y|] eqn:Hy; [|discriminate].
  intros [= <-]. now apply list_elem_of_lookup_2 in Hy.
Qed.

(** X3.  When the fetched snapshot has a slide at the ordinal, Duplicate,
    Remove, Move, table.Create and shape.Add submit one batch of one
    request that names that slide by its identifier: the duplicate, the
    deletion and the reposition of the slide itself, the table and the
    shape with the slide as their page. *)
Theorem slide_ordinal_resolves_to_its_slide env presentationID w p slideIndex slide :
  presentationsGet env (calls w) presentationID = Reply p ->
  0 <= slideIndex -> Slides p !! Z.to_nat slideIndex = Some slide ->
  let w1 := fetched presentationID w in
  slide.Duplicate env presentationID slideIndex w
  = submitted env "error duplicating slide" presentationID
      [DuplicateObject (PageObjectId slide)] w1
  /\ slide.Remove env presentationID slideIndex w
     = submitted env "error removing slide" presentationID
         [DeleteObject (PageObjectId slide)] w1
  /\ (forall newPosition,
        slide.Move env presentationID slideIndex newPosition w
        = submitted env "error moving slide" presentationID
            [UpdateSlidesPosition [PageObjectId slide] newPosition] w1)
  /\ (forall rows cols,
        exists props,
          PageObjectId_ props = PageObjectId slide
          /\ table.Create env presentationID slideIndex rows cols w
             = thenReturn ("table_" +:+ fmt_d (unixNano env (clockReads w)))
                 (submitted env "error creating table" presentationID
                    [CreateTable ("table_" +:+ fmt_d (unixNano env (clockReads w)))
                       props rows cols] (ticked w1)))
  /\ (forall shapeType,
        exists props,
          PageObjectId_ props = PageObjectId slide
          /\ shape.Add env presentationID slideIndex shapeType w
             = thenReturn ("shape_" +:+ fmt_d (unixNano env (clockReads w)))
                 (submitted env "error adding shape" presentationID
                    [CreateShape ("shape_" +:+ fmt_d (unixNano env (clockReads w)))
                       shapeType props] (ticked w1))).
Proof.
  intros Hget Hpos Hslide w1. subst w1. split; [|split; [|split; [|split]]].
  - now apply slide_Duplicate_in_range with (p := p).
  - now apply slide_Remove_in_range with (p := p).
  - intros newPosition. now apply slide_Move_in_range with (p := p).
  - intros rows cols.
    exists {| PageObjectId_ := PageObjectId slide; Width := 400; Height := 200;
              ScaleX := 1; ScaleY := 1; TranslateX := 50; TranslateY := 50 |}.
    split; [reflexivity|].
    exact (table_Create_in_range env presentationID w p Hget slideIndex rows cols
             slide Hpos Hslide).
  - intros shapeType.
    exists {| PageObjectId_ := PageObjectId slide; Width := 100; Height := 100;
              ScaleX := 1; ScaleY := 1; TranslateX := 100; TranslateY := 100 |}.
    split; [reflexivity|].
    exact (shape_Add_in_range env presentationID w p Hget slideIndex shapeType
             slide Hpos Hslide).
Qed.

Lemma slide_ordinal_resolves_witness :
  slide.Remove (serving fourSlides advancing) "deck" 2 World0
  = (Ok tt,
     {| calls := [PresentationsGet "deck";
                  PresentationsBatchUpdate "deck" [DeleteObject "c"]];
        clockReads := 0 |}).
Proof.
  apply (slide_ordinal_resolves_to_its_slide (serving fourSlides advancing)
           "deck" World0 fourSlides 2 (slideOf "c" [] None) eq_refl ltac:(lia)
           eq_refl).
Defined.

(** X4.  An ordinal at or beyond the number of slides is refused by all
    seven operations that take one, with the error "slide index out of
    range", after the fetch and before anything is submitted. *)
Theorem slide_ordinal_too_large_is_refused env presentationID w p slideIndex :
  presentationsGet env (calls w) presentationID = Reply p ->
  len (Slides p) <= slideIndex ->
  let refused {A} : outcome A * World :=
    (Err "slide index out of range", fetched presentationID w) in
  slide.Duplicate env presentationID slideIndex w = refused
  /\ slide.Remove env presentationID slideIndex w = refused
  /\ (forall newPosition,
        slide.Move env presentationID slideIndex newPosition w = refused)
  /\ (forall rows cols,
        table.Create env presentationID slideIndex rows cols w = refused)
  /\ (forall shapeType,
        shape.Add env presentationID slideIndex shapeType w = refused)
  /\ notes.Get env presentationID slideIndex w = refused
  /\ (forall notesContent,
        notes.Add env presentationID slideIndex notesContent w = refused).
Proof.
  intros Hget Hlarge refused. subst refused. repeat split; intros.
  - now apply slide_Duplicate_too_large with (p := p).
  - now apply slide_Remove_too_large with (p := p).
  - now apply slide_Move_too_large with (p := p).
  - now apply table_Create_too_large with (p := p).
  - now apply shape_Add_too_large with (p := p).
  - now apply notes_Get_too_large with (p := p).
  - now apply notes_Add_too_large with (p := p).
Qed.

Lemma slide_ordinal_too_large_witness :
  slide.Duplicate (serving fourSlides advancing) "deck" 4 World0
  = (Err "slide index out of range",
     {| calls := [PresentationsGet "deck"]; clockReads := 0 |}).
Proof.
  apply (slide_ordinal_too_large_is_refused (serving fourSlides advancing)
           "deck" World0 fourSlides 4 eq_refl).
  unfold len. cbn. lia.
Defined.

(** ** What a slide mutation can touch *)

(** X5.  Whatever the remote service answers and whatever the ordinal,
    Duplicate, Remove and Move either submit nothing (and do not
    succeed), or submit exactly one batch of exactly one request, after
    the fetch, and that request names a slide of the fetched snapshot;
    their outcome is then the answer of the remote service. *)
Theorem slide_mutations_touch_one_fetched_slide env presentationID w slideIndex :
  let untouched (r : outcome unit * World) :=
    succeeded (fst r) = false /\ snd r = fetched presentationID w in
  let touched (context : string) (request : string -> Request)
      (r : outcome unit * World) :=
    exists p slide,
      presentationsGet env (calls w) presentationID = Reply p
      /\ slide ∈ Slides p
      /\ r = submitted env context presentationID
               [request (PageObjectId slide)] (fetched presentationID w) in
  (untouched (slide.Duplicate env presentationID slideIndex w)
   \/ touched "error duplicating slide" DuplicateObject
        (slide.Duplicate env presentationID slideIndex w))
  /\ (untouched (slide.Remove env presentationID slideIndex w)
      \/ touched "error removing slide" DeleteObject
           (slide.Remove env presentationID slideIndex w))
  /\ (forall newPosition,
        untouched (slide.Move env presentationID slideIndex newPosition w)
        \/ touched "error moving slide"
             (fun id => UpdateSlidesPosition [id] newPosition)
             (slide.Move env presentationID slideIndex newPosition w)).
Proof.
  intros untouched touched. subst untouched touched. cbn beta.
  repeat split; intros;
    unfold slide.Duplicate, slide.Remove, slide.Move; run_service;
    (destruct (presentationsGet env (calls w) presentationID) as [p|e] eqn:Hget;
       cbn; [|now left]);
    (destruct (slideIndex >=? len (Slides p)); cbn; [now left|]);
    (destruct (index (Slides p) slideIndex) as [slide| |] eqn:Hslide; cbn;
       try now left);
    right; exists p, slide;
    (split; [reflexivity|]); (split; [now apply index_Ok_elem in Hslide|]);
    now destruct (presentationsBatchUpdate _ _ _ _) as [[]|].
Qed.

(** ** Every run of Reorder *)

Lemma parseIndices_Ok_inv tokens : forall acc parsed,
  slide.parseIndices tokens acc = Ok parsed ->
  exists indices, Forall2 denotes tokens indices /\ parsed = acc ++ indices.
Proof.
  induction tokens as [|token tokens IH]; intros acc parsed; cbn.
  - intros [= <-]. exists []. split; [constructor|now rewrite app_nil_r].
  - destruct (strconv.Atoi (gostrings.TrimSpace token)) as [idx|] eqn:Hparse;
      [|discriminate].
    intros Hrest. destruct (IH _ _ Hrest) as (indices & Hall & ->).
    exists (idx :: indices). split; [now constructor|].
    now rewrite <- app_assoc.
Qed.

Lemma parseIndices_no_panic tokens : forall acc e,
  slide.parseIndices tokens acc <> Panic e.
Proof.
  induction tokens as [|token tokens IH]; intros acc e; cbn; [discriminate|].
  destruct (strconv.Atoi (gostrings.TrimSpace token)); [apply IH|discriminate].
Qed.

Lemma buildRequests_Ok_inv slides indices : forall position requests built,
  slide.buildRequests slides indices position requests = Ok built ->
  Forall (inRange slides) indices.
Proof.
  induction indices as [|idx indices IH]; intros position requests built; cbn;
    [constructor|].
  destruct (idx >=? len slides) eqn:Hlarge; [discriminate|].
  unfold index. destruct (idx <? 0) eqn:Hneg; [discriminate|].
  destruct (slides !! Z.to_nat idx) as [slide|]; [|discriminate].
  intros Hrest. constructor; [|exact (IH _ _ _ Hrest)].
  rewrite Z.geb_leb in Hlarge. apply Z.leb_gt in Hlarge.
  apply Z.ltb_ge in Hneg. split; assumption.
Qed.

Lemma Split_nonempty s sep : gostrings.Split s sep <> [].
Proof.
  induction s as [|c s IH]; cbn; [discriminate|].
  destruct (Ascii.eqb c sep); [discriminate|].
  now destruct (gostrings.Split s sep).
Qed.

(** X6.  Every run of Reorder, whatever the index string and whatever the
    remote service answers, ends in one of three ways: it fails with the
    world unchanged, so without having contacted the remote service (a
    token is no integer); or it does not succeed and has only fetched
    the snapshot; or every token denotes an ordinal that names a slide of
    the fetched snapshot, and it has submitted, after the fetch, one
    batch that is not empty and holds one reposition per token in the
    order of the tokens, its outcome being the answer of the remote
    service to that batch. *)
Theorem slide_Reorder_ends_in_one_of_three_ways env presentationID indicesStr w :
  let r := slide.Reorder env presentationID indicesStr w in
  (is_Err (fst r) = true /\ snd r = w)
  \/ (succeeded (fst r) = false /\ snd r = fetched presentationID w)
  \/ exists p indices,
       presentationsGet env (calls w) presentationID = Reply p
       /\ Forall2 denotes (gostrings.Split indicesStr ",") indices
       /\ Forall (inRange (Slides p)) indices
       /\ repositions (Slides p) indices <> []
       /\ length (repositions (Slides p) indices)
          = length (gostrings.Split indicesStr ",")
       /\ r = submitted env "error reordering slides" presentationID
                (repositions (Slides p) indices) (fetched presentationID w).
Proof.
  cbn zeta. unfold slide.Reorder. run_service.
  destruct (slide.parseIndices (gostrings.Split indicesStr ",") []) as [parsed|e|e]
    eqn:Hparse; cbn.
  2: { left. now split. }
  2: { now apply parseIndices_no_panic in Hparse. }
  destruct (parseIndices_Ok_inv _ _ _ Hparse) as (indices & Hall & ->).
  cbn [app].
  destruct (presentationsGet env (calls w) presentationID) as [p|e] eqn:Hget; cbn.
  2: { right. left. now split. }
  destruct (slide.buildRequests (Slides p) indices 0 []) as [built|e|e] eqn:Hbuild;
    cbn.
  2, 3: right; left; now split.
  right. right. exists p, indices.
  pose proof (buildRequests_Ok_inv _ _ _ _ _ Hbuild) as Hrange.
  rewrite (buildRequests_in_range _ _ Hrange) in Hbuild. injection Hbuild as <-.
  assert (Hlen : length (repositions (Slides p) indices)
                 = length (gostrings.Split indicesStr ",")).
  { unfold repositions. rewrite length_imap. symmetry.
    exact (Forall2_length _ _ _ Hall). }
  repeat split; try assumption.
  - intros Hnil. rewrite Hnil in Hlen. cbn in Hlen.
    symmetry in Hlen. apply length_zero_iff_nil in Hlen.
    now apply Split_nonempty in Hlen.
  - now destruct (presentationsBatchUpdate _ _ _ _) as [[]|].
Qed.

(** ** Operations that only read *)

(** X7.  text.ExtractAll, text.Search, notes.Get, notes.ExtractAll and
    presentation.Get issue exactly one call, the fetch of the
    presentation, and read no clock, whatever the remote service answers
    and whether they succeed, fail or panic: they never submit a
    batch. *)
Theorem reading_operations_only_fetch env lower presentationID w :
  snd (text.ExtractAll env presentationID w) = fetched presentationID w
  /\ (forall query,
        snd (text.Search env lower presentationID query w)
        = fetched presentationID w)
  /\ (forall slideIndex,
        snd (notes.Get env presentationID slideIndex w) = fetched presentationID w)
  /\ snd (notes.ExtractAll env presentationID w) = fetched presentationID w
  /\ snd (presentation.Get env presentationID w) = fetched presentationID w.
Proof.
  repeat split; intros;
    unfold text.ExtractAll, text.Search, notes.Get, notes.ExtractAll,
      presentation.Get; run_service;
    destruct (presentationsGet env (calls w) presentationID) as [p|e]; cbn;
    try reflexivity.
  - destruct (slideIndex >=? len (Slides p)); cbn; [reflexivity|].
    destruct (index (Slides p) slideIndex) as [slide| |]; cbn; try reflexivity.
    destruct (SlideProperties_ slide) as [properties|]; cbn; [|reflexivity].
    now destruct (NotesPage properties).
Qed.

(** ** A fetch that fails *)

(** X8.  When the fetch of the presentation fails, every operation that
    starts with it returns the error of the remote service wrapped with
    "error getting presentation", and has issued nothing but that
    fetch. *)
Theorem failed_fetch_is_reported_and_nothing_follows env lower presentationID w e :
  presentationsGet env (calls w) presentationID = Fault e ->
  let failed {A} : outcome A * World :=
    (Err ("error getting presentation: " +:+ e), fetched presentationID w) in
  (forall slideIndex, slide.Duplicate env presentationID slideIndex w = failed)
  /\ (forall slideIndex, slide.Remove env presentationID slideIndex w = failed)
  /\ (forall slideIndex newPosition,
        slide.Move env presentationID slideIndex newPosition w = failed)
  /\ (forall slideIndex rows cols,
        table.Create env presentationID slideIndex rows cols w = failed)
  /\ (forall slideIndex shapeType,
        shape.Add env presentationID slideIndex shapeType w = failed)
  /\ (forall slideIndex, notes.Get env presentationID slideIndex w = failed)
  /\ (forall slideIndex notesContent,
        notes.Add env presentationID slideIndex notesContent w = failed)
  /\ notes.ExtractAll env presentationID w = failed
  /\ text.ExtractAll env presentationID w = failed
  /\ (forall query, text.Search env lower presentationID query w = failed)
  /\ presentation.Get env presentationID w = failed.
Proof.
  intros Hget failed. subst failed.
  repeat split; intros;
    unfold slide.Duplicate, slide.Remove, slide.Move, table.Create, shape.Add,
      notes.Get, notes.Add, notes.ExtractAll, text.ExtractAll, text.Search,
      presentation.Get; run_service; now rewrite Hget.
Qed.

Lemma failed_fetch_witness :
  slide.Duplicate refusingMove "deck" 0 World0
  = (Err "error getting presentation: not found",
     {| calls := [PresentationsGet "deck"]; clockReads := 0 |}).
Proof.
  apply (failed_fetch_is_reported_and_nothing_follows refusingMove asciiOnly
           "deck" World0 "not found" eq_refl).
Defined.

(** ** Every run of presentation.Create *)

(** X9.  presentation.Create always asks the remote service to create the
    presentation first.  It contacts Drive only when that succeeded and a
    folder was given, never otherwise; and it returns a presentation only
    when it is the one the remote service created and, with a folder, the
    move was accepted. *)
Theorem presentation_Create_every_run env title folderID w :
  let r := presentation.Create env title folderID w in
  let w1 := issue (PresentationsCreate title) w in
  match presentationsCreate env (calls w) title with
  | Fault e =>
      r = (Err ("error creating presentation: " +:+ e), w1)
  | Reply result =>
      if String.eqb folderID "" then r = (Ok result, w1)
      else
        r = (match filesUpdateAddParents env (calls w1) (PresentationId result)
                     folderID with
             | Reply _ => Ok result
             | Fault e => Err ("error moving to folder: " +:+ e)
             end,
             issue (FilesUpdateAddParents (PresentationId result) folderID) w1)
  end.
Proof.
  cbn zeta. unfold presentation.Create. run_service.
  destruct (presentationsCreate env (calls w) title) as [result|e]; cbn;
    [|reflexivity].
  destruct (String.eqb folderID ""); cbn; [reflexivity|].
  now destruct (filesUpdateAddParents _ _ _ _) as [[]|].
Qed.

(** ** Notes read one slide at a time and all at once *)

(** X10.  notes.Get and notes.ExtractAll agree: for every slide of a
    fetched snapshot, Get succeeds (a slide without a notes page reads as
    the empty text, which is no error), and ExtractAll holds for that
    slide the trimmed text that Get returns, or nothing when Get returns
    the empty text. *)
Theorem notes_ExtractAll_agrees_with_Get env presentationID w p idx slide :
  presentationsGet env (calls w) presentationID = Reply p ->
  slidesHaveProperties p ->
  Slides p !! idx = Some slide ->
  exists (notesText : string) (allNotes : gmap string string),
    notes.Get env presentationID (Z.of_nat idx) w
    = (Ok notesText, fetched presentationID w)
    /\ notes.ExtractAll env presentationID w = (Ok allNotes, fetched presentationID w)
    /\ allNotes !! slideKey idx
       = if String.eqb notesText "" then None
         else Some (gostrings.TrimSpace notesText).
Proof.
  intros Hget Hprops Hslide.
  assert (Hhas : is_Some (SlideProperties_ slide)).
  { unfold slidesHaveProperties in Hprops. rewrite Forall_forall in Hprops.
    apply Hprops. now apply list_elem_of_lookup_2 in Hslide. }
  destruct Hhas as [properties Hproperties].
  destruct (notes_extractSlides_entries (Slides p) 0 ∅ Hprops)
    as (allNotes & Hrun & Hhit & _).
  { intros k _. apply lookup_empty. }
  eexists _, allNotes. split; [|split].
  - apply (notes_Get_in_range env presentationID w p Hget (Z.of_nat idx) slide
             properties); [lia| |exact Hproperties].
    now rewrite Nat2Z.id.
  - unfold notes.ExtractAll. run_service. rewrite Hget. cbn.
    change 0 with (Z.of_nat 0). now rewrite Hrun.
  - specialize (Hhit idx slide Hslide). cbn in Hhit. rewrite Hhit.
    unfold notesEntry, notesPageOf.
    rewrite Hproperties.
    destruct (NotesPage properties) as [notesPage|]; [|reflexivity].
    now rewrite notes_writeElements_notesText.
Qed.

Lemma notes_ExtractAll_agrees_with_Get_witness :
  exists (notesText : string) (allNotes : gmap string string),
    notes.Get (serving rememberThis advancing) "deck" (Z.of_nat 0) World0
    = (Ok notesText, fetched "deck" World0)
    /\ notes.ExtractAll (serving rememberThis advancing) "deck" World0
       = (Ok allNotes, fetched "deck" World0)
    /\ allNotes !! slideKey 0
       = if String.eqb notesText "" then None
         else Some (gostrings.TrimSpace notesText).
Proof.
  apply (notes_ExtractAll_agrees_with_Get (serving rememberThis advancing) "deck"
           World0 rememberThis 0
           (slideOf "a" [] (Some (notesOf "na" [textBox "n1" ["  remember this  "]])))
           eq_refl).
  - repeat constructor; eexists; reflexivity.
  - reflexivity.
Defined.

(** ** Search and extraction *)

Lemma extractText_contains_run slides slide element body content :
  slide ∈ slides -> element ∈ PageElements slide ->
  textBody element = Some body -> content ∈ runsOf body ->
  gostrings.Contains (extractText slides) content = true.
Proof.
  intros Hslide Helement Hbody Hcontent. unfold extractText.
  apply Contains_joined with (piece := slideText slide +:+ delimiter).
  { apply list_elem_of_fmap. now exists slide. }
  apply Contains_app_post. unfold slideText.
  apply Contains_joined with (piece := flattened body +:+ LF).
  { apply list_elem_of_fmap. exists (flattened body). split; [reflexivity|].
    unfold elementTexts. apply list_elem_of_fmap. exists body. split; [reflexivity|].
    apply list_elem_of_omap. now exists element. }
  apply Contains_app_post. unfold flattened.
  apply Contains_joined with (piece := content); [exact Hcontent|].
  apply Contains_refl.
Qed.

Lemma elementMatches_runs lower slideIdx query element result :
  result ∈ elementMatches lower slideIdx query element ->
  exists body, textBody element = Some body /\ text.Text result ∈ runsOf body.
Proof.
  unfold elementMatches. destruct (textBody element) as [body|]; [|now inversion 1].
  intros Hin. exists body. split; [reflexivity|].
  apply list_elem_of_fmap in Hin as (content & -> & Hcontent). cbn.
  apply list_elem_of_In, filter_In in Hcontent as [Hcontent _].
  now apply list_elem_of_In.
Qed.

Section SearchMore.
Variable lower : string -> string.

(** X11.  Every result of a search is found again in the extracted text:
    the text of each result of text.Search occurs, byte for byte, in what
    text.ExtractAll returns for the same snapshot. *)
Theorem text_Search_results_occur_in_ExtractAll env presentationID query w p :
  presentationsGet env (calls w) presentationID = Reply p ->
  exists results allText,
    text.Search env lower presentationID query w
    = (Ok results, fetched presentationID w)
    /\ text.ExtractAll env presentationID w = (Ok allText, fetched presentationID w)
    /\ Forall (fun result => gostrings.Contains allText (text.Text result) = true)
              results.
Proof.
  intros Hget. exists (searchText lower (Slides p) query), (extractText (Slides p)).
  split; [|split].
  - unfold text.Search. run_service. rewrite Hget. cbn.
    change 0 with (Z.of_nat 0). now rewrite text_searchSlides_matches.
  - unfold text.ExtractAll. run_service. rewrite Hget. cbn.
    now rewrite text_writeSlides_joined.
  - apply Forall_forall. intros result Hresult. unfold searchText in Hresult.
    apply list_elem_of_In, in_concat in Hresult as (results & Hresults & Hresult).
    apply list_elem_of_In in Hresults, Hresult.
    apply elem_of_lookup_imap in Hresults as (k & slide & -> & Hslide).
    apply list_elem_of_In, in_flat_map in Hresult as (element & Helement & Hresult).
    apply list_elem_of_In in Helement, Hresult.
    apply elementMatches_runs in Hresult as (body & Hbody & Hcontent).
    apply extractText_contains_run with (slide := slide) (element := element)
                                        (body := body); try assumption.
    now apply list_elem_of_lookup_2 in Hslide.
Qed.

(** X12.  The empty query matches every text run that Search reads:
    text.Search with the query "" returns, in document order, one result
    for each text run of the text body of each shape that is itself a
    page element of a slide ([everyRun]), and nothing else.  Text in
    table cells or inside groups is outside what Search reads and is not
    reported. *)
Theorem text_Search_empty_query_reports_every_run env presentationID w p :
  presentationsGet env (calls w) presentationID = Reply p ->
  text.Search env lower presentationID "" w
  = (Ok (everyRun (Slides p)), fetched presentationID w).
Proof.
  intros Hget. unfold text.Search. run_service. rewrite Hget. cbn.
  change 0 with (Z.of_nat 0). rewrite text_searchSlides_matches. cbn [app].
  do 3 f_equal. unfold everyRun. f_equal. apply imap_ext. intros k slide _. cbn.
  apply flat_map_ext. intros element. unfold elementMatches, elementRuns.
  destruct (textBody element) as [body|]; [|reflexivity]. f_equal.
  induction (runsOf body) as [|content rest IH]; [reflexivity|]. cbn.
  unfold matchesQuery at 1. cbn. rewrite Contains_nil. now rewrite IH.
Qed.

(** X13.  A search depends on the query only through its lower-case
    form: two queries that text.Search lowers to the same string, such as
    "WoR" and "wor", give the same results and the same outcome. *)
Theorem text_Search_ignores_case_of_query env presentationID query1 query2 w :
  gostrings.ToLower lower query1 = gostrings.ToLower lower query2 ->
  text.Search env lower presentationID query1 w
  = text.Search env lower presentationID query2 w.
Proof.
  intros Hsame. unfold text.Search. run_service.
  destruct (presentationsGet env (calls w) presentationID) as [p|e]; cbn;
    [|reflexivity].
  change 0 with (Z.of_nat 0). rewrite !text_searchSlides_matches.
  unfold elementMatches, matchesQuery. now rewrite Hsame.
Qed.

End SearchMore.

Lemma text_Search_results_occur_witness :
  exists results allText,
    text.Search (serving helloWorldRuns advancing) asciiOnly "deck" "o" World0
    = (Ok results, fetched "deck" World0)
    /\ text.ExtractAll (serving helloWorldRuns advancing) "deck" World0
       = (Ok allText, fetched "deck" World0)
    /\ Forall (fun result => gostrings.Contains allText (text.Text result) = true)
              results.
Proof.
  apply (text_Search_results_occur_in_ExtractAll asciiOnly
           (serving helloWorldRuns advancing) "deck" "o" World0 helloWorldRuns
           eq_refl).
Defined.

Lemma text_Search_empty_query_witness :
  text.Search (serving helloWorldRuns advancing) asciiOnly "deck" "" World0
  = (Ok [{| text.SlideIndex := 0; text.ObjectID := "t1"; text.Text := "Hello " |};
         {| text.SlideIndex := 0; text.ObjectID := "t1"; text.Text := "World" |}],
     fetched "deck" World0).
Proof.
  apply (text_Search_empty_query_reports_every_run asciiOnly
           (serving helloWorldRuns advancing) "deck" World0 helloWorldRuns eq_refl).
Defined.

Lemma text_Search_ignores_case_witness :
  text.Search (serving worldOnly advancing) asciiOnly "deck" "WoR" World0
  = text.Search (serving worldOnly advancing) asciiOnly "deck" "wor" World0.
Proof.
  apply (text_Search_ignores_case_of_query asciiOnly
           (serving worldOnly advancing) "deck" "WoR" "wor" World0 eq_refl).
Defined.

(** ** Identifiers of different kinds *)

Lemma underscore_free_prefix_inj prefix1 : forall prefix2 rest1 rest2,
  underscoreFree prefix1 = true -> underscoreFree prefix2 = true ->
  prefix1 +:+ "_" +:+ rest1 = prefix2 +:+ "_" +:+ rest2 ->
  prefix1 = prefix2.
Proof.
  unfold underscoreFree.
  induction prefix1 as [|c prefix1 IH]; intros [|d prefix2] rest1 rest2 H1 H2 Heq.
  - reflexivity.
  - rewrite string_app_cons in Heq. cbn in Heq, H2. injection Heq as <- _.
    now rewrite Ascii.eqb_refl in H2.
  - rewrite string_app_cons in Heq. cbn in Heq, H1. injection Heq as -> _.
    now rewrite Ascii.eqb_refl in H1.
  - rewrite !string_app_cons in Heq. injection Heq as -> Heq.
    cbn in H1, H2. apply andb_true_iff in H1 as [_ H1].
    apply andb_true_iff in H2 as [_ H2].
    f_equal. exact (IH _ _ _ H1 H2 Heq).
Qed.

(** X14.  Identifiers generated for different kinds of element never
    collide, whatever the clock reads: two prefixes without an underscore
    that differ, such as "slide", "table" and "shape", give different
    identifiers. *)
Theorem generateObjectID_kinds_never_collide env prefix1 prefix2 w1 w2 :
  underscoreFree prefix1 = true -> underscoreFree prefix2 = true ->
  prefix1 <> prefix2 ->
  fst (shape.generateObjectID env prefix1 w1)
  <> fst (shape.generateObjectID env prefix2 w2).
Proof.
  intros H1 H2 Hdiff. rewrite !generateObjectID_run. cbn [fst].
  intros [= Heq]. apply Hdiff.
  exact (underscore_free_prefix_inj _ _ _ _ H1 H2 Heq).
Qed.

Lemma generateObjectID_kinds_witness :
  fst (shape.generateObjectID (serving fourSlides frozen) "slide" World0)
  <> fst (shape.generateObjectID (serving fourSlides frozen) "shape" World0).
Proof.
  apply (generateObjectID_kinds_never_collide (serving fourSlides frozen)
           "slide" "shape" World0 World0 eq_refl eq_refl).
  discriminate.
Defined.

(** ** The leading '#' of a colour *)

Lemma substring_all s : String.substring 0 (String.length s) s = s.
Proof. induction s as [|c s IH]; [reflexivity|]. cbn. now rewrite IH. Qed.

Lemma TrimPrefix_hash_added color :
  gostrings.TrimPrefix ("#" +:+ color) "#" = color.
Proof.
  unfold gostrings.TrimPrefix. rewrite string_app_cons, string_app_nil_l.
  cbn [gostrings.HasPrefix]. rewrite Ascii.eqb_refl, HasPrefix_nil. cbn.
  rewrite Nat.sub_0_r. apply substring_all.
Qed.

(** X15.  The leading '#' of a colour is optional and only one is
    removed: parseColor gives the same result for a string that does not
    start with '#' and for that string with one '#' in front of it. *)
Theorem table_parseColor_hash_is_optional scan color :
  gostrings.HasPrefix color "#" = false ->
  table.parseColor scan ("#" +:+ color) = table.parseColor scan color.
Proof.
  intros Hplain. unfold table.parseColor. rewrite TrimPrefix_hash_added.
  unfold gostrings.TrimPrefix at 1 2. now rewrite Hplain.
Qed.

Lemma table_parseColor_hash_witness :
  table.parseColor table.scanSixHexDigits ("#" +:+ "FF8000")
  = table.parseColor table.scanSixHexDigits "FF8000".
Proof.
  apply (table_parseColor_hash_is_optional table.scanSixHexDigits "FF8000" eq_refl).
Defined.

(** * Further properties: export *)

Section ExportService.
Variable host : export.Host.

(** X16.  An export whose download fails, or whose output file cannot be
    created, leaves every local file as it was: ToPDF and ToPPTX ask
    Drive first and open the output file only when the download
    succeeded. *)
Theorem export_failure_before_writing_keeps_files presentationID outputFile d :
  let pdf := "application/pdf" in
  let pptx :=
    "application/vnd.openxmlformats-officedocument.presentationml.presentation" in
  let blocked mime :=
    match export.filesExportDownload host (export.exports d) presentationID mime with
    | Fault _ => true
    | Reply _ =>
        match export.osCreate host (export.files d) outputFile with
        | Some _ => true
        | None => false
        end
    end in
  (blocked pdf = true ->
     succeeded (fst (export.ToPDF host presentationID outputFile d)) = false
     /\ export.files (snd (export.ToPDF host presentationID outputFile d))
        = export.files d)
  /\ (blocked pptx = true ->
     succeeded (fst (export.ToPPTX host presentationID outputFile d)) = false
     /\ export.files (snd (export.ToPPTX host presentationID outputFile d))
        = export.files d).
Proof.
  cbn zeta. unfold export.ToPDF, export.ToPPTX. cbn.
  split.
  - destruct (export.filesExportDownload host _ _ "application/pdf") as [body|e];
      cbn; [|now intros _].
    destruct (export.osCreate host (export.files d) outputFile); [now intros _|].
    discriminate.
  - destruct (export.filesExportDownload host _ _ _) as [body|e];
      cbn; [|now intros _].
    destruct (export.osCreate host (export.files d) outputFile); [now intros _|].
    discriminate.
Qed.

(** X17.  A successful ToPDF writes the bytes Drive returned, and only
    them, to the file its output path denotes: afterwards that file,
    read through any of its names, holds exactly the body of the
    response, whatever it held before; every other file is as it was;
    and Drive was asked for one PDF export of the given presentation. *)
Theorem export_success_writes_the_body presentationID outputFile d body :
  export.filesExportDownload host (export.exports d) presentationID "application/pdf"
  = Reply body ->
  export.osCreate host (export.files d) outputFile = None ->
  export.readFrom host outputFile body = None ->
  let r := export.ToPDF host presentationID outputFile d in
  let read := export.content (export.denotes host) in
  fst r = Ok tt
  /\ export.files (snd r) = <[ export.denotes host outputFile := body ]> (export.files d)
  /\ (forall name,
        export.denotes host name = export.denotes host outputFile ->
        read (snd r) name = Some body)
  /\ (forall name,
        export.denotes host name <> export.denotes host outputFile ->
        read (snd r) name = read d name)
  /\ export.exports (snd r) = export.exports d ++ [(presentationID, "application/pdf")].
Proof.
  intros Hdownload Hcreate Hwrite. cbn zeta. unfold export.ToPDF, export.content.
  cbn. rewrite Hdownload, Hcreate, Hwrite. cbn.
  rewrite insert_insert_eq.
  split; [reflexivity|]. split; [reflexivity|]. split; [|split; [|reflexivity]].
  - intros name ->. apply lookup_insert_eq.
  - intros name Hother. now rewrite lookup_insert_ne by congruence.
Qed.

(** X18.  Whatever Drive and the operating system do, an export changes
    no file but the one its output path denotes: a name that denotes
    another file reads the same before and after; and it asks Drive for
    exactly one export, of the presentation it was given, as PDF for
    ToPDF and as a presentation package for ToPPTX. *)
Theorem export_touches_only_the_output_file presentationID outputFile d name :
  export.denotes host name <> export.denotes host outputFile ->
  let pdf := export.ToPDF host presentationID outputFile d in
  let pptx := export.ToPPTX host presentationID outputFile d in
  let read := export.content (export.denotes host) in
  read (snd pdf) name = read d name
  /\ export.exports (snd pdf) = export.exports d ++ [(presentationID, "application/pdf")]
  /\ read (snd pptx) name = read d name
  /\ export.exports (snd pptx)
     = export.exports d
       ++ [(presentationID,
            "application/vnd.openxmlformats-officedocument.presentationml.presentation")].
Proof.
  intros Hother. cbn zeta. unfold export.ToPDF, export.ToPPTX, export.content. cbn.
  repeat split;
    (destruct (export.filesExportDownload host _ _ _) as [body|e]; cbn;
       [|reflexivity]);
    (destruct (export.osCreate host (export.files d) outputFile); [reflexivity|]);
    (destruct (export.readFrom host outputFile body) as [[partial e]|]; cbn;
       try reflexivity);
    now rewrite !lookup_insert_ne by congruence.
Qed.

End ExportService.

(** An export to [./out.pdf] on a disk that holds [out.pdf] and
    [notes.txt]: the earlier export is replaced, read through either
    name, and the other file is kept. *)
Lemma export_success_witness :
  let r := export.ToPDF quietDrive "deck" "./out.pdf" usedDisk in
  let read := export.content (export.denotes quietDrive) in
  fst r = Ok tt
  /\ read usedDisk "out.pdf" = Some "earlier export"
  /\ read (snd r) "out.pdf" = Some "%PDF-1.7"
  /\ read (snd r) "./out.pdf" = Some "%PDF-1.7"
  /\ read (snd r) "notes.txt" = Some "keep".
Proof.
  destruct (export_success_writes_the_body quietDrive "deck" "./out.pdf" usedDisk
              "%PDF-1.7" eq_refl eq_refl eq_refl) as (Hok & _ & Hsame & Hother & _).
  split; [exact Hok|]. split; [reflexivity|].
  split; [apply Hsame; reflexivity|]. split; [apply Hsame; reflexivity|].
  rewrite Hother by discriminate. reflexivity.
Defined.

Lemma export_touches_only_witness :
  let pdf := export.ToPDF quietDrive "deck" "./out.pdf" usedDisk in
  let pptx := export.ToPPTX quietDrive "deck" "./out.pdf" usedDisk in
  let read := export.content (export.denotes quietDrive) in
  read (snd pdf) "notes.txt" = Some "keep"
  /\ export.exports (snd pdf) = [("deck", "application/pdf")]
  /\ read (snd pptx) "notes.txt" = Some "keep"
  /\ export.exports (snd pptx)
     = [("deck",
         "application/vnd.openxmlformats-officedocument.presentationml.presentation")].
Proof.
  apply (export_touches_only_the_output_file quietDrive "deck" "./out.pdf" usedDisk
           "notes.txt").
  discriminate.
Defined.

(** * Further properties: the commands *)

Ltac run_command :=
  unfold cli.runCreatePresentation, cli.runAddSlide, cli.runDuplicateSlide,
    cli.runRemoveSlide, cli.runMoveSlide, cli.runReorderSlides,
    cli.runCreateTable, cli.runUpdateCell, cli.runStyleCell, cli.runReplaceText,
    cli.runExtractAllText, cli.runSearchText, cli.runGetNotes, cli.runAddNotes,
    cli.runExtractAllNotes, cli.runAddShape, cli.runCopyTextStyle,
    cli.runCopyTheme, cli.runTranslateSlides, cli.runExportPdf, cli.runExportPptx,
    cli.parseInt, cli.printJSON,
    cli.andThen, cli.arg, cli.now_, cli.pure,
    cli.authorize, cli.service, cli.exporting, cli.Fprintf_Stderr, cli.Println.

Lemma index_0 {A} (a : A) l : index (a :: l) 0 = Ok a.
Proof. reflexivity. Qed.

Lemma index_1 {A} (a b : A) l : index (a :: b :: l) 1 = Ok b.
Proof. reflexivity. Qed.

Lemma index_2 {A} (a b d : A) l : index (a :: b :: d :: l) 2 = Ok d.
Proof. reflexivity. Qed.

Lemma index_3 {A} (a b d e : A) l : index (a :: b :: d :: e :: l) 3 = Ok e.
Proof. reflexivity. Qed.

(** Reads the arguments a command is given. *)
Ltac read_args :=
  repeat (first [rewrite index_0 | rewrite index_1 | rewrite index_2
                | rewrite index_3]; cbv beta iota).

(** Splits on the next step of a command that can end it. *)
Ltac next_step :=
  match goal with
  | |- context [index ?args ?i] =>
      let a := fresh "a" in destruct (index args i) as [a| |]
  | |- context [strconv.Atoi ?s] =>
      let n := fresh "n" in destruct (strconv.Atoi s) as [n|]
  | |- context [cli.granted ?a] => destruct (cli.granted a) as [[]|]
  | |- context [String.eqb ?s ""] => destruct (String.eqb s "")
  | |- context [cli.marshalResults ?h ?v] => destruct (cli.marshalResults h v)
  | |- context [cli.marshalNotes ?h ?v] => destruct (cli.marshalNotes h v)
  | |- context [let '(_, _) := ?m (cli.world ?c) in _] =>
      let o := fresh "o" in destruct (m (cli.world c)) as [[o|?|?] ?]
  | |- context [export.ToPDF ?h ?id ?file ?d] =>
      let o := fresh "o" in destruct (export.ToPDF h id file d) as [[o|?|?] ?]
  | |- context [export.ToPPTX ?h ?id ?file ?d] =>
      let o := fresh "o" in destruct (export.ToPPTX h id file d) as [[o|?|?] ?]
  end; cbn [fst snd cli.stdout cli.stderr cli.world cli.disk succeeded].

Lemma authorizationOutputs_none host : ("", "") ∈ authorizationOutputs host.
Proof. apply elem_of_cons. now left. Qed.

Lemma authorizationOutputs_slides host :
  (cli.printed (cli.GetSlidesService host), cli.logged (cli.GetSlidesService host))
  ∈ authorizationOutputs host.
Proof. unfold authorizationOutputs. set_solver. Qed.

Lemma authorizationOutputs_drive host :
  (cli.printed (cli.GetDriveService host), cli.logged (cli.GetDriveService host))
  ∈ authorizationOutputs host.
Proof. unfold authorizationOutputs. set_solver. Qed.

Lemma authorizationOutputs_both host :
  (cli.printed (cli.GetSlidesService host) +:+ cli.printed (cli.GetDriveService host),
   cli.logged (cli.GetSlidesService host) +:+ cli.logged (cli.GetDriveService host))
  ∈ authorizationOutputs host.
Proof. unfold authorizationOutputs. set_solver. Qed.

(** The command gave up having written at most what its authorisations
    wrote. *)
Ltac gave_up host :=
  first
    [ exists "", ""; split; [apply authorizationOutputs_none|];
      split; now rewrite string_app_nil_r
    | eexists _, _; split; [apply authorizationOutputs_slides|];
      split; reflexivity
    | eexists _, _; split; [apply authorizationOutputs_drive|];
      split; reflexivity
    | eexists _, _; split; [apply authorizationOutputs_both|];
      split; now rewrite string_app_assoc ].

(** X19.  A command that does not succeed prints neither a confirmation
    nor a result: whatever its arguments, the flags, the remote service
    and the host, when any of the commands returns an error or panics,
    standard output and standard error hold, beyond what they held
    before, only what the authorisation itself printed. *)
Theorem commands_print_nothing_unless_they_succeed host env flags run args c :
  run ∈ commands host env flags ->
  succeeded (fst (run args c)) = false ->
  exists out err,
    (out, err) ∈ authorizationOutputs host
    /\ cli.stdout (snd (run args c)) = cli.stdout c +:+ out
    /\ cli.stderr (snd (run args c)) = cli.stderr c +:+ err.
Proof.
  intros Hrun. unfold commands in Hrun.
  repeat (apply elem_of_cons in Hrun as [->|Hrun]);
    try (now apply elem_of_nil in Hrun);
    run_command; repeat next_step; intros Hfailed;
    try discriminate Hfailed; gave_up host.
Qed.

Lemma commands_print_nothing_witness :
  exists out err,
    (out, err) ∈ authorizationOutputs plainHost
    /\ cli.stdout (snd (cli.runReorderSlides plainHost (serving fourSlides advancing)
                          ["deck"; "0,9"] console0))
       = cli.stdout console0 +:+ out
    /\ cli.stderr (snd (cli.runReorderSlides plainHost (serving fourSlides advancing)
                          ["deck"; "0,9"] console0))
       = cli.stderr console0 +:+ err.
Proof.
  apply (commands_print_nothing_unless_they_succeed plainHost
           (serving fourSlides advancing) defaultFlags
           (cli.runReorderSlides plainHost (serving fourSlides advancing))
           ["deck"; "0,9"] console0).
  - unfold commands.
    repeat (apply elem_of_cons; first [left; reflexivity | right]).
  - reflexivity.
Defined.

(** X20.  The commands that report no result never write to standard
    output, whether they succeed or not: beyond what it held before,
    standard output holds only what the authorisation printed, so the
    confirmation of a success goes to standard error alone. *)
Theorem confirming_commands_leave_stdout_alone host env flags run args c :
  run ∈ confirmingCommands host env flags ->
  exists out err,
    (out, err) ∈ authorizationOutputs host
    /\ cli.stdout (snd (run args c)) = cli.stdout c +:+ out.
Proof.
  intros Hrun. unfold confirmingCommands in Hrun.
  repeat (apply elem_of_cons in Hrun as [->|Hrun]);
    try (now apply elem_of_nil in Hrun);
    run_command; repeat next_step;
    first
      [ exists "", ""; split; [apply authorizationOutputs_none|];
        now rewrite string_app_nil_r
      | eexists _, _; split; [apply authorizationOutputs_slides|]; reflexivity
      | eexists _, _; split; [apply authorizationOutputs_drive|]; reflexivity ].
Qed.

Lemma confirming_commands_witness :
  exists out err,
    (out, err) ∈ authorizationOutputs plainHost
    /\ cli.stdout (snd (cli.runRemoveSlide plainHost (serving fourSlides advancing)
                          ["deck"; "1"] console0))
       = cli.stdout console0 +:+ out.
Proof.
  apply (confirming_commands_leave_stdout_alone plainHost
           (serving fourSlides advancing) defaultFlags
           (cli.runRemoveSlide plainHost (serving fourSlides advancing))
           ["deck"; "1"] console0).
  unfold confirmingCommands.
  repeat (apply elem_of_cons; first [left; reflexivity | right]).
Defined.

(** X21.  A slide index that is no integer ends the command at once: the
    seven commands that take one return "invalid slide index" with the
    error of strconv, and the console is as before; no authorisation was
    attempted, nothing was asked of the remote service and nothing was
    printed. *)
Theorem invalid_slide_index_ends_the_command host env presentationID a1 rest c :
  strconv.Atoi a1 = None ->
  let args := presentationID :: a1 :: rest in
  let refused : outcome unit * cli.Console :=
    (Err ("invalid slide index: " +:+ cli.numError host "Atoi" a1), c) in
  cli.runDuplicateSlide host env args c = refused
  /\ cli.runRemoveSlide host env args c = refused
  /\ cli.runMoveSlide host env args c = refused
  /\ cli.runCreateTable host env args c = refused
  /\ cli.runGetNotes host env args c = refused
  /\ cli.runAddNotes host env args c = refused
  /\ cli.runAddShape host env args c = refused.
Proof.
  intros Hbad args refused. subst args refused.
  repeat split; run_command; read_args; now rewrite Hbad.
Qed.

Lemma invalid_slide_index_witness :
  cli.runDuplicateSlide plainHost (serving fourSlides advancing)
    ["deck"; "two"] console0
  = (Err "invalid slide index: strconv.Atoi: parsing two", console0).
Proof.
  apply (invalid_slide_index_ends_the_command plainHost
           (serving fourSlides advancing) "deck" "two" [] console0 eq_refl).
Defined.

(** X22.  style-cell asks for the colour before it authorises: with a row
    and a column that are integers and the flag --bg-color empty or not
    given, the command returns "background color is required
    (--bg-color)" and the console is as before. *)
Theorem style_cell_requires_a_color host env flags presentationID tableID a2 a3
    rest row col c :
  strconv.Atoi a2 = Some row -> strconv.Atoi a3 = Some col ->
  cli.styleCellBgColor flags = "" ->
  cli.runStyleCell host env flags (presentationID :: tableID :: a2 :: a3 :: rest) c
  = (Err "background color is required (--bg-color)", c).
Proof.
  intros Hrow Hcol Hcolor. run_command. read_args. rewrite Hrow. read_args.
  rewrite Hcol. cbv beta iota. now rewrite Hcolor.
Qed.

Lemma style_cell_requires_a_color_witness :
  cli.runStyleCell plainHost (serving fourSlides advancing) defaultFlags
    ["deck"; "table_1"; "0"; "1"] console0
  = (Err "background color is required (--bg-color)", console0).
Proof.
  apply (style_cell_requires_a_color plainHost (serving fourSlides advancing)
           defaultFlags "deck" "table_1" "0" "1" [] 0 1 console0
           eq_refl eq_refl eq_refl).
Defined.

(** X23.  copy-text-style, copy-theme and translate-slides report a
    success they did not achieve: once the service is granted, each
    returns success and writes its confirmation to standard error, and
    the remote world is as before, no call having been issued. *)
Theorem placeholder_commands_confirm_without_acting host a b d rest c :
  cli.granted (cli.GetSlidesService host) = Reply tt ->
  let confirmed (line : string) (r : outcome unit * cli.Console) :=
    fst r = Ok tt
    /\ cli.world (snd r) = cli.world c
    /\ cli.stderr (snd r)
       = (cli.stderr c +:+ cli.logged (cli.GetSlidesService host)) +:+ line +:+ LF in
  confirmed "✅ Text style copied" (cli.runCopyTextStyle host (a :: b :: d :: rest) c)
  /\ confirmed "✅ Theme copied" (cli.runCopyTheme host (a :: b :: rest) c)
  /\ confirmed "✅ Slides translated" (cli.runTranslateSlides host (a :: b :: rest) c).
Proof.
  intros Hgranted confirmed. subst confirmed. cbn beta.
  repeat split; run_command; read_args; now rewrite Hgranted.
Qed.

Lemma placeholder_commands_witness :
  fst (cli.runTranslateSlides plainHost ["deck"; "fr"] console0) = Ok tt
  /\ cli.world (snd (cli.runTranslateSlides plainHost ["deck"; "fr"] console0))
     = cli.world console0
  /\ cli.stderr (snd (cli.runTranslateSlides plainHost ["deck"; "fr"] console0))
     = (cli.stderr console0 +:+ cli.logged (cli.GetSlidesService plainHost))
       +:+ "✅ Slides translated" +:+ LF.
Proof.
  apply (placeholder_commands_confirm_without_acting plainHost "deck" "fr" "" []
           console0 eq_refl).
Defined.

(** X24.  create-presentation needs Drive even when no folder is given:
    when the Slides service is granted and the Drive service is not, the
    command returns the error of the authorisation and no presentation
    has been created, whatever the folder flag. *)
Theorem create_presentation_needs_drive host env flags title rest c e :
  cli.granted (cli.GetSlidesService host) = Reply tt ->
  cli.granted (cli.GetDriveService host) = Fault e ->
  fst (cli.runCreatePresentation host env flags (title :: rest) c) = Err e
  /\ cli.world (snd (cli.runCreatePresentation host env flags (title :: rest) c))
     = cli.world c.
Proof.
  intros Hslides Hdrive. run_command. read_args.
  rewrite Hslides. cbv beta iota. now rewrite Hdrive.
Qed.

Lemma create_presentation_needs_drive_witness :
  fst (cli.runCreatePresentation hostWithoutDrive (serving fourSlides advancing)
         defaultFlags ["Quarterly"] console0)
  = Err "unable to read credentials file"
  /\ cli.world (snd (cli.runCreatePresentation hostWithoutDrive
                       (serving fourSlides advancing) defaultFlags ["Quarterly"]
                       console0))
     = cli.world console0.
Proof.
  apply (create_presentation_needs_drive hostWithoutDrive
           (serving fourSlides advancing) defaultFlags "Quarterly" [] console0
           "unable to read credentials file" eq_refl eq_refl).
Defined.

(** Runs a command up to its call of the service. *)
Ltac up_to_the_service :=
  run_command; read_args;
  repeat match goal with
         | |- context [strconv.Atoi ?s] =>
             destruct (strconv.Atoi s); cbv beta iota; read_args
         | |- context [cli.granted ?a] =>
             destruct (cli.granted a) as [[]|]; cbv beta iota
         end.

(** X25.  add-slide, create-table and add-shape print the identifier of
    what they created: when one of them succeeds, what it adds to
    standard output, after what the authorisation printed, is one line
    holding an identifier, and the last call it issued is a batch with
    one request that creates an element under exactly that
    identifier. *)
Theorem creating_commands_print_the_created_id host env flags presentationID c :
  let printsCreated (r : outcome unit * cli.Console) :=
    match r with
    | (Ok _, c') =>
        exists id request,
          cli.stdout c'
          = (cli.stdout c +:+ cli.printed (cli.GetSlidesService host)) +:+ id +:+ LF
          /\ createdObjectId request = Some id
          /\ last (calls (cli.world c'))
             = Some (PresentationsBatchUpdate presentationID [request])
    | _ => True
    end in
  printsCreated (cli.runAddSlide host env flags [presentationID] c)
  /\ (forall a1 a2 a3,
        printsCreated (cli.runCreateTable host env [presentationID; a1; a2; a3] c))
  /\ (forall a1 shapeType,
        printsCreated (cli.runAddShape host env [presentationID; a1; shapeType] c)).
Proof.
  intros printsCreated. subst printsCreated. cbv beta.
  split; [|split]; intros.
  - up_to_the_service; try exact I.
    unfold slide.Add, slide.generateObjectID. run_service.
    destruct (presentationsBatchUpdate _ _ _ _) as [[]|]; cbn; [|exact I].
    eexists _, _. split; [reflexivity|]. split; [|apply last_snoc]. reflexivity.
  - up_to_the_service; try exact I.
    unfold table.Create, table.generateObjectID. run_service.
    destruct (presentationsGet _ _ _) as [p|]; cbn; [|exact I].
    destruct (_ >=? len (Slides p)); cbn; [exact I|].
    destruct (index (Slides p) _) as [slide| |]; cbn; try exact I.
    destruct (presentationsBatchUpdate _ _ _ _) as [[]|]; cbn; [|exact I].
    eexists _, _. split; [reflexivity|]. split; [|apply last_snoc]. reflexivity.
  - up_to_the_service; try exact I.
    unfold shape.Add, shape.generateObjectID. run_service.
    destruct (presentationsGet _ _ _) as [p|]; cbn; [|exact I].
    destruct (_ >=? len (Slides p)); cbn; [exact I|].
    destruct (index (Slides p) _) as [slide| |]; cbn; try exact I.
    destruct (presentationsBatchUpdate _ _ _ _) as [[]|]; cbn; [|exact I].
    eexists _, _. split; [reflexivity|]. split; [|apply last_snoc]. reflexivity.
Qed.

(** The command line of the README, on a deck of four slides. *)
Example cli_create_table_example :
  cli.runCreateTable plainHost (serving fourSlides advancing)
    ["deck"; "1"; "3"; "4"] console0
  = (Ok tt,
     {| cli.world :=
          {| calls := [PresentationsGet "deck";
                       PresentationsBatchUpdate "deck"
                         [CreateTable "table_1700000000000000000"
                            {| PageObjectId_ := "b"; Width := 400; Height := 200;
                               ScaleX := 1; ScaleY := 1;
                               TranslateX := 50; TranslateY := 50 |} 3 4]];
             clockReads := 1 |};
        cli.disk := emptyDisk;
        cli.stdout := "table_1700000000000000000" +:+ LF;
        cli.stderr := "✅ Table created (3x4)" +:+ LF |}).
Proof. reflexivity. Qed.

(** * Further properties: cells, replacement and notes *)

(** X26.  UpdateCell, StyleCell and Replace never fetch the presentation
    and check nothing locally: for every table identifier, every row and
    column, negative ones included, and every text, each issues exactly
    one call, a batch of one request carrying its arguments unchanged
    (the text of a cell inserted at index 0, the replacement
    presentation-wide and not case-sensitive), and its outcome is the
    answer of the remote service. *)
Theorem cell_and_text_edits_go_straight_to_the_remote env scan presentationID w :
  (forall tableID row col content,
     table.UpdateCell env presentationID tableID row col content w
     = submitted env "error updating cell" presentationID
         [InsertText tableID (Some {| RowIndex := row; ColumnIndex := col |})
            content 0] w)
  /\ (forall tableID row col bgColor,
     table.StyleCell env scan presentationID tableID row col bgColor w
     = submitted env "error styling cell" presentationID
         [cellFill tableID (table.parseColor scan bgColor) row col] w)
  /\ (forall findText replaceText,
     text.Replace env presentationID findText replaceText w
     = submitted env "error replacing text" presentationID
         [ReplaceAllText findText false replaceText] w).
Proof.
  repeat split; intros;
    unfold table.UpdateCell, table.StyleCell, text.Replace, cellFill; run_service;
    now destruct (presentationsBatchUpdate _ _ _ _) as [[]|].
Qed.

Lemma find_isShape_elem elements element :
  List.find isShape elements = Some element ->
  element ∈ elements /\ isShape element = true.
Proof.
  intros Hfind. apply find_some in Hfind as [Hin Hshape].
  split; [now apply list_elem_of_In|exact Hshape].
Qed.

(** X27.  Whatever the remote service answers and whatever the ordinal,
    notes.Add either submits nothing (and does not succeed), or submits
    exactly one batch of exactly one request, which inserts the given
    text at index 0, so in front of what is there, into a shape of the
    notes page of a slide of the fetched snapshot. *)
Theorem notes_Add_writes_only_into_a_notes_shape env presentationID slideIndex
    notesContent w :
  let r := notes.Add env presentationID slideIndex notesContent w in
  (succeeded (fst r) = false /\ snd r = fetched presentationID w)
  \/ exists p slide notesPage element,
       presentationsGet env (calls w) presentationID = Reply p
       /\ slide ∈ Slides p
       /\ notesPageOf slide = Some notesPage
       /\ element ∈ PageElements notesPage
       /\ isShape element = true
       /\ r = submitted env "error adding notes" presentationID
                [InsertText (ObjectId element) None notesContent 0]
                (fetched presentationID w).
Proof.
  cbn zeta. unfold notes.Add. run_service.
  destruct (presentationsGet env (calls w) presentationID) as [p|e] eqn:Hget; cbn;
    [|now left].
  destruct (slideIndex >=? len (Slides p)); cbn; [now left|].
  destruct (index (Slides p) slideIndex) as [slide| |] eqn:Hslide; cbn;
    try now left.
  destruct (SlideProperties_ slide) as [properties|] eqn:Hproperties; cbn;
    [|now left].
  destruct (NotesPage properties) as [notesPage|] eqn:Hnotes; cbn; [|now left].
  destruct (len (PageElements notesPage) =? 0); cbn; [now left|].
  rewrite findNotesShape_find.
  destruct (List.find isShape (PageElements notesPage)) as [element|] eqn:Hfind;
    cbn; [|now left].
  destruct (String.eqb (ObjectId element) ""); cbn; [now left|].
  right. exists p, slide, notesPage, element.
  apply find_isShape_elem in Hfind as [Helement Hshape].
  repeat split; try assumption.
  - now apply index_Ok_elem in Hslide.
  - unfold notesPageOf. now rewrite Hproperties.
  - now destruct (presentationsBatchUpdate _ _ _ _) as [[]|].
Qed.

(** * Further properties: the ordinals of Reorder *)

Lemma parseIndices_trimmed tokens1 : forall tokens2 acc indices,
  Forall2 (fun t1 t2 => gostrings.TrimSpace t1 = gostrings.TrimSpace t2)
          tokens1 tokens2 ->
  slide.parseIndices tokens1 acc = Ok indices ->
  slide.parseIndices tokens2 acc = Ok indices.
Proof.
  induction tokens1 as [|t1 tokens1 IH]; intros tokens2 acc indices Hall;
    inversion Hall as [|? t2 ? tokens2' Hsame Hrest]; subst; cbn; [easy|].
  rewrite <- Hsame.
  destruct (strconv.Atoi (gostrings.TrimSpace t1)); [|discriminate].
  now apply IH.
Qed.

(** X28.  White space around the ordinals of Reorder does not count: when
    an index string is accepted, every index string whose tokens are the
    same up to surrounding white space, such as "2, 0 ,1" for "2,0,1",
    is accepted too and does exactly the same. *)
Theorem slide_Reorder_ignores_space_around_ordinals env presentationID
    indicesStr1 indicesStr2 indices w :
  Forall2 (fun t1 t2 => gostrings.TrimSpace t1 = gostrings.TrimSpace t2)
          (gostrings.Split indicesStr1 ",") (gostrings.Split indicesStr2 ",") ->
  slide.parseIndices (gostrings.Split indicesStr1 ",") [] = Ok indices ->
  slide.Reorder env presentationID indicesStr2 w
  = slide.Reorder env presentationID indicesStr1 w.
Proof.
  intros Hsame Hparse. unfold slide.Reorder. run_service.
  now rewrite Hparse, (parseIndices_trimmed _ _ _ _ Hsame Hparse).
Qed.

Lemma slide_Reorder_ignores_space_witness :
  slide.Reorder (serving fourSlides advancing) "deck" "2, 0 ,1" World0
  = slide.Reorder (serving fourSlides advancing) "deck" "2,0,1" World0.
Proof.
  apply (slide_Reorder_ignores_space_around_ordinals
           (serving fourSlides advancing) "deck" "2,0,1" "2, 0 ,1" [2; 0; 1] World0).
  - repeat constructor.
  - reflexivity.
Defined.
